(** * K-Online scraper: name normalisation, domain candidates, listing extraction

    A shallow embedding of the decision logic of the package
    [k_online_scraper] (modules [utils/validators.py], [config/settings.py],
    [scraper/domain_generator.py], [scraper/k_online_scraper.py] and
    [utils/data_exporter.py]), the properties that its description states
    about it, and further properties of the code.

    Python values are represented as follows.
    - [str] is a sequence of Unicode code points: [pystr = list N].
    - a [dict] is an association list in insertion order, as CPython keeps it.
    - a [set] of strings is the sequence of its distinct insertions; the order
      in which CPython iterates it (hash order) is a parameter.
    - a call that may raise returns in the exception monad [exc].
    - code that sends requests, drives the browser, sleeps, reads the clock
      or writes files runs in [stateful]: it takes the state of the world
      and returns its outcome with the state that it leaves; what the
      world answers is a parameter.
    - the interpreter's Unicode database is fixed for U+0000..U+00FF and a
      parameter above that range. *)

From Stdlib Require DecimalString.
From Stdlib Require Import List NArith ZArith Bool Lia String Ascii Permutation.
Import ListNotations.
Local Open Scope N_scope.

(* ================================================================== *)
(** ** Python strings *)

Definition char := N.
Definition pystr := list char.

(** Source literals are written as UTF-8 text and decoded to code points. *)
Fixpoint utf8_decode (s : string) (acc : N) (pending : nat) : pystr :=
  match s with
  | EmptyString => []
  | String a r =>
      let b := N_of_ascii a in
      match pending with
      | O =>
          if b <? 128 then b :: utf8_decode r 0 0
          else if b <? 224 then utf8_decode r (b - 192) 1
          else if b <? 240 then utf8_decode r (b - 224) 2
          else utf8_decode r (b - 240) 3
      | S O => (acc * 64 + (b - 128)) :: utf8_decode r 0 0
      | S k => utf8_decode r (acc * 64 + (b - 128)) k
      end
  end.

Definition lit (s : string) : pystr := utf8_decode s 0 0.
Arguments lit s%_string.

Fixpoint str_eqb (a b : pystr) : bool :=
  match a, b with
  | [], [] => true
  | x :: a', y :: b' => (x =? y) && str_eqb a' b'
  | _, _ => false
  end.

(** [x in l] for a list of strings. *)
Definition str_mem (x : pystr) (l : list pystr) : bool := existsb (str_eqb x) l.

(** Truthiness of a string: [if s:] *)
Definition truthy (s : pystr) : bool :=
  match s with [] => false | _ => true end.

(** [s.startswith(p)] *)
Fixpoint startswith (p s : pystr) : bool :=
  match p with
  | [] => true
  | x :: p' => match s with
               | y :: s' => (x =? y) && startswith p' s'
               | [] => false
               end
  end.

(** [s.endswith(p)] *)
Definition endswith (p s : pystr) : bool := startswith (rev p) (rev s).

(** [sub in s] *)
Fixpoint contains (sub s : pystr) : bool :=
  startswith sub s || match s with
                      | [] => false
                      | _ :: r => contains sub r
                      end.

Fixpoint drop_while (p : char -> bool) (s : pystr) : pystr :=
  match s with
  | [] => []
  | c :: r => if p c then drop_while p r else s
  end.

(** [s.strip(...)]: characters satisfying [p] are removed at both ends. *)
Definition strip_by (p : char -> bool) (s : pystr) : pystr :=
  rev (drop_while p (rev (drop_while p s))).

(** [s.replace(old, new)]; [skip] counts the characters of the occurrence
    of [old] that is being consumed. *)
Fixpoint replace_from (old new s : pystr) (skip : nat) : pystr :=
  match s with
  | [] => []
  | c :: r =>
      match skip with
      | S k => replace_from old new r k
      | O => if startswith old s
             then new ++ replace_from old new r (Nat.pred (List.length old))
             else c :: replace_from old new r 0
      end
  end.

Definition replace (old new s : pystr) : pystr :=
  match old with
  | [] => new ++ flat_map (fun c => c :: new) s
  | _ => replace_from old new s 0
  end.

(** [s.split(sep)] for a one-character separator. *)
Fixpoint split_on (sep : char) (s : pystr) : list pystr :=
  match s with
  | [] => [[]]
  | c :: r =>
      if c =? sep then [] :: split_on sep r
      else match split_on sep r with
           | w :: ws => (c :: w) :: ws
           | [] => [[c]]
           end
  end.

(** [sep.join(words)] *)
Fixpoint join (sep : pystr) (ws : list pystr) : pystr :=
  match ws with
  | [] => []
  | [w] => w
  | w :: r => w ++ sep ++ join sep r
  end.

(** [l[:k]] for an [int] bound, negative bounds counting from the end. *)
Definition slice_to {A} (k : Z) (l : list A) : list A :=
  if (0 <=? k)%Z then firstn (Z.to_nat k) l
  else firstn (List.length l - Z.to_nat (- k))%nat l.

Definition hyphen : char := 45.
Definition underscore : char := 95.
Definition plus_sign : char := 43.
Definition is_hyphen (c : char) : bool := c =? hyphen.

(* ================================================================== *)
(** ** Dictionaries and sets *)

(** A [dict] with string keys, in insertion order.  Assigning to a key that
    is present keeps its position and replaces its value. *)
Definition dict (V : Type) := list (pystr * V).

Fixpoint dict_set {V} (d : dict V) (k : pystr) (v : V) : dict V :=
  match d with
  | [] => [(k, v)]
  | (k', v') :: r =>
      if str_eqb k k' then (k', v) :: r else (k', v') :: dict_set r k v
  end.

Fixpoint dict_get {V} (d : dict V) (k : pystr) : option V :=
  match d with
  | [] => None
  | (k', v) :: r => if str_eqb k k' then Some v else dict_get r k
  end.

(** [d.get(k, default)] *)
Definition dict_get_default {V} (d : dict V) (k : pystr) (default : V) : V :=
  match dict_get d k with Some v => v | None => default end.

(** The dictionary denoted by a display [{k1: v1, k2: v2, ...}]. *)
Definition dict_display {V} (items : list (pystr * V)) : dict V :=
  fold_left (fun d kv => dict_set d (fst kv) (snd kv)) items [].

(** [d.update(other)] *)
Definition dict_update {V} (d other : dict V) : dict V :=
  fold_left (fun d kv => dict_set d (fst kv) (snd kv)) other d.

(** A [set] of strings, as the sequence of its distinct insertions. *)
Definition pyset := list pystr.

Definition set_add (s : pyset) (x : pystr) : pyset :=
  if str_mem x s then s else s ++ [x].

(* ================================================================== *)
(** ** Exceptions *)

Inductive exn : Type :=
| ValueError
| gaierror          (* socket.gaierror *)
| OtherException.   (* any other subclass of Exception *)

Inductive exc (A : Type) : Type :=
| Ok (a : A)
| Raise (e : exn).
Arguments Ok {A} a.
Arguments Raise {A} e.

Definition bind {A B} (m : exc A) (f : A -> exc B) : exc B :=
  match m with
  | Ok a => f a
  | Raise e => Raise e
  end.

(** [try: m  except Exception as e: h e] *)
Definition try_except {A} (m : exc A) (h : exn -> exc A) : exc A :=
  match m with
  | Ok a => Ok a
  | Raise e => h e
  end.

Declare Scope exc_scope.
Delimit Scope exc_scope with exc.
Notation "x <- m ;; k" := (bind m (fun x => k))
  (at level 61, m at next level, right associativity) : exc_scope.

(** Code that also reads and changes a state of type [S]: the outcome and
    the state that is left, also when an exception is raised. *)
Definition stateful (S A : Type) : Type := S -> exc A * S.

Definition st_ret {S A} (a : A) : stateful S A := fun w => (Ok a, w).

Definition st_raise {S A} (e : exn) : stateful S A := fun w => (Raise e, w).

Definition st_bind {S A C} (m : stateful S A) (f : A -> stateful S C)
  : stateful S C :=
  fun w => match m w with
           | (Ok a, w') => f a w'
           | (Raise e, w') => (Raise e, w')
           end.

(** [try: m  except Exception: h] *)
Definition st_try {S A} (m : stateful S A) (h : exn -> stateful S A)
  : stateful S A :=
  fun w => match m w with
           | (Ok a, w') => (Ok a, w')
           | (Raise e, w') => h e w'
           end.

(** A step that may raise and leaves the state as it is. *)
Definition st_lift {S A} (m : exc A) : stateful S A := fun w => (m, w).

Declare Scope st_scope.
Delimit Scope st_scope with st.
Notation "x <- m ;; k" := (st_bind m (fun x => k))
  (at level 61, m at next level, right associativity) : st_scope.

(** A [for] loop over [l] that updates an accumulator. *)
Fixpoint st_fold {S A C} (step : C -> A -> stateful S C) (l : list A) (c : C)
  : stateful S C :=
  match l with
  | [] => st_ret c
  | a :: r => (c' <- step c a ;; st_fold step r c')%st
  end.

(* ================================================================== *)
(** ** The interpreter's Unicode database *)

(** Rows of the database above U+00FF. [uni_ieq p c] says whether the text
    character [c] matches the pattern literal [p] under [re.IGNORECASE];
    [uni_lower] is [str.lower] on a string that has a character above
    U+00FF. *)
Class UnicodeData : Type := {
  uni_isalnum : char -> bool;
  uni_isspace : char -> bool;
  uni_isdecimal : char -> bool;
  uni_isdigit : char -> bool;
  uni_ieq : char -> char -> bool;
  uni_lower : pystr -> pystr
}.

Definition in_range (lo hi c : N) : bool := (lo <=? c) && (c <=? hi).

(** [str.isalnum] on U+0000..U+00FF. *)
Definition latin1_isalnum (c : char) : bool :=
  in_range 48 57 c || in_range 65 90 c || in_range 97 122 c
  || (c =? 170) || in_range 178 179 c || (c =? 181) || in_range 185 186 c
  || in_range 188 190 c || in_range 192 214 c || in_range 216 246 c
  || in_range 248 255 c.

(** [str.isspace] on U+0000..U+00FF. *)
Definition latin1_isspace (c : char) : bool :=
  in_range 9 13 c || in_range 28 32 c || (c =? 133) || (c =? 160).

(** [str.isdecimal] on U+0000..U+00FF. *)
Definition latin1_isdecimal (c : char) : bool := in_range 48 57 c.

(** [str.isdigit] on U+0000..U+00FF. *)
Definition latin1_isdigit (c : char) : bool :=
  in_range 48 57 c || in_range 178 179 c || (c =? 185).

(** [str.lower] on one character of U+0000..U+00FF. *)
Definition latin1_lower (c : char) : char :=
  if in_range 65 90 c || in_range 192 214 c || in_range 216 222 c
  then c + 32 else c.

Definition is_latin1 (c : char) : bool := c <? 256.

Section Classes.
Context {U : UnicodeData}.

Definition isalnum (c : char) : bool :=
  if is_latin1 c then latin1_isalnum c else uni_isalnum c.

(** [\s], [str.isspace], and the characters removed by [str.strip()] *)
Definition isspace (c : char) : bool :=
  if is_latin1 c then latin1_isspace c else uni_isspace c.

(** [\d] *)
Definition isdecimal (c : char) : bool :=
  if is_latin1 c then latin1_isdecimal c else uni_isdecimal c.

(** [str.isdigit] *)
Definition isdigit (c : char) : bool :=
  if is_latin1 c then latin1_isdigit c else uni_isdigit c.

(** [\w] *)
Definition is_word (c : char) : bool := isalnum c || (c =? underscore).

(** [s.lower()] *)
Definition lower (s : pystr) : pystr :=
  if forallb is_latin1 s then map latin1_lower s else uni_lower s.

(** A pattern literal [p] against a text character [c] under
    [re.IGNORECASE]. *)
Definition ieq (p c : char) : bool :=
  if is_latin1 p && is_latin1 c then latin1_lower p =? latin1_lower c
  else uni_ieq p c.

(** [\b] between the characters before and after a position; outside the
    string counts as a non-word character. *)
Definition opt_word (c : option char) : bool :=
  match c with Some x => is_word x | None => false end.

Definition word_boundary (before after : option char) : bool :=
  xorb (opt_word before) (opt_word after).

(** [s.strip()] *)
Definition strip (s : pystr) : pystr := strip_by isspace s.

(** [re.sub(r'C+', repl, s)] for a character class [C]: every maximal run
    of class characters becomes one [repl]. *)
Fixpoint sub_runs (cls : char -> bool) (repl : pystr) (s : pystr)
         (in_run : bool) : pystr :=
  match s with
  | [] => []
  | c :: r =>
      if cls c
      then (if in_run then [] else repl) ++ sub_runs cls repl r true
      else c :: sub_runs cls repl r false
  end.

(** The literal part of [\bLIT\b] matched at the head of [s], followed by
    the closing [\b]; [before] is the character in front of [s]. *)
Fixpoint match_literal (pat : pystr) (before : option char) (s : pystr)
  : bool :=
  match pat with
  | [] => word_boundary before (hd_error s)
  | p :: pat' =>
      match s with
      | c :: s' => ieq p c && match_literal pat' (Some c) s'
      | [] => false
      end
  end.

(** [re.sub(rf'\b{re.escape(lit)}\b', '', s, flags=re.IGNORECASE)]:
    leftmost matches, scanned left to right without overlap. *)
Fixpoint sub_word_from (pat : pystr) (before : option char) (s : pystr)
         (skip : nat) : pystr :=
  match s with
  | [] => []
  | c :: r =>
      match skip with
      | S k => sub_word_from pat (Some c) r k
      | O =>
          if word_boundary before (Some c) && match_literal pat before s
          then sub_word_from pat (Some c) r (Nat.pred (List.length pat))
          else c :: sub_word_from pat (Some c) r 0
      end
  end.

Definition sub_word (pat s : pystr) : pystr :=
  match pat with
  | [] => s
  | _ => sub_word_from pat None s 0
  end.

(** [re.search(rf'\b{re.escape(lit)}\b', s, flags=re.IGNORECASE)] as a
    truth value, for a literal that is not empty; [before] is the character
    in front of [s]. *)
Fixpoint search_word (pat : pystr) (before : option char) (s : pystr)
  : bool :=
  match s with
  | [] => false
  | c :: r =>
      (word_boundary before (Some c) && match_literal pat before s)
      || search_word pat (Some c) r
  end.
End Classes.

(* ================================================================== *)
(** ** External packages *)

(** The [validators] package, the resolver behind [socket], and CPython's
    set iteration.  [gethostbyname t d] stands for
    [socket.setdefaulttimeout(t); socket.gethostbyname(d)], of which only
    success or the raised exception is observed.  [set_iter s] is [list(s)]
    for the set built by the insertions [s]. *)
Class Environment : Type := {
  ext_url : pystr -> exc bool;
  ext_email : pystr -> exc bool;
  ext_domain : pystr -> exc bool;
  gethostbyname : Z -> pystr -> exc unit;
  set_iter : pyset -> list pystr
}.

(* ================================================================== *)
(** ** utils/validators.py *)

Module validators.
Section Defs.
Context {U : UnicodeData} {E : Environment}.

Definition validate_url (url : pystr) : bool :=
  match ext_url url with Ok b => b | Raise _ => false end.

Definition validate_email (email : pystr) : bool :=
  match ext_email email with Ok b => b | Raise _ => false end.

Definition validate_domain (domain : pystr) : bool :=
  match ext_domain domain with Ok b => b | Raise _ => false end.

Definition legal_suffixes : list pystr :=
  [ lit "GmbH"; lit "AG"; lit "KG"; lit "OHG"; lit "e.V."; lit "e.K.";
    lit "UG"; lit "Ltd."; lit "Inc."; lit "Corp."; lit "LLC"; lit "Co.";
    lit "& Co."; lit "mbH"; lit "gGmbH" ].

(** The display of [replacements], entry by entry as written. *)
Definition replacements_items : list (pystr * pystr) :=
  [ (lit "ä", lit "ae"); (lit "ö", lit "oe"); (lit "ü", lit "ue");
    (lit "ß", lit "ss");
    (lit "á", lit "a"); (lit "à", lit "a"); (lit "â", lit "a");
    (lit "ã", lit "a");
    (lit "é", lit "e"); (lit "è", lit "e"); (lit "ê", lit "e");
    (lit "ë", lit "e");
    (lit "í", lit "i"); (lit "ì", lit "i"); (lit "î", lit "i");
    (lit "ï", lit "i");
    (lit "ó", lit "o"); (lit "ò", lit "o"); (lit "ô", lit "o");
    (lit "õ", lit "o");
    (lit "ú", lit "u"); (lit "ù", lit "u"); (lit "û", lit "u");
    (lit "ü", lit "u");
    (lit "ñ", lit "n"); (lit "ç", lit "c") ].

Definition replacements : dict pystr := dict_display replacements_items.

(** The loop over [legal_suffixes]. *)
Definition strip_suffixes (name : pystr) : pystr :=
  fold_left (fun cleaned suffix => sub_word suffix cleaned)
            legal_suffixes name.

(** [re.sub(r'[^\w\s-]', '', s)] *)
Definition remove_special (s : pystr) : pystr :=
  filter (fun c => is_word c || isspace c || is_hyphen c) s.

(** The loop over [replacements.items()]. *)
Definition apply_replacements (s : pystr) : pystr :=
  fold_left (fun cleaned kv => replace (fst kv) (snd kv) cleaned)
            replacements s.

Definition clean_company_name (name : pystr) : pystr :=
  if negb (truthy name) then []
  else
    let cleaned := strip_suffixes name in
    let cleaned := remove_special cleaned in
    let cleaned := sub_runs isspace [hyphen] (strip cleaned) false in
    let cleaned := lower cleaned in
    let cleaned := apply_replacements cleaned in
    let cleaned := sub_runs is_hyphen [hyphen] cleaned false in
    strip_by is_hyphen cleaned.

Definition optional_fields : list pystr :=
  [ lit "address"; lit "city"; lit "country"; lit "postal_code";
    lit "phone"; lit "email"; lit "website"; lit "description";
    lit "industry"; lit "booth_number"; lit "contact_person" ].

Definition validate_company_data (company_data : dict pystr)
  : exc (dict pystr) :=
  let company_name :=
    strip (dict_get_default company_data (lit "company_name") []) in
  if truthy company_name then
    Ok (fold_left
          (fun validated field =>
             let value := dict_get_default company_data field [] in
             if truthy value then
               if str_eqb field (lit "email") && negb (validate_email value)
               then validated
               else if str_eqb field (lit "website")
                       && negb (validate_url value)
               then validated
               else dict_set validated field (strip value)
             else validated)
          optional_fields
          (dict_set [] (lit "company_name") company_name))
  else Raise ValueError.

Definition check_domain_availability (domain : pystr) (timeout : Z)
  : exc pystr :=
  if negb (validate_domain domain) then Ok (lit "error")
  else
    try_except
      (_ <- gethostbyname timeout domain ;; Ok (lit "taken"))%exc
      (fun e => match e with
                | gaierror => Ok (lit "available")
                | _ => Ok (lit "error")
                end).

(** [re.sub(r'[^\d+]', '', phone)] *)
Definition keep_digits_plus (phone : pystr) : pystr :=
  filter (fun c => isdecimal c || (c =? plus_sign)) phone.

Definition normalize_phone_number (phone : pystr) : pystr :=
  if negb (truthy phone) then []
  else
    let normalized := keep_digits_plus phone in
    if truthy normalized && negb (startswith (lit "+") normalized) then
      if startswith (lit "0") normalized
      then lit "+49" ++ tl normalized
      else lit "+49" ++ normalized
    else normalized.

(** [\d{n}\b] at the head of [s]. *)
Fixpoint match_digits (n : nat) (before : option char) (s : pystr)
  : option pystr :=
  match n with
  | O => if word_boundary before (hd_error s) then Some [] else None
  | S k =>
      match s with
      | c :: r =>
          if isdecimal c
          then option_map (cons c) (match_digits k (Some c) r)
          else None
      | [] => None
      end
  end.

(** [re.search(r'\b(\d{5})\b', s)], group 1. *)
Fixpoint search_postal_code (before : option char) (s : pystr)
  : option pystr :=
  match s with
  | [] => None
  | c :: r =>
      if word_boundary before (Some c) then
        match match_digits 5 before s with
        | Some m => Some m
        | None => search_postal_code (Some c) r
        end
      else search_postal_code (Some c) r
  end.

Definition extract_postal_code (address_text : pystr) : option pystr :=
  if negb (truthy address_text) then None
  else search_postal_code None address_text.

Definition newline : char := 10.

Definition parse_address (address_text : pystr) : dict pystr :=
  if negb (truthy address_text) then []
  else
    let postal_code := extract_postal_code address_text in
    let result :=
      match postal_code with
      | Some pc => if truthy pc then dict_set [] (lit "postal_code") pc
                   else []
      | None => []
      end in
    let lines :=
      filter truthy (map strip (split_on newline address_text)) in
    match lines with
    | [] => result
    | first :: _ =>
        let result := dict_set result (lit "address") first in
        match postal_code with
        | Some pc =>
            if truthy pc then
              match find (contains pc) lines with
              | Some line =>
                  let city_part := strip (replace pc [] line) in
                  if truthy city_part
                  then dict_set result (lit "city") city_part
                  else result
              | None => result
              end
            else result
        | None => result
        end
    end.
(** The characters of the class in [invalid_chars]: less-than, greater-than,
    colon, double quote, slash, backslash, bar, question mark, asterisk. *)
Definition invalid_filename_char (c : char) : bool :=
  existsb (N.eqb c) [60; 62; 58; 34; 47; 92; 124; 63; 42].

Definition is_underscore (c : char) : bool := c =? underscore.

Definition sanitize_filename (filename : pystr) : pystr :=
  let sanitized :=
    map (fun c => if invalid_filename_char c then underscore else c)
        filename in
  let sanitized := sub_runs is_underscore [underscore] sanitized false in
  firstn 100 (strip_by is_underscore sanitized).

Definition supported_formats : list pystr :=
  [ lit "csv"; lit "json"; lit "excel"; lit "xlsx" ].

Definition validate_export_format (format_name : pystr) : bool :=
  str_mem (lower format_name) supported_formats.

End Defs.
End validators.

(* ================================================================== *)
(** ** config/settings.py *)

Module settings.
(** The keys that the domain generator reads from its configuration. *)
Record config : Type := {
  tlds : option (list pystr);
  max_variants_per_company : option Z;
  check_domain_availability : option bool;
  timeout_dns_check : option Z
}.

Definition DOMAIN_CONFIG : config := {|
  tlds := Some [ lit ".de"; lit ".com"; lit ".org"; lit ".net";
                 lit ".eu"; lit ".at"; lit ".ch" ];
  max_variants_per_company := Some 5%Z;
  check_domain_availability := Some false;
  timeout_dns_check := Some 5%Z
|}.

Definition K_ONLINE_BASE_URL : pystr :=
  lit "https://www.k-online.de/vis/v1/de/directory/a".

(** [bool(config)] of the dictionary. *)
Definition config_truthy (c : config) : bool :=
  match tlds c, max_variants_per_company c,
        check_domain_availability c, timeout_dns_check c with
  | None, None, None, None => false
  | _, _, _, _ => true
  end.
(** The keys of [SCRAPING_CONFIG] that decide what the scraper does. *)
Record scraping_config : Type := {
  retry_attempts : option Z
}.

Definition SCRAPING_CONFIG : scraping_config :=
  {| retry_attempts := Some 3%Z |}.
(** The keys of [EXPORT_CONFIG]. *)
Record export_config : Type := {
  default_format : option pystr;
  output_directory : option pystr;
  filename_prefix : option pystr;
  include_timestamp : option bool
}.

Definition EXPORT_CONFIG : export_config := {|
  default_format := Some (lit "csv");
  output_directory := Some (lit "output");
  filename_prefix := Some (lit "k_online_companies");
  include_timestamp := Some true
|}.

(** [bool(config)] of the dictionary. *)
Definition export_config_truthy (c : export_config) : bool :=
  match default_format c, output_directory c,
        filename_prefix c, include_timestamp c with
  | None, None, None, None => false
  | _, _, _, _ => true
  end.

Definition OUTPUT_FIELDS : list pystr :=
  [ lit "company_name"; lit "address"; lit "city"; lit "country";
    lit "postal_code"; lit "phone"; lit "email"; lit "original_website";
    lit "generated_domains"; lit "domain_status"; lit "source_url";
    lit "scrape_timestamp" ].

(** [get_output_directory()], which creates the directory when it is
    missing: the entry of [EXPORT_CONFIG]. *)
Definition get_output_directory : pystr := lit "output".
End settings.

(* ================================================================== *)
(** ** scraper/domain_generator.py *)

Module domain_generator.
Import settings.

Record DomainGenerator : Type := { self_config : config }.

(** [self.config = config or DOMAIN_CONFIG] *)
Definition init (cfg : option config) : DomainGenerator :=
  match cfg with
  | Some c => if config_truthy c then {| self_config := c |}
              else {| self_config := DOMAIN_CONFIG |}
  | None => {| self_config := DOMAIN_CONFIG |}
  end.

(** The dictionary [domain_info]. *)
Record domain_info : Type := {
  domain : pystr;
  variant : pystr;
  tld : pystr;
  status : pystr
}.

Definition with_status (d : domain_info) (s : pystr) : domain_info :=
  {| domain := domain d; variant := variant d; tld := tld d; status := s |}.

(** Nested [for] loops that append to one result list. *)
Fixpoint for_each {A B} (l : list A) (body : A -> exc (list B))
  : exc (list B) :=
  match l with
  | [] => Ok []
  | a :: r =>
      (x <- body a ;;
       y <- for_each r body ;;
       Ok (x ++ y))%exc
  end.

Section Defs.
Context {U : UnicodeData} {E : Environment}.

(** The function bound to the imported name [check_domain_availability]
    when [generate_full_domains] runs. *)
Variable probe : pystr -> Z -> exc pystr.

Definition max_variants (self : DomainGenerator) : Z :=
  match max_variants_per_company (self_config self) with
  | Some k => k
  | None => 5%Z
  end.

Definition common_words : list pystr :=
  [ lit "gmbh"; lit "ag"; lit "kg"; lit "ohg"; lit "ev"; lit "ek";
    lit "ug"; lit "ltd"; lit "inc"; lit "corp"; lit "llc"; lit "co";
    lit "company"; lit "systems"; lit "solutions"; lit "services";
    lit "international"; lit "group"; lit "holding"; lit "consulting";
    lit "engineering"; lit "technology"; lit "tech"; lit "software";
    lit "digital"; lit "and"; lit "und"; lit "the"; lit "der"; lit "die";
    lit "das" ].

Definition _create_short_variant (name : pystr) : pystr :=
  let words :=
    filter (fun word => negb (str_mem (lower word) common_words))
           (split_on hyphen name) in
  if negb (Nat.eqb (List.length words) 0)
  then join [hyphen] words else name.

Definition number_suffixes : list pystr :=
  [ lit "24"; lit "365"; lit "2024" ].

(** The set [variants] just before it is converted to a list. *)
Definition variant_set (self : DomainGenerator) (base_name : pystr)
  : pyset :=
  let variants := set_add [] base_name in
  let no_hyphens := replace [hyphen] [] base_name in
  let variants :=
    if truthy no_hyphens && negb (str_eqb no_hyphens base_name)
    then set_add variants no_hyphens else variants in
  let words := filter truthy (split_on hyphen base_name) in
  let variants :=
    if (1 <? List.length words)%nat then
      let abbreviation :=
        flat_map (fun word => firstn 1 word) (filter truthy words) in
      if (2 <=? List.length abbreviation)%nat
      then set_add variants abbreviation else variants
    else variants in
  let short_variant := _create_short_variant base_name in
  let variants :=
    if truthy short_variant && negb (str_eqb short_variant base_name)
    then set_add variants short_variant else variants in
  if (Z.of_nat (List.length variants) <? max_variants self)%Z
  then fold_left (fun vs num => set_add vs (base_name ++ num))
                 number_suffixes variants
  else variants.

Definition generate_domain_variants (self : DomainGenerator)
           (company_name : pystr) : list pystr :=
  if negb (truthy company_name) then []
  else
    let base_name := validators.clean_company_name company_name in
    if negb (truthy base_name) then []
    else slice_to (max_variants self) (set_iter (variant_set self base_name)).

Definition config_tlds (self : DomainGenerator) : list pystr :=
  match tlds (self_config self) with
  | Some l => l
  | None => [ lit ".de"; lit ".com" ]
  end.

Definition config_check (self : DomainGenerator) : bool :=
  match check_domain_availability (self_config self) with
  | Some b => b
  | None => false
  end.

Definition config_timeout (self : DomainGenerator) : Z :=
  match timeout_dns_check (self_config self) with
  | Some t => t
  | None => 5%Z
  end.

(** The body of the inner loop for one variant and one TLD. *)
Definition domain_entry (self : DomainGenerator) (v t : pystr)
  : exc (list domain_info) :=
  let d := v ++ t in
  if negb (validators.validate_domain d) then Ok []
  else
    let info := {| domain := d; variant := v; tld := t;
                   status := lit "unknown" |} in
    if config_check self then
      (info' <- try_except
                  (s <- probe d (config_timeout self) ;;
                   Ok (with_status info s))
                  (fun _ => Ok (with_status info (lit "error"))) ;;
       Ok [info'])%exc
    else Ok [info].

Definition generate_full_domains_with (self : DomainGenerator)
           (company_name : pystr) : exc (list domain_info) :=
  let variants := generate_domain_variants self company_name in
  for_each variants
    (fun v => for_each (config_tlds self) (fun t => domain_entry self v t)).
End Defs.

(** The method as the module runs it, with the probe imported from
    [utils.validators]. *)
Definition generate_full_domains {U : UnicodeData} {E : Environment}
           (self : DomainGenerator) (company_name : pystr)
  : exc (list domain_info) :=
  generate_full_domains_with validators.check_domain_availability
                             self company_name.
(** Values held by the dictionaries of companies once domains are attached:
    strings, integers, lists of [domain_info] and status counts. *)
Inductive value : Type :=
| VStr (s : pystr)
| VInt (n : Z)
| VDomains (l : list domain_info)
| VCounts (d : dict Z).

(** [bool(v)] *)
Definition value_truthy (v : value) : bool :=
  match v with
  | VStr s => truthy s
  | VInt n => negb (n =? 0)%Z
  | VDomains l => negb (Nat.eqb (List.length l) 0)
  | VCounts d => negb (Nat.eqb (List.length d) 0)
  end.

(** [counts[key] = counts.get(key, 0) + 1] *)
Definition count_up (counts : dict Z) (key : pystr) : dict Z :=
  dict_set counts key (dict_get_default counts key 0%Z + 1)%Z.

(** [for d in v: ...] where the body subscripts [d] with a string: a list
    of [domain_info] is iterated; an empty string or dictionary gives no
    iteration; anything else raises [TypeError]. *)
Definition iter_domains (v : value) : exc (list domain_info) :=
  match v with
  | VDomains l => Ok l
  | VStr [] => Ok []
  | VCounts [] => Ok []
  | _ => Raise OtherException
  end.

(** [sum(...)] of values that must be integers. *)
Fixpoint sum_ints (vs : list value) (acc : Z) : exc Z :=
  match vs with
  | [] => Ok acc
  | VInt n :: r => sum_ints r (acc + n)%Z
  | _ :: _ => Raise OtherException
  end.

(** A [for] loop that updates an accumulator and may raise. *)
Fixpoint fold_exc {A S} (step : S -> A -> exc S) (l : list A) (s : S)
  : exc S :=
  match l with
  | [] => Ok s
  | a :: r => (s' <- step s a ;; fold_exc step r s')%exc
  end.

(** Floating-point arithmetic of the interpreter: [truediv a b] is [a / b]
    on integers and [round2 x] is [round(x, 2)]. *)
Class Floats : Type := {
  pyfloat : Type;
  truediv : Z -> Z -> pyfloat;
  round2 : pyfloat -> pyfloat
}.

Inductive number {F : Floats} : Type :=
| NInt (n : Z)
| NFloat (x : pyfloat).

(** The dictionary returned by [get_domain_statistics]. *)
Record statistics {F : Floats} : Type := {
  total_companies : Z;
  total_domains : Z;
  avg_domains_per_company : number;
  status_distribution : dict Z;
  tld_distribution : dict Z
}.

Section Processing.
Context {U : UnicodeData} {E : Environment} {F : Floats}.

(** The body of the loop of [process_companies] for one company.  A name
    that is not a string and not falsy makes [re.sub] raise [TypeError]. *)
Definition process_company (self : DomainGenerator) (company : dict value)
  : exc (list (dict value)) :=
  let company_name :=
    dict_get_default company (lit "company_name") (VStr []) in
  if negb (value_truthy company_name) then Ok []
  else
    match company_name with
    | VStr name =>
        (domains <- generate_full_domains self name ;;
         let result := company in
         let result :=
           dict_set result (lit "generated_domains") (VDomains domains) in
         let result :=
           dict_set result (lit "domain_count")
                    (VInt (Z.of_nat (List.length domains))) in
         let domain_list := map domain domains in
         let result :=
           dict_set result (lit "domain_list")
                    (VStr (join (lit ", ") domain_list)) in
         let status_counts := fold_left count_up (map status domains) [] in
         let result :=
           dict_set result (lit "domain_status_summary")
                    (VCounts status_counts) in
         Ok [result])%exc
    | _ => Raise OtherException
    end.

Definition process_companies (self : DomainGenerator)
           (companies : list (dict value)) : exc (list (dict value)) :=
  for_each companies (process_company self).

Definition get_domain_statistics (self : DomainGenerator)
           (processed_companies : list (dict value)) : exc statistics :=
  let total_companies := Z.of_nat (List.length processed_companies) in
  (total_domains <-
     sum_ints (map (fun comp =>
                      dict_get_default comp (lit "domain_count") (VInt 0%Z))
                   processed_companies) 0%Z ;;
   dists <-
     fold_exc
       (fun dists company =>
          domains <-
            iter_domains (dict_get_default company (lit "generated_domains")
                                           (VDomains [])) ;;
          Ok (fold_left
                (fun ds d => (count_up (fst ds) (status d),
                              count_up (snd ds) (tld d)))
                domains dists))
       processed_companies ([], []) ;;
   let avg_domains_per_company :=
     if (0 <? total_companies)%Z
     then NFloat (round2 (truediv total_domains total_companies))
     else NInt 0%Z in
   Ok {| total_companies := total_companies;
         total_domains := total_domains;
         avg_domains_per_company := avg_domains_per_company;
         status_distribution := fst dists;
         tld_distribution := snd dists |})%exc.
End Processing.

Definition create_domain_generator (cfg : option config) : DomainGenerator :=
  init cfg.

End domain_generator.

(* ================================================================== *)
(** ** scraper/k_online_scraper.py *)

(** The part of BeautifulSoup that the scraper calls on a parsed tree.
    [find_all el names (Some pat)] is
    [el.find_all(names, class_=re.compile(pat, re.I))] and
    [find_all el names None] is [el.find_all(names)];
    [find_all_links el] is [el.find_all('a', href=True)];
    [get_text el strip] is [el.get_text(strip=strip)];
    [get_href a] is [a.get('href', '')]. *)
Class Soup : Type := {
  Tag : Type;
  select : Tag -> pystr -> list Tag;
  find_all : Tag -> list pystr -> option pystr -> list Tag;
  find_all_links : Tag -> list Tag;
  get_text : Tag -> bool -> pystr;
  get_href : Tag -> pystr
}.

(** [re.search(pattern, text, flags)]: the groups 1, 2, ... of the leftmost
    match, with [ignore_case] for [re.I]. *)
Class Regex : Type := {
  re_search : pystr -> bool -> pystr -> option (list pystr)
}.

Module k_online_scraper.
Section Defs.
Context {U : UnicodeData} {E : Environment} {B : Soup} {R : Regex}.

Record KOnlineScraper : Type := { base_url : pystr }.

Definition init : KOnlineScraper :=
  {| base_url := settings.K_ONLINE_BASE_URL |}.

(** [el.find(names, ...)]: the first result of [find_all], if any. *)
Definition find_first (el : Tag) (names : list pystr) (pat : option pystr)
  : option Tag :=
  hd_error (find_all el names pat).

(** [match.group(i)] *)
Definition group (i : nat) (groups : list pystr) : pystr :=
  nth (Nat.pred i) groups [].

Definition headings : list pystr := [ lit "h2"; lit "h3"; lit "h4" ].

Definition phone_patterns : list pystr :=
  [ lit "(\+?\d{1,3}[\s\-]?\(?\d{1,4}\)?[\s\-]?\d{1,4}[\s\-]?\d{1,9})";
    lit "(Tel\.?\s*:?\s*\+?\d[\d\s\-\(\)]{7,})";
    lit "(Telefon\s*:?\s*\+?\d[\d\s\-\(\)]{7,})" ].

Definition email_pattern : pystr :=
  lit "([a-zA-Z0-9._%+-]+@[a-zA-Z0-9.-]+\.[a-zA-Z]{2,})".

Definition booth_pattern : pystr :=
  lit "(Stand|Booth|Halle)\s*:?\s*([A-Z]?\d+[A-Z]?\d*)".

(** The heuristics that fill [company_data['company_name']]; [None] when
    the key is never set. *)
Definition extract_name (element : Tag) : option pystr :=
  let name_element :=
    match find_first element headings (Some (lit ".*name.*|.*title.*")) with
    | Some e => Some e
    | None => find_first element headings None
    end in
  match name_element with
  | Some e => Some (get_text e true)
  | None =>
      option_map (fun strong => get_text strong true)
        (find (fun strong =>
                 let text := get_text strong true in
                 (5 <? List.length text)%nat
                 && negb (existsb isdigit (firstn 5 text)))
              (find_all element [lit "strong"] None))
  end.

(** The loop over [phone_patterns]. *)
Fixpoint extract_phone (patterns : list pystr) (text_content : pystr)
  : option pystr :=
  match patterns with
  | [] => None
  | pattern :: rest =>
      match re_search pattern true text_content with
      | Some groups =>
          let phone := validators.normalize_phone_number (group 1 groups) in
          if truthy phone then Some phone
          else extract_phone rest text_content
      | None => extract_phone rest text_content
      end
  end.

Definition set_if {V} (d : dict V) (k : pystr) (v : option V) : dict V :=
  match v with Some x => dict_set d k x | None => d end.

(** The body of the [try] block. *)
Definition parse_company_body (self : KOnlineScraper) (element : Tag)
           (source_url : option pystr) : exc (option (dict pystr)) :=
  let company_data := set_if [] (lit "company_name") (extract_name element) in
  if negb (truthy (dict_get_default company_data (lit "company_name") []))
  then Ok None
  else
    let address_text :=
      fold_left
        (fun acc addr_elem =>
           let addr_text := get_text addr_elem true in
           if truthy addr_text then acc ++ addr_text ++ [validators.newline]
           else acc)
        (find_all element [lit "p"; lit "div"]
                  (Some (lit ".*address.*|.*contact.*")))
        [] in
    let company_data :=
      if truthy address_text then
        dict_set
          (dict_update company_data (validators.parse_address address_text))
          (lit "address") (strip address_text)
      else company_data in
    let text_content := get_text element false in
    let company_data :=
      set_if company_data (lit "phone")
             (extract_phone phone_patterns text_content) in
    let company_data :=
      set_if company_data (lit "email")
             (option_map (group 1)
                         (re_search email_pattern false text_content)) in
    let company_data :=
      set_if company_data (lit "website")
             (find (fun href => startswith (lit "http") href
                                && negb (contains (lit "k-online.de") href))
                   (map get_href (find_all_links element))) in
    let company_data :=
      set_if company_data (lit "booth_number")
             (option_map (group 2)
                         (re_search booth_pattern true text_content)) in
    let company_data :=
      set_if company_data (lit "industry")
             (find truthy
                   (map (fun cat_elem => get_text cat_elem true)
                        (find_all element [lit "span"; lit "div"]
                           (Some (lit ".*category.*|.*industry.*|.*sector.*")))))
    in
    let company_data :=
      dict_set company_data (lit "source_url")
               (match source_url with
                | Some u => if truthy u then u else base_url self
                | None => base_url self
                end) in
    (validated <- validators.validate_company_data company_data ;;
     Ok (Some validated))%exc.

(** [try: ... except Exception: return None] *)
Definition _parse_company_from_element (self : KOnlineScraper)
           (element : Tag) (source_url : option pystr)
  : option (dict pystr) :=
  match parse_company_body self element source_url with
  | Ok r => r
  | Raise _ => None
  end.

(** The selector [[class*="v"]]. *)
Definition class_contains_selector (v : pystr) : pystr :=
  lit "[class*=" ++ [34] ++ v ++ [34] ++ lit "]".

Definition company_selectors : list pystr :=
  [ lit ".exhibitor-item"; lit ".company-item"; lit ".listing-item";
    lit ".directory-entry"; class_contains_selector (lit "exhibitor");
    class_contains_selector (lit "company");
    class_contains_selector (lit "listing") ].

(** The loop over [company_selectors]: the elements of the first selector
    that selects something, and nothing when none does. *)
Fixpoint first_selected (soup : Tag) (selectors : list pystr) : list Tag :=
  match selectors with
  | [] => []
  | selector :: rest =>
      match select soup selector with
      | [] => first_selected soup rest
      | elements => elements
      end
  end.

(** [\d{n}] at the head of [s]. *)
Fixpoint digit_run (n : nat) (s : pystr) : bool :=
  match n with
  | O => true
  | S k => match s with
           | c :: r => isdecimal c && digit_run k r
           | [] => false
           end
  end.

(** [re.search(r'\d{n}', s)] as a truth value. *)
Fixpoint search_digit_run (n : nat) (s : pystr) : bool :=
  digit_run n s || match s with
                   | [] => false
                   | _ :: r => search_digit_run n r
                   end.

Definition company_keywords : list pystr :=
  [ lit "gmbh"; lit "ag"; lit "kg"; lit "ltd"; lit "inc"; lit "corp" ].

(** The test of the fallback on one container. *)
Definition looks_like_listing (div : Tag) : bool :=
  let text := get_text div true in
  (50 <? List.length text)%nat
  && existsb (fun keyword => contains keyword (lower text)) company_keywords
  && (search_digit_run 5 text || contains (lit "@") text).

(** [company_elements] when the loop over the listing elements starts. *)
Definition locate_listings (soup : Tag) : list Tag :=
  match first_selected soup company_selectors with
  | [] => filter looks_like_listing
                 (find_all soup [lit "div"; lit "article"; lit "section"] None)
  | company_elements => company_elements
  end.

(** [response] is the parsed page, or [None] when the request failed. *)
Definition _scrape_page_with_requests (self : KOnlineScraper)
           (response : option Tag) (url : pystr) : list (dict pystr) :=
  match response with
  | None => []
  | Some soup =>
      flat_map
        (fun element =>
           match _parse_company_from_element self element (Some url) with
           | Some ((_ :: _) as company) => [company]
           | _ => []
           end)
        (locate_listings soup)
  end.
End Defs.

(** *** Fetching pages *)

(** What one [session.get(url, timeout=...)] followed by
    [raise_for_status()] gives: a response, whose body is kept as the tree
    that BeautifulSoup parses it to, a [requests.RequestException], or
    another exception. *)
Inductive http_result {B : Soup} : Type :=
| HttpResponse (content : Tag)
| RequestException
| HttpOtherError.

(** What a call on the browser gives: its value, a [TimeoutException]
    or another [WebDriverException], or an exception of another class. *)
Inductive driver_result (A : Type) : Type :=
| DriverOk (a : A)
| TimeoutException
| WebDriverException
| DriverOtherError.
Arguments DriverOk {A} a.
Arguments TimeoutException {A}.
Arguments WebDriverException {A}.
Arguments DriverOtherError {A}.

(** The world outside the scraper.  [session_get n url] is the answer to
    the call of [session.get] that comes after [n] earlier calls;
    [setup_driver n] is the same for [_setup_selenium_driver];
    [driver_get n url] is [driver.get(url)] followed by the wait for the
    body, and [page_source n] the parsed [driver.page_source], for the
    page that is loaded after [n] earlier ones; [urljoin] is
    [urllib.parse.urljoin]; [find_all_by_text soup name pat] is
    [soup.find_all(name, text=re.compile(pat, re.I))]. *)
Class Web {B : Soup} : Type := {
  session_get : nat -> pystr -> http_result;
  setup_driver : nat -> exc unit;
  driver_get : nat -> pystr -> driver_result unit;
  page_source : nat -> driver_result Tag;
  urljoin : pystr -> pystr -> pystr;
  find_all_by_text : Tag -> pystr -> pystr -> list Tag
}.

(** Why the scraper sleeps: between two attempts of a request, after a
    page is loaded in the browser, between two pages. *)
Inductive sleep_reason : Type :=
| RetryDelay
| PageSettle
| RateLimit.

(** What the scraper has done so far, and whether [self.driver] is set. *)
Record world : Type := {
  requests_made : nat;
  setups_made : nat;
  pages_loaded : nat;
  slept : list sleep_reason;
  has_driver : bool
}.

Definition initial_world : world :=
  {| requests_made := 0; setups_made := 0; pages_loaded := 0;
     slept := []; has_driver := false |}.

(** [time.sleep(...)] *)
Definition sleep (reason : sleep_reason) : stateful world unit :=
  fun w => (Ok tt,
            {| requests_made := requests_made w;
               setups_made := setups_made w;
               pages_loaded := pages_loaded w;
               slept := slept w ++ [reason];
               has_driver := has_driver w |}).

Section Fetching.
Import settings.
Context {U : UnicodeData} {E : Environment} {B : Soup} {R : Regex}
        {W : Web}.

(** One call of [session.get] with [raise_for_status]. *)
Definition request (url : pystr) : stateful world http_result :=
  fun w => (Ok (session_get (requests_made w) url),
            {| requests_made := S (requests_made w);
               setups_made := setups_made w;
               pages_loaded := pages_loaded w;
               slept := slept w;
               has_driver := has_driver w |}).

(** The loop [for attempt in range(retries)] with [remaining] iterations
    to go. *)
Fixpoint attempts (remaining : nat) (url : pystr)
  : stateful world (option Tag) :=
  match remaining with
  | O => st_ret None
  | S later =>
      (r <- request url ;;
       match r with
       | HttpResponse content => st_ret (Some content)
       | RequestException =>
           match later with
           | O => st_ret None
           | S _ => (_ <- sleep RetryDelay ;; attempts later url)
           end
       | HttpOtherError => st_raise OtherException
       end)%st
  end.

(** [retries or self.config.get('retry_attempts', 3)] *)
Definition effective_retries (config : scraping_config) (retries : option Z)
  : Z :=
  match retries with
  | Some n => if (n =? 0)%Z
              then match retry_attempts config with
                   | Some k => k
                   | None => 3%Z
                   end
              else n
  | None => match retry_attempts config with
            | Some k => k
            | None => 3%Z
            end
  end.

Definition _make_request (config : scraping_config) (url : pystr)
           (retries : option Z)
  : stateful world (option Tag) :=
  attempts (Z.to_nat (effective_retries config retries)) url.

(** [_scrape_page_with_requests], from the request on. *)
Definition scrape_page_with_requests (self : KOnlineScraper)
           (config : scraping_config) (url : pystr)
  : stateful world (list (dict pystr)) :=
  (response <- _make_request config url None ;;
   st_ret (_scrape_page_with_requests self response url))%st.

(** [self._setup_selenium_driver()] when [self.driver] is not set. *)
Definition ensure_driver : stateful world unit :=
  fun w =>
    if has_driver w then (Ok tt, w)
    else
      match setup_driver (setups_made w) with
      | Ok _ => (Ok tt,
                 {| requests_made := requests_made w;
                    setups_made := S (setups_made w);
                    pages_loaded := pages_loaded w;
                    slept := slept w;
                    has_driver := true |})
      | Raise e => (Raise e,
                    {| requests_made := requests_made w;
                       setups_made := S (setups_made w);
                       pages_loaded := pages_loaded w;
                       slept := slept w;
                       has_driver := false |})
      end.

(** [driver.get(url)] and the wait for the body; the value is the number
    of the page. *)
Definition load_page (url : pystr)
  : stateful world (nat * driver_result unit) :=
  fun w => (Ok (pages_loaded w, driver_get (pages_loaded w) url),
            {| requests_made := requests_made w;
               setups_made := setups_made w;
               pages_loaded := S (pages_loaded w);
               slept := slept w;
               has_driver := has_driver w |}).

(** The two [except] clauses of [_scrape_page_with_selenium]: the value,
    the empty list for the two exceptions of the browser; any other
    exception goes on. *)
Definition driver_step {A} (r : driver_result A)
           (k : A -> stateful world (list (dict pystr)))
  : stateful world (list (dict pystr)) :=
  match r with
  | DriverOk a => k a
  | TimeoutException => st_ret []
  | WebDriverException => st_ret []
  | DriverOtherError => st_raise OtherException
  end.

Definition parse_elements (self : KOnlineScraper) (elements : list Tag)
           (url : pystr) : list (dict pystr) :=
  flat_map
    (fun element =>
       match _parse_company_from_element self element (Some url) with
       | Some ((_ :: _) as company) => [company]
       | _ => []
       end)
    elements.

Definition _scrape_page_with_selenium (self : KOnlineScraper) (url : pystr)
  : stateful world (list (dict pystr)) :=
  (_ <- ensure_driver ;;
   page <- load_page url ;;
   driver_step (snd page) (fun _ =>
     _ <- sleep PageSettle ;;
     driver_step (page_source (fst page)) (fun soup =>
       st_ret
         (parse_elements self (first_selected soup company_selectors)
                         url))))%st.

(** The selector [a[href*="v"]]. *)
Definition href_contains_selector (v : pystr) : pystr :=
  lit "a[href*=" ++ [34] ++ v ++ [34] ++ lit "]".

Definition pagination_selectors : list pystr :=
  [ lit ".pagination a"; lit ".pager a"; lit ".page-numbers a";
    class_contains_selector (lit "page") ++ lit " a";
    href_contains_selector (lit "page");
    href_contains_selector (lit "offset") ].

(** The set [page_links]; a link without [href], or with an empty one,
    is passed over. *)
Definition page_links (soup : Tag) (base_url : pystr) : pyset :=
  fold_left
    (fun links selector =>
       fold_left
         (fun links link =>
            let href := get_href link in
            if truthy href then set_add links (urljoin base_url href)
            else links)
         (select soup selector) links)
    pagination_selectors [].

(** The loop over [next_links]. *)
Definition add_next_links (soup : Tag) (base_url : pystr)
           (urls : list pystr) : list pystr :=
  fold_left
    (fun urls link =>
       let href := get_href link in
       if truthy href then
         let full_url := urljoin base_url href in
         if str_mem full_url urls then urls else urls ++ [full_url]
       else urls)
    (find_all_by_text soup (lit "a") (lit "next|weiter|more|mehr"))
    urls.

Definition _discover_pagination_urls (config : scraping_config)
           (base_url : pystr)
  : stateful world (list pystr) :=
  let urls := [base_url] in
  st_try
    (response <- _make_request config base_url None ;;
     match response with
     | None => st_ret urls
     | Some soup =>
         let links := page_links soup base_url in
         let urls :=
           match links with
           | [] => urls
           | _ => urls ++ set_iter links
           end in
         st_ret (add_next_links soup base_url urls)
     end)%st
    (fun _ => st_ret urls).

(** The loop of [scrape_companies] over the pages that are left. *)
Fixpoint scrape_pages (self : KOnlineScraper) (config : scraping_config)
         (use_selenium : bool) (urls : list pystr)
         (all_companies : list (dict pystr))
  : stateful world (list (dict pystr)) :=
  match urls with
  | [] => st_ret all_companies
  | url :: rest =>
      (all_companies' <-
         st_try
           (companies <-
              (if use_selenium then _scrape_page_with_selenium self url
               else scrape_page_with_requests self config url) ;;
            _ <- match rest with
                 | [] => st_ret tt
                 | _ => sleep RateLimit
                 end ;;
            st_ret (all_companies ++ companies))
           (fun _ => st_ret all_companies) ;;
       scrape_pages self config use_selenium rest all_companies')%st
  end.

Definition scrape_companies (self : KOnlineScraper)
           (config : scraping_config) (use_selenium : bool)
           (max_pages : option Z)
  : stateful world (list (dict pystr)) :=
  (urls_to_scrape <- _discover_pagination_urls config (base_url self) ;;
   let urls_to_scrape :=
     match max_pages with
     | Some n => if (n =? 0)%Z then urls_to_scrape
                 else slice_to n urls_to_scrape
     | None => urls_to_scrape
     end in
   scrape_pages self config use_selenium urls_to_scrape [])%st.
End Fetching.

End k_online_scraper.

(* ================================================================== *)
(** ** utils/data_exporter.py *)

Module data_exporter.
Import domain_generator.

Record DataExporter : Type := {
  exporter_config : settings.export_config;
  output_dir : pystr
}.

(** [self.config = config or EXPORT_CONFIG]; [self.output_dir] comes from
    [get_output_directory()], which does not look at [config]. *)
Definition init (cfg : option settings.export_config) : DataExporter :=
  {| exporter_config :=
       match cfg with
       | Some c => if settings.export_config_truthy c then c
                   else settings.EXPORT_CONFIG
       | None => settings.EXPORT_CONFIG
       end;
     output_dir := settings.get_output_directory |}.

(** The clock and the file system.  [now_strftime n] and [now_isoformat n]
    are [datetime.now().strftime('%Y%m%d_%H%M%S')] and
    [datetime.now().isoformat()] when the clock was read [n] times before;
    [open_for_writing n path] is [open(path, 'w', ...)] after [n] earlier
    calls, of which only success or the exception is observed. *)
Class Platform : Type := {
  now_strftime : nat -> pystr;
  now_isoformat : nat -> pystr;
  open_for_writing : nat -> pystr -> exc unit
}.

(** What is handed to the writer of a file: to [csv.DictWriter] the field
    names and the rows that it has written, to [json.dump] the metadata
    and the companies. *)
Inductive document : Type :=
| CsvDocument (fieldnames : list pystr) (rows : list (list value))
| JsonDocument (export_timestamp : pystr) (total_companies : Z)
               (fields : list pystr) (companies : list (dict value)).

(** How often the clock was read and a file was opened, and the files
    written, oldest first. *)
Record files : Type := {
  clock_reads : nat;
  opens : nat;
  written : list (pystr * document)
}.

Definition no_files : files :=
  {| clock_reads := 0; opens := 0; written := [] |}.

(** [str(n)] of an integer. *)
Definition str_of_Z (n : Z) : pystr :=
  lit (DecimalString.NilZero.string_of_int (Z.to_int n)).

(** [os.path.join(a, b)] of [posixpath]. *)
Definition path_join (a b : pystr) : pystr :=
  if startswith (lit "/") b then b
  else if negb (truthy a) || endswith (lit "/") a then a ++ b
  else a ++ lit "/" ++ b.

Definition extensions : dict pystr :=
  dict_display [ (lit "csv", lit ".csv"); (lit "json", lit ".json");
                 (lit "excel", lit ".xlsx"); (lit "xlsx", lit ".xlsx") ].

Section Defs.
Context {U : UnicodeData} {E : Environment} {P : Platform}.

(** [datetime.now()] formatted by [format]. *)
Definition read_clock (format : nat -> pystr) : stateful files pystr :=
  fun w => (Ok (format (clock_reads w)),
            {| clock_reads := S (clock_reads w);
               opens := opens w;
               written := written w |}).

Definition open_file (path : pystr) : stateful files unit :=
  fun w => (open_for_writing (opens w) path,
            {| clock_reads := clock_reads w;
               opens := S (opens w);
               written := written w |}).

(** The file at [path] holds [doc] when it is closed. *)
Definition write (path : pystr) (doc : document) : stateful files unit :=
  fun w => (Ok tt,
            {| clock_reads := clock_reads w;
               opens := opens w;
               written := written w ++ [(path, doc)] |}).

Definition _generate_filename (self : DataExporter) (format_type : pystr)
           (custom_name : option pystr) : stateful files pystr :=
  let prefix :=
    match settings.filename_prefix (exporter_config self) with
    | Some p => p
    | None => lit "k_online_companies"
    end in
  let base_name :=
    match custom_name with
    | Some name => if truthy name then validators.sanitize_filename name
                   else prefix
    | None => prefix
    end in
  (base_name <-
     match settings.include_timestamp (exporter_config self) with
     | Some false => st_ret base_name
     | _ => timestamp <- read_clock now_strftime ;;
            st_ret (base_name ++ lit "_" ++ timestamp)
     end ;;
   let extension :=
     dict_get_default extensions (lower format_type) (lit ".csv") in
   st_ret (base_name ++ extension))%st.

(** One iteration of the loop over [fields]. *)
Definition prepare_field (company : dict value) (row : dict value)
           (field : pystr) : stateful files (dict value) :=
  if str_eqb field (lit "generated_domains") then
    (domains <-
       st_lift (iter_domains
                  (dict_get_default company (lit "generated_domains")
                                    (VDomains []))) ;;
     let domain_strings :=
       map (fun d => domain d ++ lit " (" ++ status d ++ lit ")") domains in
     st_ret (dict_set row field (VStr (join (lit "; ") domain_strings))))%st
  else if str_eqb field (lit "domain_status") then
    (domains <-
       st_lift (iter_domains
                  (dict_get_default company (lit "generated_domains")
                                    (VDomains []))) ;;
     let status_summary := fold_left count_up (map status domains) [] in
     st_ret
       (dict_set row field
          (VStr (join (lit ", ")
                      (map (fun kv => fst kv ++ lit ": " ++ str_of_Z (snd kv))
                           status_summary)))))%st
  else if str_eqb field (lit "scrape_timestamp") then
    (timestamp <- read_clock now_isoformat ;;
     st_ret (dict_set row field (VStr timestamp)))%st
  else if str_eqb field (lit "source_url") then
    st_ret (dict_set row field
              (dict_get_default company (lit "source_url")
                 (VStr (lit "https://www.k-online.de/vis/v1/de/directory/a"))))
  else
    st_ret (dict_set row field (dict_get_default company field (VStr []))).

Definition _prepare_data_for_export (companies : list (dict value))
           (fields : option (list pystr))
  : stateful files (list (dict value)) :=
  let fields :=
    match fields with
    | Some ((_ :: _) as fields) => fields
    | _ => settings.OUTPUT_FIELDS
    end in
  st_fold
    (fun export_data company =>
       (row <- st_fold (prepare_field company) fields [] ;;
        st_ret (export_data ++ [row]))%st)
    companies [].

(** [DictWriter._dict_to_list] with [extrasaction='raise'] and
    [restval='']. *)
Definition dict_to_list (fieldnames : list pystr) (rowdict : dict value)
  : exc (list value) :=
  if forallb (fun kv => str_mem (fst kv) fieldnames) rowdict
  then Ok (map (fun key => dict_get_default rowdict key (VStr []))
               fieldnames)
  else Raise ValueError.

(** [DictWriter.writerows]: the rows written, and the exception that
    stopped it. *)
Fixpoint writerows (fieldnames : list pystr) (rowdicts : list (dict value))
  : list (list value) * option exn :=
  match rowdicts with
  | [] => ([], None)
  | rowdict :: later =>
      match dict_to_list fieldnames rowdict with
      | Ok row => let (rows, e) := writerows fieldnames later in
                  (row :: rows, e)
      | Raise e => ([], Some e)
      end
  end.

(** [filename or self._generate_filename(format_type)] *)
Definition filename_or_generated (self : DataExporter)
           (filename : option pystr) (format_type : pystr)
  : stateful files pystr :=
  match filename with
  | Some name => if truthy name then st_ret name
                 else _generate_filename self format_type None
  | None => _generate_filename self format_type None
  end.

Definition export_to_csv (self : DataExporter)
           (companies : list (dict value)) (filename : option pystr)
           (fields : option (list pystr)) : stateful files pystr :=
  if negb (validators.validate_export_format (lit "csv"))
  then st_raise ValueError
  else
    (filename <- filename_or_generated self filename (lit "csv") ;;
     let filepath := path_join (output_dir self) filename in
     export_data <- _prepare_data_for_export companies fields ;;
     match export_data with
     | [] => st_ret filepath
     | first :: _ =>
         _ <- open_file filepath ;;
         let fieldnames := map fst first in
         match writerows fieldnames export_data with
         | (rows, None) =>
             _ <- write filepath (CsvDocument fieldnames rows) ;;
             st_ret filepath
         | (rows, Some e) =>
             _ <- write filepath (CsvDocument fieldnames rows) ;;
             st_raise e
         end
     end)%st.

(** [fields] when it is given and not empty. *)
Definition chosen_fields (fields : option (list pystr))
  : option (list pystr) :=
  match fields with
  | Some ((_ :: _) as fields) => Some fields
  | _ => None
  end.

Definition export_to_json (self : DataExporter)
           (companies : list (dict value)) (filename : option pystr)
           (fields : option (list pystr)) : stateful files pystr :=
  if negb (validators.validate_export_format (lit "json"))
  then st_raise ValueError
  else
    (filename <- filename_or_generated self filename (lit "json") ;;
     let filepath := path_join (output_dir self) filename in
     export_data <-
       st_fold
         (fun export_data company =>
            let filtered_company :=
              match chosen_fields fields with
              | Some fields =>
                  dict_display
                    (map (fun field =>
                            (field,
                             dict_get_default company field (VStr [])))
                         fields)
              | None => company
              end in
            timestamp <- read_clock now_isoformat ;;
            let filtered_company :=
              dict_set filtered_company (lit "scrape_timestamp")
                       (VStr timestamp) in
            let filtered_company :=
              dict_set filtered_company (lit "source_url")
                (dict_get_default company (lit "source_url")
                   (VStr (lit "https://www.k-online.de/vis/v1/de/directory/a")))
            in
            st_ret (export_data ++ [filtered_company]))
         companies [] ;;
     _ <- open_file filepath ;;
     export_timestamp <- read_clock now_isoformat ;;
     let listed_fields :=
       match companies with
       | [] => []
       | first :: _ =>
           match chosen_fields fields with
           | Some fields => fields
           | None => map fst first
           end
       end in
     _ <- write filepath
            (JsonDocument export_timestamp
                          (Z.of_nat (List.length export_data))
                          listed_fields export_data) ;;
     st_ret filepath)%st.

(** [export_to_excel] hands its data to pandas; [export] is given with
    that method as a parameter. *)
Variable export_to_excel :
  DataExporter -> list (dict value) -> option pystr ->
  option (list pystr) -> stateful files pystr.

Definition export (self : DataExporter) (companies : list (dict value))
           (format_type : option pystr) (filename : option pystr)
           (fields : option (list pystr)) : stateful files pystr :=
  let default :=
    match settings.default_format (exporter_config self) with
    | Some f => f
    | None => lit "csv"
    end in
  let format_type :=
    match format_type with
    | Some f => if truthy f then f else default
    | None => default
    end in
  let format_type := lower format_type in
  if str_eqb format_type (lit "csv")
  then export_to_csv self companies filename fields
  else if str_eqb format_type (lit "json")
  then export_to_json self companies filename fields
  else if str_mem format_type [lit "excel"; lit "xlsx"]
  then export_to_excel self companies filename fields
  else st_raise ValueError.
End Defs.

(** [_prepare_domain_details]: a company whose [generated_domains] is not
    a list of dictionaries makes [domain.get] raise. *)
Definition _prepare_domain_details (companies : list (dict value))
  : exc (list (dict value)) :=
  for_each companies
    (fun company =>
       let company_name :=
         dict_get_default company (lit "company_name") (VStr []) in
       (domains <-
          iter_domains (dict_get_default company (lit "generated_domains")
                                         (VDomains [])) ;;
        Ok (map (fun d =>
                   dict_display
                     [ (lit "company_name", company_name);
                       (lit "domain", VStr (domain d));
                       (lit "variant", VStr (variant d));
                       (lit "tld", VStr (tld d));
                       (lit "status", VStr (status d)) ])
                domains))%exc).

Definition create_data_exporter (cfg : option settings.export_config)
  : DataExporter :=
  init cfg.
End data_exporter.

(* ================================================================== *)
(** ** Concrete platforms *)

(** A Unicode database with no rows above U+00FF. *)
Definition latin1_unicode : UnicodeData := {|
  uni_isalnum := fun _ => false;
  uni_isspace := fun _ => false;
  uni_isdecimal := fun _ => false;
  uni_isdigit := fun _ => false;
  uni_ieq := fun p c => p =? c;
  uni_lower := fun s => s
|}.

(** An environment in which every name resolves, the [validators] package
    accepts every string, and a set is iterated in insertion order. *)
Definition insertion_order_env : Environment := {|
  ext_url := fun _ => Ok true;
  ext_email := fun _ => Ok true;
  ext_domain := fun _ => Ok true;
  gethostbyname := fun _ _ => Ok tt;
  set_iter := fun s => s
|}.

(** The same environment with sets iterated in the opposite order, as
    another assignment of hash values gives. *)
Definition reversed_order_env : Environment := {|
  ext_url := fun _ => Ok true;
  ext_email := fun _ => Ok true;
  ext_domain := fun _ => Ok true;
  gethostbyname := fun _ _ => Ok tt;
  set_iter := fun s => rev s
|}.

(** An environment whose resolver raises an exception other than
    [gaierror] for every name. *)
Definition failing_dns_env : Environment := {|
  ext_url := fun _ => Ok true;
  ext_email := fun _ => Ok true;
  ext_domain := fun _ => Ok true;
  gethostbyname := fun _ _ => Raise OtherException;
  set_iter := fun s => s
|}.

(** An environment whose resolver raises [gaierror] for every name. *)
Definition unresolved_dns_env : Environment := {|
  ext_url := fun _ => Ok true;
  ext_email := fun _ => Ok true;
  ext_domain := fun _ => Ok true;
  gethostbyname := fun _ _ => Raise gaierror;
  set_iter := fun s => s
|}.

(** A probe that raises on every call. *)
Definition raising_probe (d : pystr) (timeout : Z) : exc pystr :=
  Raise OtherException.

(** A parsed document as a tree, with the BeautifulSoup queries that the
    scraper uses evaluated on it. *)
Module dom.
#[warnings="-register-all"] Inductive node : Type :=
| Text (s : pystr)
| Element (name : pystr) (classes : list pystr) (href : option pystr)
          (children : list node).

Definition node_name (n : node) : pystr :=
  match n with Element name _ _ _ => name | Text _ => [] end.

Definition node_classes (n : node) : list pystr :=
  match n with Element _ classes _ _ => classes | Text _ => [] end.

Definition node_href (n : node) : option pystr :=
  match n with Element _ _ href _ => href | Text _ => None end.

(** The elements below [n], in document order. *)
Fixpoint descendants (n : node) : list node :=
  match n with
  | Text _ => []
  | Element _ _ _ children =>
      flat_map (fun k => match k with
                         | Text _ => []
                         | Element _ _ _ _ => k :: descendants k
                         end) children
  end.

(** The text nodes below [n], in document order. *)
Fixpoint strings (n : node) : list pystr :=
  match n with
  | Text s => [s]
  | Element _ _ _ children => flat_map strings children
  end.

Section Queries.
Context {U : UnicodeData}.

Definition get_text (n : node) (strip_pieces : bool) : pystr :=
  if strip_pieces then List.concat (filter truthy (map strip (strings n)))
  else List.concat (strings n).

(** [.cls] and [[class*="v"]] *)
Definition matches_selector (selector : pystr) (n : node) : bool :=
  match selector with
  | 46 :: cls => str_mem cls (node_classes n)
  | _ =>
      if startswith (lit "[class*=") selector
      then match split_on 34 selector with
           | [_; v; _] => contains v (join [32] (node_classes n))
           | _ => false
           end
      else false
  end.

Definition select (n : node) (selector : pystr) : list node :=
  filter (matches_selector selector) (descendants n).

(** A pattern [.*a.*|.*b.*] under [re.I] asks for a class that contains
    one of the words. *)
Definition pattern_words (pat : pystr) : list pystr :=
  map (filter (fun c => negb ((c =? 46) || (c =? 42)))) (split_on 124 pat).

Definition class_matches (pat : option pystr) (n : node) : bool :=
  match pat with
  | None => true
  | Some p =>
      existsb (fun cls => existsb (fun w => contains w (lower cls))
                                  (pattern_words p))
              (node_classes n)
  end.

Definition find_all (n : node) (names : list pystr) (pat : option pystr)
  : list node :=
  filter (fun d => str_mem (node_name d) names && class_matches pat d)
         (descendants n).

Definition find_all_links (n : node) : list node :=
  filter (fun d => str_eqb (node_name d) (lit "a")
                   && match node_href d with Some _ => true | None => false end)
         (descendants n).

Definition get_href (n : node) : pystr :=
  match node_href n with Some h => h | None => [] end.

Definition soup : Soup :=
  Build_Soup node select find_all find_all_links get_text get_href.
End Queries.

(** A regular-expression engine that reports no match, which is what
    [re.search] answers on the sample documents below: the scraper
    searches their text for telephone numbers, e-mail addresses and booth
    numbers, and their text has no digit and no "@". *)
Definition no_match : Regex := {| re_search := fun _ _ _ => None |}.

(** The tree queries over the database without rows above U+00FF. *)
Definition latin1_soup : Soup := soup (U := latin1_unicode).

Definition div (classes : list pystr) (children : list node) : node :=
  Element (lit "div") classes None children.

(** A page with two [.company-item] entries and one [.listing-item]. *)
Definition sample_page : node :=
  Element (lit "body") [] None
    [ div [lit "listing-item"]
          [Element (lit "h3") [] None [Text (lit "Gamma AG")]];
      div [lit "company-item"]
          [Element (lit "h3") [lit "company-name"] None
                   [Text (lit " Alpha GmbH ")]];
      div [lit "company-item"]
          [Element (lit "strong") [] None [Text (lit "Beta Tools KG")]] ].

(** A listing element that holds only white space. *)
Definition blank_listing : node :=
  div [lit "company-item"] [Text (lit "   "); div [] [Text [10; 32]]].

(** A listing with a heading, a link to the directory itself and a link to
    the company's site.  Its text has no digit and no "@", so that none of
    the patterns for telephone numbers, e-mail addresses and booths has a
    match in it. *)
Definition linked_listing : node :=
  div [lit "company-item"]
      [ Element (lit "h3") [lit "name"] None [Text (lit " Delta Werke AG ")];
        Element (lit "a") [] (Some (lit "https://www.k-online.de/vis/x")) [];
        Element (lit "a") [] (Some (lit "https://www.delta-werke.de/")) [] ].

End dom.

(* ================================================================== *)
(** ** Vocabulary of the statements *)

Section Vocabulary.
Context {U : UnicodeData} {E : Environment}.
Import domain_generator.

(** The status that one candidate receives. *)
Definition entry_status (probe : pystr -> Z -> exc pystr)
           (self : DomainGenerator) (d : pystr) : pystr :=
  if config_check self then
    match probe d (config_timeout self) with
    | Ok s => s
    | Raise _ => lit "error"
    end
  else lit "unknown".

(** The candidates contributed by one variant and one TLD. *)
Definition entries (probe : pystr -> Z -> exc pystr)
           (self : DomainGenerator) (v t : pystr) : list domain_info :=
  if validators.validate_domain (v ++ t)
  then [ {| domain := v ++ t; variant := v; tld := t;
            status := entry_status probe self (v ++ t) |} ]
  else [].

(** Candidates listed variant by variant and, for one variant, TLD by TLD. *)
Definition variant_major (probe : pystr -> Z -> exc pystr)
           (self : DomainGenerator) (variants : list pystr)
  : list domain_info :=
  flat_map (fun v => flat_map (fun t => entries probe self v t)
                              (config_tlds self))
           variants.

(** The configuration of the builder's documented example. *)
Definition example_config (k : Z) (timeout : option Z) : DomainGenerator :=
  init (Some {| settings.tlds := Some [lit ".de"; lit ".com"];
                settings.max_variants_per_company := Some k;
                settings.check_domain_availability := Some false;
                settings.timeout_dns_check := timeout |}).
End Vocabulary.

(** The phone normalizer in the words of its description: digits and a
    leading [+] survive the stripping, then a result without leading [+]
    has its leading [0] replaced by [+49], or [+49] put in front. *)
Section Described.
Context {U : UnicodeData}.

Fixpoint keep_digits_leading_plus (s : pystr) (leading : bool) : pystr :=
  match s with
  | [] => []
  | c :: r =>
      if isdecimal c then c :: keep_digits_leading_plus r false
      else if (c =? plus_sign) && leading
           then c :: keep_digits_leading_plus r false
           else keep_digits_leading_plus r leading
  end.

Definition normalizePhone_described (phone : pystr) : pystr :=
  let stripped := keep_digits_leading_plus phone true in
  if startswith (lit "+") stripped then stripped
  else if startswith (lit "0") stripped then lit "+49" ++ tl stripped
  else lit "+49" ++ stripped.
End Described.

(* ================================================================== *)
(** ** Vocabulary of the further properties *)

(** The sum of the counts of a tally. *)
Definition dict_total (counts : dict Z) : Z :=
  fold_right Z.add 0%Z (map snd counts).

(** The number of members of [keys] equal to [k]. *)
Definition occurrences (k : pystr) (keys : list pystr) : Z :=
  Z.of_nat (List.length (filter (str_eqb k) keys)).

(** Arithmetic on exact fractions, without rounding, standing in for the
    floating-point numbers of the interpreter in sample runs. *)
Definition exact_fractions : domain_generator.Floats := {|
  domain_generator.pyfloat := Z * Z;
  domain_generator.truediv := fun a b => (a, b);
  domain_generator.round2 := fun x => x
|}.

Section ProcessingVocabulary.
Context {U : UnicodeData} {E : Environment}.
Import domain_generator.

(** [company] has a name that [process_companies] does not skip. *)
Definition named (company : dict value) : bool :=
  value_truthy (dict_get_default company (lit "company_name") (VStr [])).

Definition added_keys : list pystr :=
  [ lit "generated_domains"; lit "domain_count"; lit "domain_list";
    lit "domain_status_summary" ].

(** [result] is [company] with the candidates of its name attached: the
    list itself, its length, the domains joined by ", " and the tally of
    the statuses; every other key is as in [company]. *)
Definition enriched (self : DomainGenerator) (company result : dict value)
  : Prop :=
  exists name domains counts,
    dict_get company (lit "company_name") = Some (VStr name)
    /\ generate_full_domains self name = Ok domains
    /\ dict_get result (lit "generated_domains") = Some (VDomains domains)
    /\ dict_get result (lit "domain_count")
       = Some (VInt (Z.of_nat (List.length domains)))
    /\ dict_get result (lit "domain_list")
       = Some (VStr (join (lit ", ") (map domain domains)))
    /\ dict_get result (lit "domain_status_summary") = Some (VCounts counts)
    /\ dict_total counts = Z.of_nat (List.length domains)
    /\ (forall s, dict_get_default counts s 0%Z
                  = occurrences s (map status domains))
    /\ (forall k, ~ In k added_keys -> dict_get result k = dict_get company k).

(** The candidates attached to a list of processed companies. *)
Definition attached_domains (results : list (dict value))
  : list domain_info :=
  flat_map (fun r => match dict_get r (lit "generated_domains") with
                     | Some (VDomains l) => l
                     | _ => []
                     end) results.

(** The sample companies of the [demo] command. *)
Definition demo_companies : list (dict value) :=
  [ [ (lit "company_name", VStr (lit "Mustermann GmbH"));
      (lit "city", VStr (lit "Berlin"));
      (lit "country", VStr (lit "Deutschland"));
      (lit "industry", VStr (lit "Maschinenbau")) ];
    [ (lit "company_name", VStr (lit "Schneider & Partner AG"));
      (lit "city", VStr (lit "München"));
      (lit "country", VStr (lit "Deutschland"));
      (lit "industry", VStr (lit "Consulting")) ];
    [ (lit "company_name", VStr (lit "Tech Solutions Ltd."));
      (lit "city", VStr (lit "Hamburg"));
      (lit "country", VStr (lit "Deutschland"));
      (lit "industry", VStr (lit "Software")) ] ].
End ProcessingVocabulary.

Section RecordVocabulary.
Context {U : UnicodeData} {E : Environment}.

(** Whether [validate_company_data] keeps the optional field [field] of
    [company_data]: its value is not empty, and it is not an e-mail
    address or a URL that the [validators] package turns down. *)
Definition field_kept (company_data : dict pystr) (field : pystr) : bool :=
  let value := dict_get_default company_data field [] in
  truthy value
  && negb (str_eqb field (lit "email")
           && negb (validators.validate_email value))
  && negb (str_eqb field (lit "website")
           && negb (validators.validate_url value)).
End RecordVocabulary.

(* ================================================================== *)

(** Equality of the reasons to sleep, and how often the scraper slept for
    one of them. *)
Definition sleep_reason_eqb (a b : k_online_scraper.sleep_reason) : bool :=
  match a, b with
  | k_online_scraper.RetryDelay, k_online_scraper.RetryDelay => true
  | k_online_scraper.PageSettle, k_online_scraper.PageSettle => true
  | k_online_scraper.RateLimit, k_online_scraper.RateLimit => true
  | _, _ => false
  end.

Definition count_sleeps (reason : k_online_scraper.sleep_reason)
           (log : list k_online_scraper.sleep_reason) : nat :=
  List.length (filter (sleep_reason_eqb reason) log).

(** A site for the examples: the first [failures] requests fail, every
    later one is answered with [page], which is also what the browser
    shows; [urljoin] on an absolute target gives the target. *)
Definition sample_web (failures : nat) (page : dom.node)
  : k_online_scraper.Web (B := dom.latin1_soup) :=
  {| k_online_scraper.session_get := fun n _ =>
       if (n <? failures)%nat
       then k_online_scraper.RequestException
       else k_online_scraper.HttpResponse (B := dom.latin1_soup) page;
     k_online_scraper.setup_driver := fun _ => Ok tt;
     k_online_scraper.driver_get := fun _ _ => k_online_scraper.DriverOk tt;
     k_online_scraper.page_source := fun _ =>
       k_online_scraper.DriverOk (page : Tag (Soup := dom.latin1_soup));
     k_online_scraper.urljoin := fun _ href => href;
     k_online_scraper.find_all_by_text := fun _ _ _ => [] |}.


Section FetchingVocabulary.
Context {U : UnicodeData}.
Import k_online_scraper.

(** [record] has a name, which is trimmed and not empty. *)
Definition has_name (record : dict pystr) : Prop :=
  exists name,
    dict_get record (lit "company_name") = Some name
    /\ name <> []
    /\ strip name = name.

(** From [w] to [w'] the scraper sent at most [req] requests, loaded at
    most [pg] pages in the browser after at most [pg] attempts to start
    it, and slept at most [rate] times between two pages. *)
Definition within (w w' : world) (req pg rate : nat) : Prop :=
  (requests_made w' <= requests_made w + req)%nat
  /\ (pages_loaded w' <= pages_loaded w + pg)%nat
  /\ (setups_made w' <= setups_made w + pg)%nat
  /\ (count_sleeps RateLimit (slept w')
      <= count_sleeps RateLimit (slept w) + rate)%nat.
End FetchingVocabulary.

Section ExportVocabulary.
Import domain_generator.

(** The keys of a dictionary to which the keys [fields] are assigned one
    after the other: each once, in the order of its first assignment. *)
Definition assigned_keys (fields : list pystr) : list pystr :=
  fold_left set_add fields [].

(** [fields or OUTPUT_FIELDS] *)
Definition effective_fields (fields : option (list pystr)) : list pystr :=
  match data_exporter.chosen_fields fields with
  | Some fields => fields
  | None => settings.OUTPUT_FIELDS
  end.

(** The value under "generated_domains", when [company] has one, can be
    iterated as a list of domain dictionaries. *)
Definition exportable (company : dict value) : Prop :=
  exists domains,
    iter_domains (dict_get_default company (lit "generated_domains")
                                   (VDomains []))
    = Ok domains.

(** A field that [_prepare_data_for_export] copies from the company. *)
Definition copied_field (field : pystr) : bool :=
  negb (str_mem field [ lit "generated_domains"; lit "domain_status";
                        lit "scrape_timestamp"; lit "source_url" ]).

(** A record of the scraper as the dictionary that the later stages of the
    pipeline are given. *)
Definition as_company (record : dict pystr) : dict value :=
  map (fun kv => (fst kv, VStr (snd kv))) record.

(** How often "scrape_timestamp" is among [fields]. *)
Definition stamps (fields : list pystr) : nat :=
  List.length
    (filter (fun field => str_eqb field (lit "scrape_timestamp")) fields).

(** [row] is the row of [company] for the columns [fields]: its keys are
    the fields, and a field that is copied holds the value that [company]
    has for it, or the empty string; "source_url" holds the company's, or
    the address of the directory. *)
Definition exported_row (fields : list pystr) (company row : dict value)
  : Prop :=
  map fst row = assigned_keys fields
  /\ (forall k, In k fields -> copied_field k = true ->
        dict_get row k = Some (dict_get_default company k (VStr [])))
  /\ (In (lit "source_url") fields ->
      dict_get row (lit "source_url")
      = Some (dict_get_default company (lit "source_url")
                (VStr settings.K_ONLINE_BASE_URL))).

(** [format_type or self.config.get('default_format', 'csv')] *)
Definition requested_format (self : data_exporter.DataExporter)
           (format_type : option pystr) : pystr :=
  let default :=
    match settings.default_format (data_exporter.exporter_config self) with
    | Some f => f
    | None => lit "csv"
    end in
  match format_type with
  | Some f => if truthy f then f else default
  | None => default
  end.

(** The cells of a line of a CSV file under the header [fieldnames] are
    those of the row [rowdict]. *)
Definition line_of (fieldnames : list pystr) (rowdict : dict value)
  : list value :=
  map (fun key => dict_get_default rowdict key (VStr [])) fieldnames.

(** A clock that stands still and a disk that takes every file. *)
Definition sample_platform : data_exporter.Platform :=
  {| data_exporter.now_strftime := fun _ => lit "20240101_120000";
     data_exporter.now_isoformat := fun _ => lit "2024-01-01T12:00:00";
     data_exporter.open_for_writing := fun _ _ => Ok tt |}.
End ExportVocabulary.

Section JsonVocabulary.
Import domain_generator.

(** [entry] is what [export_to_json] writes for [company]: the requested
    fields with the values of the company, or the empty string, or every
    key of the company when no fields are requested; and on top of these
    a time stamp and the source, which is the company's or the address of
    the directory. *)
Definition json_entry (fields : option (list pystr))
           (company entry : dict value) : Prop :=
  (exists timestamp,
     dict_get entry (lit "scrape_timestamp") = Some (VStr timestamp))
  /\ dict_get entry (lit "source_url")
     = Some (dict_get_default company (lit "source_url")
               (VStr settings.K_ONLINE_BASE_URL))
  /\ forall k,
       k <> lit "scrape_timestamp" -> k <> lit "source_url" ->
       dict_get entry k
       = match data_exporter.chosen_fields fields with
         | Some requested =>
             if str_mem k requested
             then Some (dict_get_default company k (VStr []))
             else None
         | None => dict_get company k
         end.
End JsonVocabulary.

(** * Properties *)

(** ** Strings, loops and tables *)

Lemma str_eqb_eq (a b : pystr) : str_eqb a b = true <-> a = b.
Proof.
  revert b; induction a as [|x a IH]; intros [|y b]; simpl;
    try (split; [discriminate | congruence]); try tauto.
  rewrite andb_true_iff, N.eqb_eq, IH. split.
  - intros [-> ->]; reflexivity.
  - intros H; inversion H; auto.
Qed.

Lemma str_eqb_refl (a : pystr) : str_eqb a a = true.
Proof. apply str_eqb_eq; reflexivity. Qed.

Lemma str_mem_In (x : pystr) (l : list pystr) : str_mem x l = true <-> In x l.
Proof.
  unfold str_mem. rewrite existsb_exists. split.
  - intros [y [Hy He]]. apply str_eqb_eq in He. subst; assumption.
  - intros H. exists x. split; [assumption | apply str_eqb_refl].
Qed.

(** Every character below U+0100 has a property that holds on the table. *)
Lemma latin1_forall (P : char -> bool) :
  forallb P (map N.of_nat (seq 0 256)) = true ->
  forall c, is_latin1 c = true -> P c = true.
Proof.
  intros H c Hc. rewrite forallb_forall in H. apply H.
  unfold is_latin1 in Hc. apply N.ltb_lt in Hc.
  rewrite <- (N2Nat.id c). apply in_map. apply in_seq. lia.
Qed.

Lemma for_each_flat_map {A B} (l : list A) (body : A -> exc (list B))
      (g : A -> list B) :
  (forall a, In a l -> body a = Ok (g a)) ->
  domain_generator.for_each l body = Ok (flat_map g l).
Proof.
  induction l as [|a l IH]; intros H; simpl.
  - reflexivity.
  - rewrite (H a (or_introl eq_refl)). simpl.
    rewrite IH by (intros; apply H; right; assumption).
    reflexivity.
Qed.

Lemma slice_to_all {A} (k : Z) (l : list A) :
  (Z.of_nat (List.length l) <= k)%Z -> slice_to k l = l.
Proof.
  intros H. unfold slice_to.
  destruct (0 <=? k)%Z eqn:Hk.
  - apply firstn_all2. lia.
  - apply Z.leb_gt in Hk. lia.
Qed.

(** ** The Domain Candidate Builder *)

Section Builder.
Context {U : UnicodeData} {E : Environment}.
Import domain_generator.
Variable probe : pystr -> Z -> exc pystr.

Lemma domain_entry_entries (self : DomainGenerator) (v t : pystr) :
  domain_entry probe self v t = Ok (entries probe self v t).
Proof.
  unfold domain_entry, entries, entry_status.
  destruct (validators.validate_domain (v ++ t)); simpl; [|reflexivity].
  destruct (config_check self); [|reflexivity].
  destruct (probe (v ++ t) (config_timeout self)); reflexivity.
Qed.

(** The builder returns normally, and its list is variant-major and
    TLD-minor over the list of variants. *)
Lemma generate_full_domains_with_eq (self : DomainGenerator) (name : pystr) :
  generate_full_domains_with probe self name
  = Ok (variant_major probe self (generate_domain_variants self name)).
Proof.
  unfold generate_full_domains_with, variant_major.
  apply for_each_flat_map. intros v _.
  apply for_each_flat_map. intros t _.
  apply domain_entry_entries.
Qed.

Lemma in_variant_major (self : DomainGenerator) (vs : list pystr)
      (c : domain_info) :
  In c (variant_major probe self vs) ->
  domain c = variant c ++ tld c
  /\ status c = entry_status probe self (domain c).
Proof.
  unfold variant_major. intros H.
  apply in_flat_map in H. destruct H as [v [_ H]].
  apply in_flat_map in H. destruct H as [t [_ H]].
  unfold entries in H.
  destruct (validators.validate_domain (v ++ t)); [|contradiction].
  destruct H as [<- | []]. simpl. split; reflexivity.
Qed.
End Builder.

(** ** The Variant Expander *)

Section Variants.
Context {U : UnicodeData} {E : Environment}.
Import domain_generator.

(** Iterating a set yields each of its elements once. *)
Hypothesis set_iter_perm : forall s : pyset, Permutation (set_iter s) s.

Lemma set_add_keeps (s : pyset) (x y : pystr) :
  In x s -> In x (set_add s y).
Proof.
  intros H. unfold set_add. destruct (str_mem y s); [assumption|].
  apply in_or_app; left; assumption.
Qed.

Lemma fold_set_add_keeps (f : pystr -> pystr) (l : list pystr) (s : pyset)
      (x : pystr) :
  In x s -> In x (fold_left (fun vs num => set_add vs (f num)) l s).
Proof.
  revert s; induction l as [|a l IH]; intros s H; simpl; [assumption|].
  apply IH. apply set_add_keeps. assumption.
Qed.

(** The slug is a member of the set of variants. *)
Lemma variant_set_has_slug (self : DomainGenerator) (base_name : pystr) :
  In base_name (variant_set self base_name).
Proof.
  unfold variant_set.
  assert (H0 : In base_name (set_add [] base_name))
    by (unfold set_add; simpl; auto).
  revert H0. generalize (set_add [] base_name) as v0. intros v0 H0.
  cbv zeta.
  repeat match goal with
         | |- In _ (if ?b then _ else _) => destruct b
         | |- In _ (fold_left _ _ _) => apply fold_set_add_keeps
         | |- In _ (set_add _ _) => apply set_add_keeps
         end; assumption.
Qed.

(** When the set of variants fits the budget, truncation drops nothing and
    the slug is among the returned variants. *)
Lemma variants_contain_slug (self : DomainGenerator) (name : pystr) :
  validators.clean_company_name name <> [] ->
  (Z.of_nat (List.length
               (variant_set self (validators.clean_company_name name)))
   <= max_variants self)%Z ->
  In (validators.clean_company_name name)
     (generate_domain_variants self name).
Proof.
  intros Hne Hlen. unfold generate_domain_variants.
  remember (validators.clean_company_name name) as base eqn:Hb.
  assert (Hn : truthy name = true).
  { destruct name; [|reflexivity]. exfalso. apply Hne. rewrite Hb.
    reflexivity. }
  assert (Hbt : truthy base = true) by (destruct base; [congruence|reflexivity]).
  rewrite Hn, Hbt. cbn [negb].
  rewrite slice_to_all.
  - apply Permutation_in with (l := variant_set self base).
    + apply Permutation_sym, set_iter_perm.
    + apply variant_set_has_slug.
  - rewrite (Permutation_length (set_iter_perm _)). assumption.
Qed.
End Variants.

(** ** Claims about the builder and the expander *)

(** C1. The builder, called on "Mustermann GmbH" with the TLDs ".de" and
    ".com", a budget of five variants and availability checking disabled,
    returns a list that has the candidate with variant "mustermann", TLD
    ".de", domain "mustermann.de" and status "unknown".  This holds for
    every order in which the interpreter iterates the set of variants,
    provided the [validators] package accepts "mustermann.de". *)
Theorem C1_mustermann_candidate
        (U : UnicodeData) (E : Environment) (timeout : option Z) :
  (forall s : pyset, Permutation (set_iter s) s) ->
  ext_domain (lit "mustermann.de") = Ok true ->
  exists l,
    domain_generator.generate_full_domains
      (example_config 5 timeout) (lit "Mustermann GmbH") = Ok l
    /\ In {| domain_generator.domain := lit "mustermann.de";
             domain_generator.variant := lit "mustermann";
             domain_generator.tld := lit ".de";
             domain_generator.status := lit "unknown" |} l.
Proof.
  intros Hperm Hdom.
  unfold domain_generator.generate_full_domains.
  rewrite generate_full_domains_with_eq.
  eexists; split; [reflexivity|].
  assert (Hc : validators.clean_company_name (lit "Mustermann GmbH")
               = lit "mustermann") by (vm_compute; reflexivity).
  unfold variant_major. apply in_flat_map.
  exists (lit "mustermann"). split.
  - rewrite <- Hc. apply variants_contain_slug.
    + assumption.
    + rewrite Hc; discriminate.
    + rewrite Hc. vm_compute. discriminate.
  - apply in_flat_map. exists (lit ".de"). split.
    + simpl. left; reflexivity.
    + unfold entries, validators.validate_domain.
      change (lit "mustermann" ++ lit ".de") with (lit "mustermann.de").
      rewrite Hdom. left. reflexivity.
Qed.

Lemma C1_mustermann_candidate_witness :
  (forall s : pyset, Permutation (set_iter (Environment := reversed_order_env) s) s)
  /\ ext_domain (Environment := reversed_order_env) (lit "mustermann.de")
     = Ok true
  /\ exists l,
       domain_generator.generate_full_domains
         (U := latin1_unicode) (E := reversed_order_env)
         (example_config 5 None) (lit "Mustermann GmbH") = Ok l
       /\ In {| domain_generator.domain := lit "mustermann.de";
                domain_generator.variant := lit "mustermann";
                domain_generator.tld := lit ".de";
                domain_generator.status := lit "unknown" |} l.
Proof.
  assert (H1 : forall s : pyset,
             Permutation (set_iter (Environment := reversed_order_env) s) s)
    by (intros s; simpl; apply Permutation_sym, Permutation_rev).
  assert (H2 : ext_domain (Environment := reversed_order_env)
                 (lit "mustermann.de") = Ok true) by reflexivity.
  split; [exact H1|]. split; [exact H2|].
  exact (C1_mustermann_candidate latin1_unicode reversed_order_env None H1 H2).
Defined.

(** C4, at an input where the code departs from it.  For "Acme Tools" the
    slug is "acme-tools" and the set of variants has three members; with a
    budget of two and a set iterated in the order opposite to insertion, the
    slug is not among the returned variants. *)
Theorem C4_slug_dropped_by_truncation :
  validators.clean_company_name (U := latin1_unicode) (lit "Acme Tools")
  = lit "acme-tools"
  /\ domain_generator.generate_domain_variants
       (U := latin1_unicode) (E := reversed_order_env)
       (example_config 2 None) (lit "Acme Tools")
     = [lit "at"; lit "acmetools"]
  /\ ~ In (lit "acme-tools")
          (domain_generator.generate_domain_variants
             (U := latin1_unicode) (E := reversed_order_env)
             (example_config 2 None) (lit "Acme Tools")).
Proof.
  split; [vm_compute; reflexivity|].
  split; [vm_compute; reflexivity|].
  vm_compute. intros [H | [H | []]]; discriminate H.
Qed.

(** C5, at an input where the code departs from it.  Two runs that differ
    only in the order in which the interpreter iterates the set of variants
    return different candidate lists for "Acme Tools" with a budget of two:
    the truncation follows the iteration order of the set, not the order of
    insertion. *)
Theorem C5_output_depends_on_set_order :
  domain_generator.generate_full_domains
    (U := latin1_unicode) (E := insertion_order_env)
    (example_config 2 None) (lit "Acme Tools")
  <> domain_generator.generate_full_domains
       (U := latin1_unicode) (E := reversed_order_env)
       (example_config 2 None) (lit "Acme Tools")
  /\ domain_generator.generate_domain_variants
       (U := latin1_unicode) (E := insertion_order_env)
       (example_config 2 None) (lit "Acme Tools")
     = [lit "acme-tools"; lit "acmetools"]
  /\ domain_generator.generate_domain_variants
       (U := latin1_unicode) (E := reversed_order_env)
       (example_config 2 None) (lit "Acme Tools")
     = [lit "at"; lit "acmetools"].
Proof.
  split; [vm_compute; discriminate|].
  split; vm_compute; reflexivity.
Qed.

(** ** Claims about the normalizers on given inputs *)

(** C2, at the input that the claim names.  The display of [replacements]
    gives the key "ü" twice, first with "ue" and then with "u"; the later
    value is the one the dictionary holds, so "Müller & Co. KG" is
    normalized to "muller-co", which does not contain "mueller".  ("KG" is
    stripped; "Co." stays because no word boundary follows its dot.) *)
Theorem C2_mueller_is_folded_to_muller (U : UnicodeData) :
  dict_get validators.replacements (lit "ü") = Some (lit "u")
  /\ validators.clean_company_name (lit "Müller & Co. KG") = lit "muller-co"
  /\ contains (lit "mueller")
              (validators.clean_company_name (lit "Müller & Co. KG")) = false
  /\ contains (lit "kg")
              (validators.clean_company_name (lit "Müller & Co. KG")) = false.
Proof.
  repeat split; vm_compute; reflexivity.
Qed.

(** C6 as stated fails on "1+2": the code keeps the [+] between the
    digits and returns "+491+2", where stripping everything but digits and
    a leading [+] gives "+4912". *)
Lemma C6_interior_plus_is_kept :
  validators.normalize_phone_number (U := latin1_unicode) (lit "1+2")
  = lit "+491+2"
  /\ normalizePhone_described (U := latin1_unicode) (lit "1+2") = lit "+4912"
  /\ validators.normalize_phone_number (U := latin1_unicode) (lit "1+2")
     <> normalizePhone_described (U := latin1_unicode) (lit "1+2").
Proof.
  split; [vm_compute; reflexivity|].
  split; [vm_compute; reflexivity|].
  vm_compute. discriminate.
Qed.

(** C6, amended.  The phone normalizer removes every character that is
    neither a digit nor a [+], wherever the [+] stands.  An empty result
    stays empty; a result that starts with [+] is returned as it is; in any
    other result a leading [0] is replaced by [+49], and [+49] is put in
    front when there is no leading [0].  So the output holds only digits
    and [+] and is empty or starts with [+].  In particular
    "030 1234567" and "+49 30 1234567" both give "+49301234567". *)
Theorem C6_phone_normalizer (U : UnicodeData) :
  (forall phone,
      validators.normalize_phone_number phone
      = match filter (fun c => isdecimal c || (c =? plus_sign)) phone with
        | [] => []
        | c :: r =>
            if c =? plus_sign then c :: r
            else if c =? 48 then lit "+49" ++ r
                 else lit "+49" ++ c :: r
        end)
  /\ (forall phone c,
         In c (validators.normalize_phone_number phone) ->
         isdecimal c = true \/ c = plus_sign)
  /\ (forall phone,
         validators.normalize_phone_number phone = []
         \/ hd_error (validators.normalize_phone_number phone)
            = Some plus_sign)
  /\ validators.normalize_phone_number (lit "030 1234567")
     = lit "+49301234567"
  /\ validators.normalize_phone_number (lit "+49 30 1234567")
     = lit "+49301234567".
Proof.
  assert (Hshape : forall phone,
      validators.normalize_phone_number phone
      = match filter (fun c => isdecimal c || (c =? plus_sign)) phone with
        | [] => []
        | c :: r =>
            if c =? plus_sign then c :: r
            else if c =? 48 then lit "+49" ++ r
                 else lit "+49" ++ c :: r
        end).
  { intros phone. unfold validators.normalize_phone_number,
      validators.keep_digits_plus.
    destruct phone as [|p phone]; [reflexivity|].
    cbn [truthy negb].
    destruct (filter _ (p :: phone)) as [|c r]; [reflexivity|].
    cbn [truthy andb tl].
    change (startswith (lit "+") (c :: r)) with ((43 =? c) && true).
    change (startswith (lit "0") (c :: r)) with ((48 =? c) && true).
    rewrite !andb_true_r. unfold plus_sign.
    rewrite (N.eqb_sym 43 c), (N.eqb_sym 48 c).
    destruct (c =? 43); [reflexivity|].
    destruct (c =? 48); reflexivity. }
  split; [exact Hshape|].
  assert (Hkept : forall phone c,
             In c (filter (fun c => isdecimal c || (c =? plus_sign)) phone) ->
             isdecimal c = true \/ c = plus_sign).
  { intros phone c Hc. apply filter_In in Hc. destruct Hc as [_ Hc].
    apply orb_true_iff in Hc. destruct Hc as [Hc|Hc]; [left; assumption|].
    right. apply N.eqb_eq. assumption. }
  split; [|split; [|split; vm_compute; reflexivity]].
  - intros phone c. rewrite Hshape.
    destruct (filter _ phone) as [|d r] eqn:Hf; [intros []|].
    assert (Hall : forall x, In x (d :: r) ->
                             isdecimal x = true \/ x = plus_sign)
      by (intros x Hx; apply (Hkept phone); rewrite Hf; assumption).
    destruct (d =? plus_sign); [apply Hall|].
    assert (Hpre : forall x, In x (lit "+49") ->
                             isdecimal x = true \/ x = plus_sign).
    { intros x [<-|[<-|[<-|[]]]]; [right|left|left]; reflexivity. }
    destruct (d =? 48); intros Hc; apply in_app_or in Hc;
      destruct Hc as [Hc|Hc]; try (apply Hpre; assumption).
    + apply Hall. right; assumption.
    + apply Hall. assumption.
  - intros phone. rewrite Hshape.
    destruct (filter _ phone) as [|d r]; [left; reflexivity|].
    right. destruct (d =? plus_sign) eqn:Hd.
    + apply N.eqb_eq in Hd. subst. reflexivity.
    + destruct (d =? 48); reflexivity.
Qed.

(** ** The Listing Locator *)

Section Locator.
Context {U : UnicodeData} {B : Soup}.
Import k_online_scraper.

Lemma first_selected_skips (soup : Tag) (pre rest : list pystr) :
  (forall p, In p pre -> select soup p = []) ->
  first_selected soup (pre ++ rest) = first_selected soup rest.
Proof.
  induction pre as [|p pre IH]; intros H; simpl; [reflexivity|].
  rewrite (H p (or_introl eq_refl)). apply IH.
  intros q Hq. apply H. right; assumption.
Qed.

Lemma first_selected_hit (soup : Tag) (s : pystr) (post : list pystr) :
  select soup s <> [] -> first_selected soup (s :: post) = select soup s.
Proof.
  intros H. simpl. destruct (select soup s); [congruence|reflexivity].
Qed.
End Locator.

(** C8. When a selector of the fixed list selects at least one element and
    every selector before it selects none, the Listing Locator returns
    exactly the elements of that selector: the selectors after it
    contribute nothing, whatever they would select. *)
Theorem C8_first_selector_wins
        (U : UnicodeData) (B : Soup) (soup : Tag)
        (pre : list pystr) (s : pystr) (post : list pystr) :
  k_online_scraper.company_selectors = pre ++ s :: post ->
  (forall p, In p pre -> select soup p = []) ->
  select soup s <> [] ->
  k_online_scraper.locate_listings soup = select soup s.
Proof.
  intros Hsel Hpre Hs. unfold k_online_scraper.locate_listings.
  rewrite Hsel, first_selected_skips by assumption.
  rewrite first_selected_hit by assumption.
  destruct (select soup s); [congruence|reflexivity].
Qed.

(** On a page that has entries of class [company-item] and an entry of
    class [listing-item], the locator returns the former only. *)
Lemma C8_first_selector_wins_witness :
  (k_online_scraper.company_selectors
   = [lit ".exhibitor-item"] ++ lit ".company-item"
       :: [ lit ".listing-item"; lit ".directory-entry";
            k_online_scraper.class_contains_selector (lit "exhibitor");
            k_online_scraper.class_contains_selector (lit "company");
            k_online_scraper.class_contains_selector (lit "listing") ])
  /\ (forall p, In p [lit ".exhibitor-item"] ->
                dom.select dom.sample_page p = [])
  /\ dom.select dom.sample_page (lit ".company-item") <> []
  /\ dom.select dom.sample_page (lit ".listing-item") <> []
  /\ k_online_scraper.locate_listings
       (U := latin1_unicode) (B := dom.latin1_soup) dom.sample_page
     = dom.select dom.sample_page (lit ".company-item").
Proof.
  assert (H1 : forall p, In p [lit ".exhibitor-item"] ->
                         dom.select dom.sample_page p = [])
    by (intros p [<-|[]]; vm_compute; reflexivity).
  assert (H2 : dom.select dom.sample_page (lit ".company-item") <> [])
    by (vm_compute; discriminate).
  split; [reflexivity|].
  split; [exact H1|].
  split; [exact H2|].
  split; [vm_compute; discriminate|].
  exact (C8_first_selector_wins latin1_unicode dom.latin1_soup
           dom.sample_page
           [lit ".exhibitor-item"] (lit ".company-item") _
           eq_refl H1 H2).
Defined.

(** ** The Field Extractor *)

Section Dicts.
Context {V : Type}.

Lemma str_eqb_sym (a b : pystr) : str_eqb a b = str_eqb b a.
Proof.
  destruct (str_eqb a b) eqn:H1; destruct (str_eqb b a) eqn:H2;
    try reflexivity.
  - apply str_eqb_eq in H1. subst. rewrite str_eqb_refl in H2. discriminate.
  - apply str_eqb_eq in H2. subst. rewrite str_eqb_refl in H1. discriminate.
Qed.

Lemma dict_get_set_other (d : dict V) (k k' : pystr) (v : V) :
  str_eqb k' k = false -> dict_get (dict_set d k v) k' = dict_get d k'.
Proof.
  intros Hne. induction d as [|[k0 v0] d IH]; simpl.
  - rewrite Hne. reflexivity.
  - destruct (str_eqb k k0) eqn:Hk; simpl.
    + apply str_eqb_eq in Hk. subst k0. rewrite Hne. reflexivity.
    + destruct (str_eqb k' k0); [reflexivity|apply IH].
Qed.

Lemma dict_get_update_other (other d : dict V) (k' : pystr) :
  dict_get other k' = None ->
  dict_get (dict_update d other) k' = dict_get d k'.
Proof.
  unfold dict_update. revert d.
  induction other as [|[k0 v0] other IH]; intros d H; simpl; [reflexivity|].
  simpl in H. destruct (str_eqb k' k0) eqn:Hk; [discriminate|].
  rewrite IH by assumption. apply dict_get_set_other. assumption.
Qed.
End Dicts.

Section Extractor.
Context {U : UnicodeData} {E : Environment} {B : Soup} {R : Regex}.
Import k_online_scraper.

Lemma get_name_set (d : dict pystr) (k v : pystr) :
  str_eqb (lit "company_name") k = false ->
  dict_get_default (dict_set d k v) (lit "company_name") []
  = dict_get_default d (lit "company_name") [].
Proof.
  intros H. unfold dict_get_default. rewrite dict_get_set_other by assumption.
  reflexivity.
Qed.

Lemma get_name_set_if (d : dict pystr) (k : pystr) (v : option pystr) :
  str_eqb (lit "company_name") k = false ->
  dict_get_default (set_if d k v) (lit "company_name") []
  = dict_get_default d (lit "company_name") [].
Proof.
  intros H. destruct v; simpl; [apply get_name_set; assumption|reflexivity].
Qed.

Lemma parse_address_no_name (t : pystr) :
  dict_get (validators.parse_address t) (lit "company_name") = None.
Proof.
  unfold validators.parse_address.
  repeat match goal with
         | |- dict_get (if ?b then _ else _) _ = None => destruct b
         | |- dict_get (match ?o with Some _ => _ | None => _ end) _ = None =>
             destruct o
         | |- dict_get (match ?l with [] => _ | _ :: _ => _ end) _ = None =>
             destruct l
         | |- dict_get (let x := _ in _) _ = None => cbv zeta
         | |- dict_get (dict_set _ _ _) _ = None =>
             rewrite dict_get_set_other by reflexivity
         end; reflexivity.
Qed.
End Extractor.

(** C9. The Field Extractor returns an absent result exactly when its name
    heuristics find no name or find one that is empty once trimmed; in
    every other case it returns a record.  An error in the body is never
    passed on.  In particular a listing element that holds only white space
    gives an absent result. *)
Theorem C9_absent_iff_no_usable_name
        (U : UnicodeData) (E : Environment) (B : Soup) (R : Regex)
        (self : k_online_scraper.KOnlineScraper) (element : Tag)
        (source_url : option pystr) :
  (k_online_scraper._parse_company_from_element self element source_url = None
   <-> (forall n, k_online_scraper.extract_name element = Some n ->
                  strip n = []))
  /\ k_online_scraper._parse_company_from_element
       (U := latin1_unicode) (E := insertion_order_env)
       (B := dom.latin1_soup) (R := dom.no_match)
       k_online_scraper.init dom.blank_listing None = None.
Proof.
  split; [|vm_compute; reflexivity].
  unfold k_online_scraper._parse_company_from_element,
    k_online_scraper.parse_company_body.
  destruct (k_online_scraper.extract_name element) as [n|] eqn:Hn.
  - cbn [k_online_scraper.set_if].
    assert (H0 : dict_get_default (dict_set [] (lit "company_name") n)
                                  (lit "company_name") [] = n).
    { unfold dict_get_default. cbn [dict_set dict_get].
      rewrite str_eqb_refl. reflexivity. }
    rewrite H0.
    destruct n as [|c n].
    + cbn [truthy negb]. split; [|reflexivity].
      intros _ n0 H. inversion H. reflexivity.
    + cbn [truthy negb]. cbv zeta.
      match goal with
      | |- context [validators.validate_company_data ?cd] =>
          assert (Hcd : dict_get_default cd (lit "company_name") [] = c :: n)
      end.
      { rewrite get_name_set by reflexivity.
        rewrite !get_name_set_if by reflexivity.
        match goal with
        | |- context [if ?b then _ else _] => destruct b
        end; [|exact H0].
        rewrite get_name_set by reflexivity.
        unfold dict_get_default.
        rewrite dict_get_update_other by apply parse_address_no_name.
        exact H0. }
      unfold validators.validate_company_data. rewrite Hcd.
      destruct (strip (c :: n)) as [|x r] eqn:Hs; cbn [truthy bind].
      * split; [|reflexivity]. intros _ n0 H. inversion H. subst. exact Hs.
      * split; [discriminate|].
        intros H. specialize (H _ eq_refl). rewrite Hs in H. discriminate.
  - cbn [k_online_scraper.set_if]. unfold dict_get_default.
    cbn [dict_get truthy negb]. split; [|reflexivity].
    intros _ n H. discriminate.
Qed.

(** ** The Name Normalizer: shape of the slug *)

Section StringFacts.

Lemma drop_while_suffix (p : char -> bool) (s : pystr) :
  exists pre, s = pre ++ drop_while p s.
Proof.
  induction s as [|c s [pre IH]]; simpl.
  - exists []. reflexivity.
  - destruct (p c).
    + exists (c :: pre). simpl. f_equal. exact IH.
    + exists []. reflexivity.
Qed.

Lemma drop_while_head (p : char -> bool) (s : pystr) (c : char) :
  hd_error (drop_while p s) = Some c -> p c = false.
Proof.
  induction s as [|d s IH]; simpl; [discriminate|].
  destruct (p d) eqn:Hd; [exact IH|].
  simpl. intros H. inversion H. subst. exact Hd.
Qed.

Lemma drop_while_id (p : char -> bool) (s : pystr) :
  (forall c, hd_error s = Some c -> p c = false) -> drop_while p s = s.
Proof.
  destruct s as [|d s]; simpl; [reflexivity|].
  intros H. rewrite (H d eq_refl). reflexivity.
Qed.

(** [strip_by p s] is a piece of [s] between a prefix and a suffix. *)
Lemma strip_by_middle (p : char -> bool) (s : pystr) :
  exists pre post, s = pre ++ strip_by p s ++ post.
Proof.
  unfold strip_by.
  destruct (drop_while_suffix p s) as [pre Hpre].
  destruct (drop_while_suffix p (rev (drop_while p s))) as [q Hq].
  exists pre, (rev q).
  rewrite <- rev_app_distr, <- Hq, rev_involutive. exact Hpre.
Qed.

Lemma strip_by_last (p : char -> bool) (s : pystr) (c : char) :
  hd_error (rev (strip_by p s)) = Some c -> p c = false.
Proof.
  unfold strip_by. rewrite rev_involutive. apply drop_while_head.
Qed.

Lemma strip_by_head (p : char -> bool) (s : pystr) (c : char) :
  hd_error (strip_by p s) = Some c -> p c = false.
Proof.
  unfold strip_by.
  destruct (drop_while_suffix p (rev (drop_while p s))) as [q Hq].
  remember (drop_while p (rev (drop_while p s))) as u eqn:Hu.
  intros H.
  apply (drop_while_head p s).
  assert (Ht : drop_while p s = rev u ++ rev q).
  { rewrite <- rev_app_distr, <- Hq, rev_involutive. reflexivity. }
  rewrite Ht. destruct (rev u) as [|x r]; [discriminate|]. exact H.
Qed.

Lemma strip_by_id (p : char -> bool) (s : pystr) :
  (forall c, hd_error s = Some c -> p c = false) ->
  (forall c, hd_error (rev s) = Some c -> p c = false) ->
  strip_by p s = s.
Proof.
  intros Hh Hl. unfold strip_by.
  rewrite (drop_while_id p s Hh), (drop_while_id p (rev s) Hl).
  apply rev_involutive.
Qed.

Lemma startswith_app (x a b : pystr) :
  startswith x a = true -> startswith x (a ++ b) = true.
Proof.
  revert a; induction x as [|c x IH]; intros a; simpl; [reflexivity|].
  destruct a as [|d a]; simpl; [discriminate|].
  rewrite !andb_true_iff. intros [H1 H2]. split; [assumption|apply IH, H2].
Qed.

Lemma contains_app_l (x a b : pystr) :
  contains x a = true -> contains x (a ++ b) = true.
Proof.
  induction a as [|d a IH]; simpl.
  - rewrite orb_false_r. intros H.
    destruct x; [destruct b; reflexivity|discriminate].
  - rewrite !orb_true_iff. intros [H|H].
    + left. apply (startswith_app x (d :: a) b H).
    + right. apply IH, H.
Qed.

Lemma contains_app_r (x a b : pystr) :
  contains x b = true -> contains x (a ++ b) = true.
Proof.
  intros H. induction a as [|d a IH]; simpl; [assumption|].
  rewrite IH. apply orb_true_r.
Qed.

Lemma contains_strip_by (p : char -> bool) (x s : pystr) :
  contains x s = false -> contains x (strip_by p s) = false.
Proof.
  intros H. destruct (contains x (strip_by p s)) eqn:Hc; [|reflexivity].
  destruct (strip_by_middle p s) as [pre [post Hs]].
  rewrite Hs in H. rewrite contains_app_r in H; [discriminate|].
  apply contains_app_l. exact Hc.
Qed.

Lemma In_strip_by (p : char -> bool) (s : pystr) (c : char) :
  In c (strip_by p s) -> In c s.
Proof.
  intros H. destruct (strip_by_middle p s) as [pre [post Hs]].
  rewrite Hs. apply in_or_app. right. apply in_or_app. left. exact H.
Qed.

Lemma In_replace_from (old new s : pystr) (k : nat) (c : char) :
  In c (replace_from old new s k) -> In c s \/ In c new.
Proof.
  revert k; induction s as [|d s IH]; intros k; simpl; [tauto|].
  destruct k as [|k].
  - destruct (startswith old (d :: s)).
    + intros H. apply in_app_or in H. destruct H as [H|H]; [tauto|].
      apply IH in H. tauto.
    + intros [H|H]; [tauto|]. apply IH in H. tauto.
  - intros H. apply IH in H. tauto.
Qed.

Lemma In_replace (old new s : pystr) (c : char) :
  In c (replace old new s) -> In c s \/ In c new.
Proof.
  unfold replace. destruct old as [|o old].
  - intros H. apply in_app_or in H. destruct H as [H|H]; [tauto|].
    apply in_flat_map in H. destruct H as [d [Hd [H|H]]]; [subst|]; tauto.
  - apply In_replace_from.
Qed.

(** Replacing a one-character string rewrites character by character. *)
Lemma replace_char (k : char) (v s : pystr) :
  replace [k] v s = flat_map (fun c => if k =? c then v else [c]) s.
Proof.
  unfold replace. induction s as [|c s IH]; simpl; [reflexivity|].
  rewrite andb_true_r. destruct (k =? c); simpl; rewrite IH; reflexivity.
Qed.
End StringFacts.

Section SlugShape.
Context {U : UnicodeData}.

(** Lowercasing a string with a character above U+00FF brings in no white
    space. *)
Hypothesis uni_lower_no_space :
  forall s, (forall c, In c s -> isspace c = false) ->
            forall c, In c (uni_lower s) -> isspace c = false.

Lemma sub_runs_space_no_space (s : pystr) (b : bool) (c : char) :
  In c (sub_runs isspace [hyphen] s b) -> isspace c = false.
Proof.
  revert b; induction s as [|d s IH]; intros b; simpl; [intros []|].
  destruct (isspace d) eqn:Hd.
  - intros H. apply in_app_or in H. destruct H as [H|H]; [|apply (IH _ H)].
    destruct b; [destruct H|]. destruct H as [<-|[]]. reflexivity.
  - intros [<-|H]; [exact Hd|apply (IH _ H)].
Qed.

Lemma latin1_lower_no_space (d : char) :
  is_latin1 d = true -> isspace d = false ->
  isspace (latin1_lower d) = false.
Proof.
  intros Hd Hs.
  assert (H := latin1_forall
                 (fun d => latin1_isspace d
                           || (is_latin1 (latin1_lower d)
                               && negb (latin1_isspace (latin1_lower d))))
                 eq_refl d Hd).
  cbv beta in H. unfold isspace in *. rewrite Hd in Hs. rewrite Hs in H.
  simpl in H. apply andb_true_iff in H. destruct H as [H1 H2].
  rewrite H1. apply negb_true_iff. exact H2.
Qed.

Lemma lower_no_space (s : pystr) :
  (forall c, In c s -> isspace c = false) ->
  forall c, In c (lower s) -> isspace c = false.
Proof.
  intros Hs c. unfold lower. destruct (forallb is_latin1 s) eqn:Hl.
  - intros H. apply in_map_iff in H. destruct H as [d [<- Hd]].
    rewrite forallb_forall in Hl.
    apply latin1_lower_no_space; [apply Hl|apply Hs]; assumption.
  - apply uni_lower_no_space. exact Hs.
Qed.

Lemma In_apply_replacements (s : pystr) (c : char) :
  In c (validators.apply_replacements s) ->
  In c s \/ exists kv, In kv validators.replacements /\ In c (snd kv).
Proof.
  unfold validators.apply_replacements.
  generalize validators.replacements as d. intros d. revert s.
  induction d as [|kv d IH]; intros s; simpl; [tauto|].
  intros H. apply IH in H. destruct H as [H|[kv' [H1 H2]]].
  - apply In_replace in H. destruct H as [H|H]; [tauto|].
    right. exists kv. tauto.
  - right. exists kv'. tauto.
Qed.

Lemma replacement_values_plain (kv : pystr * pystr) (c : char) :
  In kv validators.replacements -> In c (snd kv) ->
  in_range 97 122 c = true.
Proof.
  intros Hkv Hc.
  assert (H : forallb (fun kv => forallb (in_range 97 122) (snd kv))
                      validators.replacements = true) by reflexivity.
  rewrite forallb_forall in H. specialize (H kv Hkv).
  rewrite forallb_forall in H. apply H, Hc.
Qed.

Lemma lowercase_letter_facts (c : char) :
  in_range 97 122 c = true ->
  is_latin1 c = true /\ isspace c = false /\ is_word c = true
  /\ is_hyphen c = false /\ latin1_lower c = c.
Proof.
  intros H. unfold in_range in H. apply andb_true_iff in H.
  destruct H as [H1 H2]. apply N.leb_le in H1. apply N.leb_le in H2.
  assert (Hl : is_latin1 c = true) by (apply N.ltb_lt; lia).
  assert (Hall := latin1_forall
            (fun c => negb (in_range 97 122 c)
                      || (negb (latin1_isspace c) && latin1_isalnum c
                          && negb (is_hyphen c) && (latin1_lower c =? c)))
            eq_refl c Hl).
  cbv beta in Hall.
  assert (Hr : in_range 97 122 c = true).
  { unfold in_range. apply andb_true_iff. split; apply N.leb_le; lia. }
  rewrite Hr in Hall. simpl in Hall.
  repeat (apply andb_true_iff in Hall; destruct Hall as [Hall ?]).
  unfold isspace, is_word, isalnum. rewrite Hl.
  repeat split.
  - apply negb_true_iff. assumption.
  - apply orb_true_iff. left. assumption.
  - apply negb_true_iff. assumption.
  - apply N.eqb_eq. assumption.
Qed.

Lemma In_sub_runs_hyphen (s : pystr) (b : bool) (c : char) :
  In c (sub_runs is_hyphen [hyphen] s b) -> In c s.
Proof.
  revert b; induction s as [|d s IH]; intros b; simpl; [intros []|].
  destruct (is_hyphen d) eqn:Hd.
  - intros H. apply in_app_or in H. destruct H as [H|H].
    + destruct b; [destruct H|]. destruct H as [<-|[]].
      left. apply N.eqb_eq. exact Hd.
    + right. apply (IH _ H).
  - intros [H|H]; [left; assumption|right; apply (IH _ H)].
Qed.

(** After [-+] is replaced by [-], no hyphen follows a hyphen. *)
Lemma sub_runs_hyphen_single (s : pystr) (b : bool) :
  contains [hyphen; hyphen] (sub_runs is_hyphen [hyphen] s b) = false
  /\ (b = true ->
      startswith [hyphen] (sub_runs is_hyphen [hyphen] s b) = false).
Proof.
  revert b; induction s as [|d s IH]; intros b.
  - simpl. split; [reflexivity|intros _; reflexivity].
  - cbn [sub_runs]. destruct (is_hyphen d) eqn:Hd.
    + destruct (IH true) as [IH1 IH2]. specialize (IH2 eq_refl).
      destruct b; cbn [app].
      * split; [exact IH1|intros _; exact IH2].
      * split; [|discriminate].
        cbn [contains]. rewrite IH1, orb_false_r.
        cbn [startswith]. cbn [startswith] in IH2.
        rewrite N.eqb_refl. cbn [andb].
        exact IH2.
    + destruct (IH false) as [IH1 _].
      assert (Hne : (hyphen =? d) = false).
      { rewrite N.eqb_sym. exact Hd. }
      split.
      * cbn [contains]. rewrite IH1, orb_false_r.
        cbn [startswith]. rewrite Hne. reflexivity.
      * intros _. cbn [startswith]. rewrite Hne. reflexivity.
Qed.
End SlugShape.

Lemma startswith_char_false (k : char) (s : pystr) :
  (forall c, hd_error s = Some c -> (c =? k) = false) ->
  startswith [k] s = false.
Proof.
  destruct s as [|d s]; simpl; [reflexivity|].
  intros H. rewrite N.eqb_sym, (H d eq_refl). reflexivity.
Qed.

Section Slug.
Context {U : UnicodeData}.

Hypothesis uni_lower_no_space :
  forall s, (forall c, In c s -> isspace c = false) ->
            forall c, In c (uni_lower s) -> isspace c = false.

Lemma slug_no_space (name : pystr) (c : char) :
  In c (validators.clean_company_name name) -> isspace c = false.
Proof.
  unfold validators.clean_company_name.
  destruct name as [|n0 name]; cbn [truthy negb]; [intros []|].
  cbv zeta. intros Hc.
  apply In_strip_by in Hc. apply In_sub_runs_hyphen in Hc.
  apply In_apply_replacements in Hc. destruct Hc as [Hc|[kv [Hkv Hc]]].
  - revert c Hc. apply (lower_no_space uni_lower_no_space).
    intros c Hc. apply (sub_runs_space_no_space _ _ _ Hc).
  - apply lowercase_letter_facts.
    apply (replacement_values_plain kv c Hkv Hc).
Qed.
End Slug.

Section SlugHyphens.
Context {U : UnicodeData}.

Lemma slug_no_double_hyphen (name : pystr) :
  contains [hyphen; hyphen] (validators.clean_company_name name) = false.
Proof.
  unfold validators.clean_company_name.
  destruct name as [|n0 name]; cbn [truthy negb]; [reflexivity|].
  cbv zeta. apply contains_strip_by. apply sub_runs_hyphen_single.
Qed.

Lemma slug_head (name : pystr) (c : char) :
  hd_error (validators.clean_company_name name) = Some c ->
  is_hyphen c = false.
Proof.
  unfold validators.clean_company_name.
  destruct name as [|n0 name]; cbn [truthy negb]; [discriminate|].
  cbv zeta. apply strip_by_head.
Qed.

Lemma slug_last (name : pystr) (c : char) :
  hd_error (rev (validators.clean_company_name name)) = Some c ->
  is_hyphen c = false.
Proof.
  unfold validators.clean_company_name.
  destruct name as [|n0 name]; cbn [truthy negb]; [discriminate|].
  cbv zeta. apply strip_by_last.
Qed.
End SlugHyphens.

(** C10. For every input string the slug returned by the Name Normalizer
    holds no white-space character, holds no two hyphens in a row, and
    neither starts nor ends with a hyphen; the empty input gives the empty
    slug.  (The interpreter's lowercasing is taken not to produce white
    space out of a string without white space.) *)
Theorem C10_slug_shape (U : UnicodeData) :
  (forall s, (forall c, In c s -> isspace c = false) ->
             forall c, In c (uni_lower s) -> isspace c = false) ->
  forall name,
    (forall c, In c (validators.clean_company_name name) ->
               isspace c = false)
    /\ contains (lit "--") (validators.clean_company_name name) = false
    /\ startswith (lit "-") (validators.clean_company_name name) = false
    /\ endswith (lit "-") (validators.clean_company_name name) = false
    /\ (name = [] -> validators.clean_company_name name = []).
Proof.
  intros Hlow name.
  split; [|split; [|split; [|split]]].
  - intros c. apply (slug_no_space Hlow).
  - apply slug_no_double_hyphen.
  - change (lit "-") with [hyphen]. apply startswith_char_false.
    apply slug_head.
  - unfold endswith. change (rev (lit "-")) with [hyphen].
    apply startswith_char_false. apply slug_last.
  - intros ->. reflexivity.
Qed.

Lemma C10_slug_shape_witness :
  (forall s, (forall c, In c s -> isspace (U := latin1_unicode) c = false) ->
             forall c, In c (uni_lower (UnicodeData := latin1_unicode) s) ->
                       isspace (U := latin1_unicode) c = false)
  /\ (forall c,
         In c (validators.clean_company_name (U := latin1_unicode)
                 (lit " - Alpha  Beta--Gamma GmbH - ")) ->
         isspace (U := latin1_unicode) c = false)
  /\ contains (lit "--")
       (validators.clean_company_name (U := latin1_unicode)
          (lit " - Alpha  Beta--Gamma GmbH - ")) = false
  /\ startswith (lit "-")
       (validators.clean_company_name (U := latin1_unicode)
          (lit " - Alpha  Beta--Gamma GmbH - ")) = false
  /\ endswith (lit "-")
       (validators.clean_company_name (U := latin1_unicode)
          (lit " - Alpha  Beta--Gamma GmbH - ")) = false.
Proof.
  assert (H : forall s,
             (forall c, In c s -> isspace (U := latin1_unicode) c = false) ->
             forall c, In c (uni_lower (UnicodeData := latin1_unicode) s) ->
                       isspace (U := latin1_unicode) c = false)
    by (intros s Hs c Hc; apply Hs; exact Hc).
  split; [exact H|].
  destruct (C10_slug_shape latin1_unicode H
              (lit " - Alpha  Beta--Gamma GmbH - "))
    as [H1 [H2 [H3 [H4 _]]]].
  repeat split; assumption.
Defined.

(** ** The Name Normalizer: slugs that are fixed points *)

Section FixedPoint.
Context {U : UnicodeData}.

Lemma fold_left_id {A B} (f : A -> B -> A) (l : list B) (y : A) :
  (forall b, In b l -> f y b = y) -> fold_left f l y = y.
Proof.
  induction l as [|b l IH]; intros H; simpl; [reflexivity|].
  rewrite (H b (or_introl eq_refl)). apply IH.
  intros b' Hb'. apply H. right; assumption.
Qed.

Lemma sub_word_from_no_match (pat : pystr) (before : option char)
      (s : pystr) :
  search_word pat before s = false -> sub_word_from pat before s 0 = s.
Proof.
  revert before; induction s as [|c s IH]; intros before; simpl;
    [reflexivity|].
  intros H. apply orb_false_iff in H. destruct H as [H1 H2].
  rewrite H1. f_equal. apply IH, H2.
Qed.

Lemma strip_suffixes_id (y : pystr) :
  (forall suffix, In suffix validators.legal_suffixes ->
                  search_word suffix None y = false) ->
  validators.strip_suffixes y = y.
Proof.
  intros H. unfold validators.strip_suffixes. apply fold_left_id.
  intros suffix Hs. unfold sub_word. destruct suffix; [reflexivity|].
  apply sub_word_from_no_match, H, Hs.
Qed.

Lemma filter_id {A} (f : A -> bool) (l : list A) :
  (forall a, In a l -> f a = true) -> filter f l = l.
Proof.
  induction l as [|a l IH]; intros H; simpl; [reflexivity|].
  rewrite (H a (or_introl eq_refl)). f_equal. apply IH.
  intros b Hb. apply H. right; assumption.
Qed.

Lemma sub_runs_id (cls : char -> bool) (repl s : pystr) (b : bool) :
  (forall c, In c s -> cls c = false) -> sub_runs cls repl s b = s.
Proof.
  revert b; induction s as [|c s IH]; intros b H; simpl; [reflexivity|].
  rewrite (H c (or_introl eq_refl)). f_equal. apply IH.
  intros d Hd. apply H. right; assumption.
Qed.

Lemma sub_runs_hyphen_id (s : pystr) (b : bool) :
  contains [hyphen; hyphen] s = false ->
  (b = true -> startswith [hyphen] s = false) ->
  sub_runs is_hyphen [hyphen] s b = s.
Proof.
  revert b; induction s as [|c s IH]; intros b Hc Hb; [reflexivity|].
  cbn [contains] in Hc. apply orb_false_iff in Hc. destruct Hc as [Hc1 Hc2].
  cbn [sub_runs]. unfold is_hyphen at 1.
  destruct (c =? hyphen) eqn:Hh.
  - apply N.eqb_eq in Hh. subst c.
    destruct b.
    + specialize (Hb eq_refl). cbn [startswith] in Hb.
      rewrite N.eqb_refl in Hb. discriminate.
    + cbn [app]. f_equal. apply IH; [assumption|].
      intros _. cbn [startswith] in Hc1. rewrite N.eqb_refl in Hc1.
      cbn [andb] in Hc1. exact Hc1.
  - f_equal. apply IH; [assumption|discriminate].
Qed.

Lemma replace_absent (k : char) (v s : pystr) :
  ~ In k s -> replace [k] v s = s.
Proof.
  rewrite replace_char. induction s as [|c s IH]; intros H; simpl;
    [reflexivity|].
  destruct (k =? c) eqn:Hk.
  - apply N.eqb_eq in Hk. subst. exfalso. apply H. left; reflexivity.
  - simpl. f_equal. apply IH. intros Hin. apply H. right; assumption.
Qed.

Lemma replace_removes (k : char) (v s : pystr) :
  ~ In k v -> ~ In k (replace [k] v s).
Proof.
  rewrite replace_char. intros Hv H. apply in_flat_map in H.
  destruct H as [c [_ H]]. destruct (k =? c) eqn:Hk.
  - apply Hv, H.
  - destruct H as [H|[]]. subst c. rewrite N.eqb_refl in Hk. discriminate.
Qed.

Lemma In_fold_replace (d : dict pystr) (s : pystr) (c : char) :
  In c (fold_left (fun cleaned kv => replace (fst kv) (snd kv) cleaned) d s)
  -> In c s \/ exists kv, In kv d /\ In c (snd kv).
Proof.
  revert s. induction d as [|kv d IH]; intros s; simpl; [tauto|].
  intros H. apply IH in H. destruct H as [H|[kv' [H1 H2]]].
  - apply In_replace in H. destruct H as [H|H]; [tauto|].
    right. exists kv. tauto.
  - right. exists kv'. tauto.
Qed.

Lemma fold_replace_removes (d : dict pystr) (s : pystr) (k : char) :
  (exists v, In ([k], v) d) ->
  (forall kv, In kv d -> ~ In k (snd kv)) ->
  ~ In k (fold_left (fun cleaned kv => replace (fst kv) (snd kv) cleaned)
                    d s).
Proof.
  revert s. induction d as [|kv d IH]; intros s [v Hv] Hval; simpl.
  - destruct Hv.
  - destruct Hv as [Hv|Hv].
    + subst kv. cbn [fst snd]. intros H. apply In_fold_replace in H.
      destruct H as [H|[kv' [H1 H2]]].
      * revert H. apply replace_removes.
        apply (Hval ([k], v)). left; reflexivity.
      * apply (Hval kv'); [right; assumption|assumption].
    + apply IH; [exists v; assumption|].
      intros kv' Hkv'. apply Hval. right; assumption.
Qed.

(** Every key of [replacements] is one character, above "z". *)
Lemma replacement_keys (kv : pystr * pystr) :
  In kv validators.replacements ->
  exists k, fst kv = [k] /\ in_range 223 252 k = true.
Proof.
  intros H.
  assert (Hall : forallb (fun kv => match fst kv with
                                    | [k] => in_range 223 252 k
                                    | _ => false
                                    end) validators.replacements = true)
    by reflexivity.
  rewrite forallb_forall in Hall. specialize (Hall kv H).
  destruct kv as [f v]. cbn [fst] in *.
  destruct f as [|k [|? ?]]; try discriminate.
  exists k. split; [reflexivity|assumption].
Qed.

Lemma key_not_in_values (k : char) (kv : pystr * pystr) :
  in_range 223 252 k = true -> In kv validators.replacements ->
  ~ In k (snd kv).
Proof.
  intros Hk Hkv Hin.
  assert (H := replacement_values_plain kv k Hkv Hin).
  unfold in_range in *. apply andb_true_iff in Hk, H.
  destruct Hk as [Hk _]. destruct H as [_ H].
  apply N.leb_le in Hk, H. lia.
Qed.

(** No key of [replacements] is left in a slug. *)
Lemma slug_no_key (name : pystr) (kv : pystr * pystr) (k : char) :
  In kv validators.replacements -> fst kv = [k] ->
  ~ In k (validators.clean_company_name name).
Proof.
  intros Hkv Hk. unfold validators.clean_company_name.
  destruct name as [|n0 name]; cbn [truthy negb]; [intros []|].
  cbv zeta. intros H.
  apply In_strip_by in H. apply In_sub_runs_hyphen in H.
  revert H. unfold validators.apply_replacements.
  destruct (replacement_keys kv Hkv) as [k' [Hk' Hr]].
  rewrite Hk in Hk'. assert (Heq : k' = k) by congruence. subst k'.
  apply fold_replace_removes.
  - exists (snd kv). rewrite <- Hk. destruct kv; assumption.
  - intros kv' Hkv'. apply key_not_in_values; assumption.
Qed.

Lemma apply_replacements_id (s : pystr) :
  (forall kv k, In kv validators.replacements -> fst kv = [k] -> ~ In k s) ->
  validators.apply_replacements s = s.
Proof.
  intros H. unfold validators.apply_replacements. apply fold_left_id.
  intros kv Hkv. destruct (replacement_keys kv Hkv) as [k [Hk _]].
  rewrite Hk. apply replace_absent. apply (H kv k Hkv Hk).
Qed.
End FixedPoint.

(** C3 as stated fails on "A.G": no suffix matches while the dot is there,
    the dot is then removed, and the slug "ag" is itself a legal suffix, so
    that normalizing the slug again gives the empty string. *)
Lemma C3_not_idempotent :
  validators.clean_company_name (U := latin1_unicode) (lit "A.G") = lit "ag"
  /\ validators.clean_company_name (U := latin1_unicode) (lit "ag") = []
  /\ validators.clean_company_name (U := latin1_unicode)
       (validators.clean_company_name (U := latin1_unicode) (lit "A.G"))
     <> validators.clean_company_name (U := latin1_unicode) (lit "A.G").
Proof.
  split; [vm_compute; reflexivity|].
  split; [vm_compute; reflexivity|].
  vm_compute. discriminate.
Qed.

(** C3, amended.  Normalizing a slug again returns the slug whenever no
    legal suffix matches in the slug as a whole word, the slug consists of
    word characters and hyphens, and lowercasing leaves it unchanged.  (The
    interpreter's lowercasing is taken not to produce white space out of a
    string without white space.) *)
Theorem C3_normalize_fixed_point (U : UnicodeData) :
  (forall s, (forall c, In c s -> isspace c = false) ->
             forall c, In c (uni_lower s) -> isspace c = false) ->
  forall x,
    (forall suffix, In suffix validators.legal_suffixes ->
       search_word suffix None (validators.clean_company_name x) = false) ->
    (forall c, In c (validators.clean_company_name x) ->
               is_word c || is_hyphen c = true) ->
    lower (validators.clean_company_name x) = validators.clean_company_name x ->
    validators.clean_company_name (validators.clean_company_name x)
    = validators.clean_company_name x.
Proof.
  intros Hlow x Hsuf Hword Hlower.
  assert (Fsp := slug_no_space Hlow x).
  assert (Fdd := slug_no_double_hyphen x).
  assert (Fhd := slug_head x).
  assert (Flast := slug_last x).
  assert (Fkey := slug_no_key x).
  remember (validators.clean_company_name x) as y eqn:Hy. clear Hy x.
  unfold validators.clean_company_name.
  destruct y as [|c0 y0] eqn:Ey; [reflexivity|].
  cbn [truthy negb]. cbv zeta. rewrite <- Ey in *.
  assert (Hhd_in : forall c, hd_error y = Some c -> In c y).
  { intros c. destruct y; simpl; [discriminate|].
    intros H; inversion H; left; reflexivity. }
  assert (Hlast_in : forall c, hd_error (rev y) = Some c -> In c y).
  { intros c H. apply in_rev. destruct (rev y); simpl in *; [discriminate|].
    inversion H; left; reflexivity. }
  rewrite strip_suffixes_id by assumption.
  unfold validators.remove_special. rewrite filter_id.
  2:{ intros c Hc. specialize (Hword c Hc).
      apply orb_true_iff in Hword. destruct Hword as [Hw|Hh].
      - rewrite Hw. reflexivity.
      - rewrite Hh. apply orb_true_r. }
  unfold strip. rewrite (strip_by_id isspace y).
  2:{ intros c Hc. apply Fsp, Hhd_in, Hc. }
  2:{ intros c Hc. apply Fsp, Hlast_in, Hc. }
  rewrite (sub_runs_id isspace [hyphen] y false) by assumption.
  rewrite Hlower.
  rewrite apply_replacements_id.
  2:{ intros kv k Hkv Hk. apply (Fkey kv k Hkv Hk). }
  rewrite sub_runs_hyphen_id; [|assumption|discriminate].
  apply strip_by_id; assumption.
Qed.

Lemma C3_normalize_fixed_point_witness :
  (forall s, (forall c, In c s -> isspace (U := latin1_unicode) c = false) ->
             forall c, In c (uni_lower (UnicodeData := latin1_unicode) s) ->
                       isspace (U := latin1_unicode) c = false)
  /\ (forall suffix, In suffix validators.legal_suffixes ->
        search_word (U := latin1_unicode) suffix None
          (validators.clean_company_name (U := latin1_unicode)
             (lit "Acme Tools GmbH")) = false)
  /\ (forall c,
         In c (validators.clean_company_name (U := latin1_unicode)
                 (lit "Acme Tools GmbH")) ->
         is_word (U := latin1_unicode) c || is_hyphen c = true)
  /\ lower (U := latin1_unicode)
       (validators.clean_company_name (U := latin1_unicode)
          (lit "Acme Tools GmbH"))
     = validators.clean_company_name (U := latin1_unicode)
         (lit "Acme Tools GmbH")
  /\ validators.clean_company_name (U := latin1_unicode)
       (validators.clean_company_name (U := latin1_unicode)
          (lit "Acme Tools GmbH"))
     = validators.clean_company_name (U := latin1_unicode)
         (lit "Acme Tools GmbH").
Proof.
  assert (H0 : forall s,
             (forall c, In c s -> isspace (U := latin1_unicode) c = false) ->
             forall c, In c (uni_lower (UnicodeData := latin1_unicode) s) ->
                       isspace (U := latin1_unicode) c = false)
    by (intros s Hs c Hc; apply Hs; exact Hc).
  assert (H1 : forall suffix, In suffix validators.legal_suffixes ->
             search_word (U := latin1_unicode) suffix None
               (validators.clean_company_name (U := latin1_unicode)
                  (lit "Acme Tools GmbH")) = false).
  { intros suffix Hs.
    assert (Hall : forallb
              (fun suffix =>
                 negb (search_word (U := latin1_unicode) suffix None
                         (validators.clean_company_name (U := latin1_unicode)
                            (lit "Acme Tools GmbH"))))
              validators.legal_suffixes = true)
      by (vm_compute; reflexivity).
    rewrite forallb_forall in Hall. apply negb_true_iff. apply Hall, Hs. }
  assert (H2 : forall c,
             In c (validators.clean_company_name (U := latin1_unicode)
                     (lit "Acme Tools GmbH")) ->
             is_word (U := latin1_unicode) c || is_hyphen c = true).
  { assert (Hall : forallb
              (fun c => is_word (U := latin1_unicode) c || is_hyphen c)
              (validators.clean_company_name (U := latin1_unicode)
                 (lit "Acme Tools GmbH")) = true)
      by (vm_compute; reflexivity).
    rewrite forallb_forall in Hall. exact Hall. }
  assert (H3 : lower (U := latin1_unicode)
                 (validators.clean_company_name (U := latin1_unicode)
                    (lit "Acme Tools GmbH"))
               = validators.clean_company_name (U := latin1_unicode)
                   (lit "Acme Tools GmbH"))
    by (vm_compute; reflexivity).
  split; [exact H0|]. split; [exact H1|]. split; [exact H2|].
  split; [exact H3|].
  exact (C3_normalize_fixed_point latin1_unicode H0
           (lit "Acme Tools GmbH") H1 H2 H3).
Defined.

(** ** Input below U+0100 *)

Section Latin1.
Context {U : UnicodeData}.

Lemma In_sub_word_from (pat : pystr) (before : option char) (s : pystr)
      (k : nat) (c : char) :
  In c (sub_word_from pat before s k) -> In c s.
Proof.
  revert before k; induction s as [|d s IH]; intros before k; simpl;
    [intros []|].
  destruct k as [|k].
  - destruct (word_boundary before (Some d) && match_literal pat before (d :: s)).
    + intros H. right. apply (IH _ _ H).
    + intros [H|H]; [left; assumption|right; apply (IH _ _ H)].
  - intros H. right. apply (IH _ _ H).
Qed.

Lemma In_strip_suffixes (s : pystr) (c : char) :
  In c (validators.strip_suffixes s) -> In c s.
Proof.
  unfold validators.strip_suffixes.
  generalize validators.legal_suffixes as l. intros l. revert s.
  induction l as [|suffix l IH]; intros s; simpl; [tauto|].
  intros H. apply IH in H. unfold sub_word in H.
  destruct suffix; [assumption|]. apply (In_sub_word_from _ _ _ _ _ H).
Qed.

Lemma In_sub_runs_space (s : pystr) (b : bool) (c : char) :
  In c (sub_runs isspace [hyphen] s b) ->
  c = hyphen \/ (In c s /\ isspace c = false).
Proof.
  revert b; induction s as [|d s IH]; intros b; simpl; [intros []|].
  destruct (isspace d) eqn:Hd.
  - intros H. apply in_app_or in H. destruct H as [H|H].
    + destruct b; [destruct H|]. destruct H as [<-|[]]. left; reflexivity.
    + apply IH in H. tauto.
  - intros [<-|H]; [tauto|]. apply IH in H. tauto.
Qed.

(** A character below U+0100 that is a word character or a hyphen is
    lowercased to one such character, which lowercasing leaves alone. *)
Lemma latin1_lower_plain (d : char) :
  is_latin1 d = true -> is_word d || is_hyphen d = true ->
  is_latin1 (latin1_lower d) = true
  /\ is_word (latin1_lower d) || is_hyphen (latin1_lower d) = true
  /\ latin1_lower (latin1_lower d) = latin1_lower d.
Proof.
  intros Hd Hw.
  assert (H := latin1_forall
     (fun d => negb (latin1_isalnum d || (d =? underscore) || is_hyphen d)
               || (is_latin1 (latin1_lower d)
                   && (latin1_isalnum (latin1_lower d)
                       || (latin1_lower d =? underscore)
                       || is_hyphen (latin1_lower d))
                   && (latin1_lower (latin1_lower d) =? latin1_lower d)))
     eq_refl d Hd).
  cbv beta in H. unfold is_word, isalnum in *. rewrite Hd in Hw.
  rewrite Hw in H. simpl in H.
  apply andb_true_iff in H. destruct H as [H H3].
  apply andb_true_iff in H. destruct H as [H1 H2].
  rewrite H1. repeat split; try assumption. apply N.eqb_eq. assumption.
Qed.

(** On input below U+0100 the slug consists of word characters and
    hyphens and is unchanged by lowercasing. *)
Lemma latin1_slug_plain (x : pystr) :
  forallb is_latin1 x = true ->
  (forall c, In c (validators.clean_company_name x) ->
             is_word c || is_hyphen c = true)
  /\ lower (validators.clean_company_name x)
     = validators.clean_company_name x.
Proof.
  intros Hx. rewrite forallb_forall in Hx.
  assert (Hchars : forall c, In c (validators.clean_company_name x) ->
             is_latin1 c = true /\ is_word c || is_hyphen c = true
             /\ latin1_lower c = c).
  { unfold validators.clean_company_name.
    destruct x as [|x0 x]; cbn [truthy negb]; [intros c []|].
    cbv zeta. intros c Hc.
    apply In_strip_by in Hc. apply In_sub_runs_hyphen in Hc.
    apply In_apply_replacements in Hc. destruct Hc as [Hc|[kv [Hkv Hc]]].
    - remember (sub_runs isspace [hyphen]
                  (strip (validators.remove_special
                            (validators.strip_suffixes (x0 :: x)))) false)
        as w eqn:Hw.
      assert (Hwc : forall d, In d w ->
                 is_latin1 d = true /\ is_word d || is_hyphen d = true).
      { intros d Hd. rewrite Hw in Hd. apply In_sub_runs_space in Hd.
        destruct Hd as [->|[Hd Hs]]; [split; reflexivity|].
        apply In_strip_by in Hd. apply filter_In in Hd.
        destruct Hd as [Hd Hf]. apply In_strip_suffixes in Hd.
        split; [apply Hx, Hd|].
        rewrite Hs, orb_false_r in Hf.
        destruct (is_word d); [reflexivity|exact Hf]. }
      unfold lower in Hc.
      assert (Hl : forallb is_latin1 w = true).
      { apply forallb_forall. intros d Hd. apply Hwc, Hd. }
      rewrite Hl in Hc. apply in_map_iff in Hc. destruct Hc as [d [<- Hd]].
      destruct (Hwc d Hd) as [H1 H2]. apply latin1_lower_plain; assumption.
    - assert (Hr := replacement_values_plain kv c Hkv Hc).
      destruct (lowercase_letter_facts c Hr) as [H1 [_ [H2 [_ H3]]]].
      split; [assumption|]. split; [|assumption].
      rewrite H2. reflexivity. }
  split.
  - intros c Hc. apply Hchars, Hc.
  - unfold lower.
    assert (Hl : forallb is_latin1 (validators.clean_company_name x) = true).
    { apply forallb_forall. intros c Hc. apply Hchars, Hc. }
    rewrite Hl.
    rewrite <- (map_id (validators.clean_company_name x)) at 2.
    apply map_ext_in. intros c Hc. apply Hchars, Hc.
Qed.
End Latin1.

(** ** The probe of the repository *)

Section Probe.
Context {U : UnicodeData} {E : Environment}.

(** [check_domain_availability] returns one of three strings and raises
    nothing: "taken" when the name resolves, "available" when the resolver
    raises [gaierror], and "error" when the domain is not well formed or
    the resolver raises anything else. *)
Lemma check_domain_availability_cases (d : pystr) (timeout : Z) :
  validators.check_domain_availability d timeout
  = Ok (if negb (validators.validate_domain d) then lit "error"
        else match gethostbyname timeout d with
             | Ok _ => lit "taken"
             | Raise gaierror => lit "available"
             | Raise _ => lit "error"
             end).
Proof.
  unfold validators.check_domain_availability.
  destruct (validators.validate_domain d); cbn [negb]; [|reflexivity].
  destruct (gethostbyname timeout d) as [[]|[]]; reflexivity.
Qed.
End Probe.

(** ** The builder and its probe *)

Section ProbeOutcomes.
Context {U : UnicodeData} {E : Environment}.
Import domain_generator.

(** The members of the builder's list: one for each variant and TLD whose
    domain is well formed, with the status that the probe decides. *)
Lemma variant_major_members (probe : pystr -> Z -> exc pystr)
      (self : DomainGenerator) (vs : list pystr) (c : domain_info) :
  In c (variant_major probe self vs)
  <-> exists v t,
        In v vs /\ In t (config_tlds self)
        /\ validators.validate_domain (v ++ t) = true
        /\ c = {| domain := v ++ t; variant := v; tld := t;
                  status := entry_status probe self (v ++ t) |}.
Proof.
  unfold variant_major. split.
  - intros Hc. apply in_flat_map in Hc. destruct Hc as [v [Hv Hc]].
    apply in_flat_map in Hc. destruct Hc as [t [Ht Hc]].
    unfold entries in Hc.
    destruct (validators.validate_domain (v ++ t)) eqn:Hd; [|destruct Hc].
    destruct Hc as [<-|[]]. exists v, t. repeat split; assumption.
  - intros [v [t [Hv [Ht [Hd ->]]]]].
    apply in_flat_map. exists v. split; [exact Hv|].
    apply in_flat_map. exists t. split; [exact Ht|].
    unfold entries. rewrite Hd. left. reflexivity.
Qed.

(** C7.  Whatever function is bound to the name of the probe, the builder
    returns a list and raises nothing.  The list has a candidate for each
    returned variant and each configured TLD whose domain is well formed,
    and nothing else: no candidate is left out because of the probe.  With
    availability checking enabled the status of the candidate is what the
    call of the probe returns, and "error" when the call raises; with
    checking disabled it is "unknown".  The probe of the repository raises
    nothing, so that with it the status is "taken" when the name resolves,
    "error" when the lookup raises an exception other than [gaierror], and
    "available", not "error", when the lookup raises [gaierror]. *)
Theorem C7_probe_outcomes (self : DomainGenerator) (name : pystr) :
  (forall probe : pystr -> Z -> exc pystr,
     exists l,
       generate_full_domains_with probe self name = Ok l
       /\ forall c,
            In c l
            <-> exists v t,
                  In v (generate_domain_variants self name)
                  /\ In t (config_tlds self)
                  /\ validators.validate_domain (v ++ t) = true
                  /\ c = {| domain := v ++ t; variant := v; tld := t;
                            status :=
                              if config_check self
                              then match probe (v ++ t)
                                               (config_timeout self) with
                                   | Ok s => s
                                   | Raise _ => lit "error"
                                   end
                              else lit "unknown" |})
  /\ (forall d timeout,
        exists s, validators.check_domain_availability d timeout = Ok s)
  /\ exists l,
       generate_full_domains self name = Ok l
       /\ forall c,
            In c l
            <-> exists v t,
                  In v (generate_domain_variants self name)
                  /\ In t (config_tlds self)
                  /\ validators.validate_domain (v ++ t) = true
                  /\ c = {| domain := v ++ t; variant := v; tld := t;
                            status :=
                              if config_check self
                              then match gethostbyname (config_timeout self)
                                                       (v ++ t) with
                                   | Ok _ => lit "taken"
                                   | Raise gaierror => lit "available"
                                   | Raise _ => lit "error"
                                   end
                              else lit "unknown" |}.
Proof.
  split; [|split].
  - intros probe. rewrite generate_full_domains_with_eq.
    eexists. split; [reflexivity|]. intros c.
    rewrite variant_major_members. reflexivity.
  - intros d timeout. rewrite check_domain_availability_cases.
    eexists. reflexivity.
  - unfold generate_full_domains. rewrite generate_full_domains_with_eq.
    eexists. split; [reflexivity|]. intros c.
    rewrite variant_major_members.
    split; intros [v [t [Hv [Ht [Hd Hc]]]]]; exists v, t;
      (split; [exact Hv|]); (split; [exact Ht|]); (split; [exact Hd|]);
      rewrite Hc; f_equal; unfold entry_status;
      rewrite check_domain_availability_cases, Hd; reflexivity.
Qed.
End ProbeOutcomes.

(** C7, as the claim has it, at an input that it does not survive.  With
    availability checking enabled and a resolver that raises [gaierror],
    the lookup for "mustermann.de" fails, and the candidate has the status
    "available", not "error". *)
Theorem C7_failed_lookup_is_available :
  domain_generator.generate_full_domains
    (U := latin1_unicode) (E := unresolved_dns_env)
    (domain_generator.init
       (Some {| settings.tlds := Some [lit ".de"];
                settings.max_variants_per_company := Some 1%Z;
                settings.check_domain_availability := Some true;
                settings.timeout_dns_check := None |}))
    (lit "Mustermann GmbH")
  = Ok [ {| domain_generator.domain := lit "mustermann.de";
            domain_generator.variant := lit "mustermann";
            domain_generator.tld := lit ".de";
            domain_generator.status := lit "available" |} ]
  /\ gethostbyname (Environment := unresolved_dns_env) 5%Z
                   (lit "mustermann.de")
     = Raise gaierror
  /\ lit "available" <> lit "error".
Proof.
  split; [vm_compute; reflexivity|].
  split; [reflexivity|]. vm_compute. discriminate.
Qed.

(** ** Runs on sample input *)

(** A probe that raises on every call leaves every candidate with status
    "error", and the builder returns. *)
Example builder_absorbs_raising_probe :
  domain_generator.generate_full_domains_with
    (U := latin1_unicode) (E := insertion_order_env) raising_probe
    (domain_generator.init
       (Some {| settings.tlds := Some [lit ".de"];
                settings.max_variants_per_company := Some 1%Z;
                settings.check_domain_availability := Some true;
                settings.timeout_dns_check := None |}))
    (lit "Mustermann GmbH")
  = Ok [ {| domain_generator.domain := lit "mustermann.de";
            domain_generator.variant := lit "mustermann";
            domain_generator.tld := lit ".de";
            domain_generator.status := lit "error" |} ].
Proof. vm_compute. reflexivity. Qed.

(** The probe of the repository, with a resolver that raises. *)
Example builder_with_failing_resolver :
  domain_generator.generate_full_domains
    (U := latin1_unicode) (E := failing_dns_env)
    (domain_generator.init
       (Some {| settings.tlds := Some [lit ".de"];
                settings.max_variants_per_company := Some 1%Z;
                settings.check_domain_availability := Some true;
                settings.timeout_dns_check := None |}))
    (lit "Mustermann GmbH")
  = Ok [ {| domain_generator.domain := lit "mustermann.de";
            domain_generator.variant := lit "mustermann";
            domain_generator.tld := lit ".de";
            domain_generator.status := lit "error" |} ].
Proof. vm_compute. reflexivity. Qed.

Example postal_code_of_sample_address :
  validators.extract_postal_code (U := latin1_unicode)
    (lit "Musterstraße 1" ++ [validators.newline] ++ lit "10115 Berlin")
  = Some (lit "10115").
Proof. vm_compute. reflexivity. Qed.

(** The page with [.company-item] and [.listing-item] entries yields the
    records of the two [.company-item] entries. *)
Example sample_page_records :
  k_online_scraper._scrape_page_with_requests
    (U := latin1_unicode) (E := insertion_order_env)
    (B := dom.latin1_soup) (R := dom.no_match)
    k_online_scraper.init (Some dom.sample_page) (lit "https://example.org")
  = [ [(lit "company_name", lit "Alpha GmbH")];
      [(lit "company_name", lit "Beta Tools KG")] ].
Proof. vm_compute. reflexivity. Qed.

(* ================================================================== *)
(** * Further properties of the code *)

(** ** Runs of one character *)

Section CharRuns.
Context {U : UnicodeData}.
Variable k : char.

Lemma In_sub_runs_char (s : pystr) (b : bool) (c : char) :
  In c (sub_runs (fun x => x =? k) [k] s b) -> In c s.
Proof.
  revert b; induction s as [|d s IH]; intros b; simpl; [intros []|].
  destruct (d =? k) eqn:Hd.
  - intros H. apply in_app_or in H. destruct H as [H|H].
    + destruct b; [destruct H|]. destruct H as [<-|[]].
      left. apply N.eqb_eq. exact Hd.
    + right. apply (IH _ H).
  - intros [H|H]; [left; assumption|right; apply (IH _ H)].
Qed.

Lemma sub_runs_char_single (s : pystr) (b : bool) :
  contains [k; k] (sub_runs (fun x => x =? k) [k] s b) = false
  /\ (b = true ->
      startswith [k] (sub_runs (fun x => x =? k) [k] s b) = false).
Proof.
  revert b; induction s as [|d s IH]; intros b.
  - simpl. split; [reflexivity|intros _; reflexivity].
  - cbn [sub_runs]. destruct (d =? k) eqn:Hd.
    + destruct (IH true) as [IH1 IH2]. specialize (IH2 eq_refl).
      destruct b; cbn [app].
      * split; [exact IH1|intros _; exact IH2].
      * split; [|discriminate].
        cbn [contains]. rewrite IH1, orb_false_r.
        cbn [startswith]. cbn [startswith] in IH2.
        rewrite N.eqb_refl. cbn [andb]. exact IH2.
    + destruct (IH false) as [IH1 _].
      assert (Hne : (k =? d) = false) by (rewrite N.eqb_sym; exact Hd).
      split.
      * cbn [contains]. rewrite IH1, orb_false_r.
        cbn [startswith]. rewrite Hne. reflexivity.
      * intros _. cbn [startswith]. rewrite Hne. reflexivity.
Qed.

Lemma sub_runs_char_id (s : pystr) (b : bool) :
  contains [k; k] s = false ->
  (b = true -> startswith [k] s = false) ->
  sub_runs (fun x => x =? k) [k] s b = s.
Proof.
  revert b; induction s as [|c s IH]; intros b Hc Hb; [reflexivity|].
  cbn [contains] in Hc. apply orb_false_iff in Hc. destruct Hc as [Hc1 Hc2].
  cbn [sub_runs]. destruct (c =? k) eqn:Hh.
  - apply N.eqb_eq in Hh. subst c. destruct b.
    + specialize (Hb eq_refl). cbn [startswith] in Hb.
      rewrite N.eqb_refl in Hb. discriminate.
    + cbn [app]. f_equal. apply IH; [assumption|].
      intros _. cbn [startswith] in Hc1. rewrite N.eqb_refl in Hc1.
      cbn [andb] in Hc1. exact Hc1.
  - f_equal. apply IH; [assumption|discriminate].
Qed.
End CharRuns.

Lemma contains_firstn (x s : pystr) (n : nat) :
  contains x s = false -> contains x (firstn n s) = false.
Proof.
  intros H. destruct (contains x (firstn n s)) eqn:Hc; [|reflexivity].
  rewrite <- (firstn_skipn n s) in H.
  rewrite (contains_app_l _ _ _ Hc) in H. discriminate.
Qed.

Lemma startswith_firstn (x s : pystr) (n : nat) :
  startswith x s = false -> startswith x (firstn n s) = false.
Proof.
  intros H. destruct (startswith x (firstn n s)) eqn:Hc; [|reflexivity].
  rewrite <- (firstn_skipn n s) in H.
  rewrite (startswith_app _ _ _ Hc) in H. discriminate.
Qed.

Lemma In_firstn (n : nat) (s : pystr) (c : char) :
  In c (firstn n s) -> In c s.
Proof.
  intros H. rewrite <- (firstn_skipn n s). apply in_or_app. left. exact H.
Qed.

Lemma startswith_char_hd (k : char) (s : pystr) :
  startswith [k] s = false <->
  (forall c, hd_error s = Some c -> (c =? k) = false).
Proof.
  destruct s as [|d s]; simpl.
  - split; [intros _ c H; discriminate|reflexivity].
  - rewrite andb_true_r, N.eqb_sym. split.
    + intros H c Hc. inversion Hc; subst; exact H.
    + intros H. apply H. reflexivity.
Qed.

(** ** [sanitize_filename] *)

Section Sanitize.
Context {U : UnicodeData}.

Lemma sanitize_mapped_char (d : char) :
  validators.invalid_filename_char
    (if validators.invalid_filename_char d then underscore else d) = false.
Proof.
  destruct (validators.invalid_filename_char d) eqn:Hd;
    [reflexivity|exact Hd].
Qed.

Lemma sanitize_filename_chars (filename : pystr) (c : char) :
  In c (validators.sanitize_filename filename) ->
  validators.invalid_filename_char c = false.
Proof.
  unfold validators.sanitize_filename. cbv zeta. intros Hc.
  apply In_firstn in Hc. apply In_strip_by in Hc.
  apply (In_sub_runs_char underscore) in Hc.
  apply in_map_iff in Hc. destruct Hc as [d [<- _]].
  apply sanitize_mapped_char.
Qed.

Lemma sanitize_filename_underscores (filename : pystr) :
  contains [underscore; underscore] (validators.sanitize_filename filename)
  = false
  /\ startswith [underscore] (validators.sanitize_filename filename) = false.
Proof.
  unfold validators.sanitize_filename. cbv zeta. split.
  - apply contains_firstn, contains_strip_by.
    apply (sub_runs_char_single underscore).
  - apply startswith_firstn. apply startswith_char_hd.
    intros c Hc. apply (strip_by_head validators.is_underscore _ c Hc).
Qed.

(** X1.  The sanitized name has at most 100 characters, holds none of the
    characters that [invalid_chars] lists, holds no two underscores in a row
    and does not start with an underscore. *)
Theorem sanitize_filename_shape (filename : pystr) :
  (List.length (validators.sanitize_filename filename) <= 100)%nat
  /\ (forall c, In c (validators.sanitize_filename filename) ->
                validators.invalid_filename_char c = false)
  /\ contains (lit "__") (validators.sanitize_filename filename) = false
  /\ startswith (lit "_") (validators.sanitize_filename filename) = false.
Proof.
  split; [unfold validators.sanitize_filename; apply firstn_le_length|].
  split; [apply sanitize_filename_chars|].
  apply sanitize_filename_underscores.
Qed.

(** A name of at most 100 characters that holds no invalid character and
    no two underscores in a row, and neither starts nor ends with an
    underscore, is unchanged by [sanitize_filename]. *)
Lemma sanitize_filename_stable (y : pystr) :
  (List.length y <= 100)%nat ->
  (forall c, In c y -> validators.invalid_filename_char c = false) ->
  contains [underscore; underscore] y = false ->
  startswith [underscore] y = false ->
  endswith [underscore] y = false ->
  validators.sanitize_filename y = y.
Proof.
  intros Hlen Hinv Hdd Hhd Hlast.
  unfold validators.sanitize_filename. cbv zeta.
  assert (Hmap : map (fun c => if validators.invalid_filename_char c
                               then underscore else c) y = y).
  { rewrite <- (map_id y) at 2. apply map_ext_in.
    intros c Hc. rewrite (Hinv c Hc). reflexivity. }
  rewrite Hmap.
  unfold validators.is_underscore.
  rewrite (sub_runs_char_id underscore y false Hdd) by discriminate.
  rewrite strip_by_id.
  - apply firstn_all2. exact Hlen.
  - apply startswith_char_hd. exact Hhd.
  - apply startswith_char_hd. exact Hlast.
Qed.

(** X2.  A sanitized name that is shorter than 100 characters is unchanged
    by a second pass of [sanitize_filename].  At 100 characters the cut can
    leave an underscore at the end, which a second pass takes away. *)
Theorem sanitize_filename_idempotent_below_limit (filename : pystr) :
  (List.length (validators.sanitize_filename filename) < 100)%nat ->
  validators.sanitize_filename (validators.sanitize_filename filename)
  = validators.sanitize_filename filename.
Proof.
  intros Hlt.
  destruct (sanitize_filename_underscores filename) as [Hdd Hhd].
  apply sanitize_filename_stable;
    [lia|apply sanitize_filename_chars|assumption|assumption|].
  unfold validators.sanitize_filename in *. cbv zeta in *.
  set (s := strip_by validators.is_underscore
              (sub_runs validators.is_underscore [underscore]
                 (map (fun c => if validators.invalid_filename_char c
                                then underscore else c) filename) false))
    in *.
  assert (Hs : firstn 100 s = s).
  { apply firstn_all2.
    destruct (Nat.le_gt_cases (List.length s) 100) as [H|H]; [exact H|].
    rewrite firstn_length_le in Hlt by lia. lia. }
  rewrite Hs. unfold endswith. change (rev [underscore]) with [underscore].
  apply startswith_char_hd.
  intros c Hc. apply (strip_by_last validators.is_underscore _ c Hc).
Qed.

Lemma sanitize_filename_idempotent_below_limit_witness :
  (List.length (validators.sanitize_filename (lit "a<b>:c__d?.csv")) < 100)%nat
  /\ validators.sanitize_filename
       (validators.sanitize_filename (lit "a<b>:c__d?.csv"))
     = validators.sanitize_filename (lit "a<b>:c__d?.csv").
Proof.
  assert (H : (List.length
                 (validators.sanitize_filename (lit "a<b>:c__d?.csv"))
               < 100)%nat) by (vm_compute; lia).
  split; [exact H|].
  exact (sanitize_filename_idempotent_below_limit (lit "a<b>:c__d?.csv") H).
Defined.

(** At the limit the truncation can leave an underscore at the end, which a
    second pass removes. *)
Example sanitize_filename_truncation_leaves_underscore :
  validators.sanitize_filename (repeat 97 99 ++ lit "_b")
  = repeat 97 99 ++ lit "_"
  /\ validators.sanitize_filename (repeat 97 99 ++ lit "_") = repeat 97 99.
Proof. split; vm_compute; reflexivity. Qed.
End Sanitize.

(** ** [normalize_phone_number] *)

Section Phone.
Context {U : UnicodeData}.

Lemma phone_shape (phone : pystr) :
  validators.normalize_phone_number phone
  = match validators.keep_digits_plus phone with
    | [] => []
    | c :: r =>
        if c =? plus_sign then c :: r
        else if c =? 48 then lit "+49" ++ r
             else lit "+49" ++ c :: r
    end.
Proof.
  unfold validators.normalize_phone_number.
  destruct phone as [|p phone]; [reflexivity|].
  cbn [truthy negb].
  destruct (validators.keep_digits_plus (p :: phone)) as [|c r];
    [reflexivity|].
  cbn [truthy andb tl].
  change (startswith (lit "+") (c :: r)) with ((43 =? c) && true).
  change (startswith (lit "0") (c :: r)) with ((48 =? c) && true).
  rewrite !andb_true_r. unfold plus_sign.
  rewrite (N.eqb_sym 43 c), (N.eqb_sym 48 c).
  destruct (c =? 43); [reflexivity|].
  destruct (c =? 48); reflexivity.
Qed.

Lemma keep_digits_plus_In (phone : pystr) (c : char) :
  In c (validators.keep_digits_plus phone) ->
  In c phone /\ (isdecimal c || (c =? plus_sign)) = true.
Proof. unfold validators.keep_digits_plus. apply filter_In. Qed.

Lemma phone_chars (phone : pystr) (c : char) :
  In c (validators.normalize_phone_number phone) ->
  (isdecimal c || (c =? plus_sign)) = true.
Proof.
  rewrite phone_shape.
  destruct (validators.keep_digits_plus phone) as [|d r] eqn:Hk;
    [intros []|].
  assert (Hall : forall x, In x (d :: r) ->
                           (isdecimal x || (x =? plus_sign)) = true).
  { intros x Hx. rewrite <- Hk in Hx. apply (keep_digits_plus_In phone x Hx). }
  assert (Hpre : forall x, In x (lit "+49") ->
                           (isdecimal x || (x =? plus_sign)) = true).
  { intros x [<-|[<-|[<-|[]]]]; reflexivity. }
  destruct (d =? plus_sign); [apply Hall|].
  destruct (d =? 48); intros Hc; apply in_app_or in Hc;
    destruct Hc as [Hc|Hc]; try (apply Hpre; assumption).
  - apply Hall. right; assumption.
  - apply Hall. assumption.
Qed.

Lemma phone_head (phone : pystr) :
  validators.normalize_phone_number phone = []
  \/ exists r, validators.normalize_phone_number phone = plus_sign :: r.
Proof.
  rewrite phone_shape.
  destruct (validators.keep_digits_plus phone) as [|d r]; [left; reflexivity|].
  right. destruct (d =? plus_sign) eqn:Hd.
  - apply N.eqb_eq in Hd. subst. exists r. reflexivity.
  - destruct (d =? 48); eexists; reflexivity.
Qed.

(** X3.  Normalizing a normalized phone number changes nothing. *)
Theorem normalize_phone_number_idempotent (phone : pystr) :
  validators.normalize_phone_number (validators.normalize_phone_number phone)
  = validators.normalize_phone_number phone.
Proof.
  assert (Hc := phone_chars phone).
  destruct (phone_head phone) as [H|[r H]]; rewrite H in *; [reflexivity|].
  rewrite phone_shape.
  assert (Hk : validators.keep_digits_plus (plus_sign :: r) = plus_sign :: r).
  { unfold validators.keep_digits_plus. apply filter_id. exact Hc. }
  rewrite Hk. rewrite N.eqb_refl. reflexivity.
Qed.

(** X4.  A phone text without any [+] is normalized to the empty string or
    to "+49" followed by decimal digits only. *)
Theorem normalize_phone_number_domestic (phone : pystr) :
  ~ In plus_sign phone ->
  validators.normalize_phone_number phone = []
  \/ exists digits,
       validators.normalize_phone_number phone = lit "+49" ++ digits
       /\ forall c, In c digits -> isdecimal c = true.
Proof.
  intros Hno. rewrite phone_shape.
  destruct (validators.keep_digits_plus phone) as [|d r] eqn:Hk;
    [left; reflexivity|].
  right.
  assert (Hall : forall x, In x (d :: r) -> isdecimal x = true).
  { intros x Hx. rewrite <- Hk in Hx. apply keep_digits_plus_In in Hx.
    destruct Hx as [Hin Hx]. apply orb_true_iff in Hx.
    destruct Hx as [Hx|Hx]; [exact Hx|].
    apply N.eqb_eq in Hx. subst x. contradiction. }
  destruct (d =? plus_sign) eqn:Hd.
  - apply N.eqb_eq in Hd. subst d. exfalso. apply Hno.
    assert (Hin : In plus_sign (validators.keep_digits_plus phone))
      by (rewrite Hk; left; reflexivity).
    apply keep_digits_plus_In in Hin. apply Hin.
  - destruct (d =? 48).
    + exists r. split; [reflexivity|].
      intros c Hc. apply Hall. right; exact Hc.
    + exists (d :: r). split; [reflexivity|exact Hall].
Qed.

End Phone.

Lemma normalize_phone_number_domestic_witness :
  ~ In plus_sign (lit "(030) 12 34-567")
  /\ (validators.normalize_phone_number (U := latin1_unicode)
        (lit "(030) 12 34-567") = []
      \/ exists digits,
           validators.normalize_phone_number (U := latin1_unicode)
             (lit "(030) 12 34-567") = lit "+49" ++ digits
           /\ forall c, In c digits ->
                        isdecimal (U := latin1_unicode) c = true).
Proof.
  assert (H : ~ In plus_sign (lit "(030) 12 34-567")).
  { vm_compute. intros H.
    repeat (destruct H as [H|H]; [discriminate H|]). exact H. }
  split; [exact H|].
  exact (normalize_phone_number_domestic (U := latin1_unicode)
           (lit "(030) 12 34-567") H).
Defined.

(** ** [extract_postal_code] and [parse_address] *)

Section Address.
Context {U : UnicodeData}.

Lemma match_digits_sound (n : nat) (before : option char) (s m : pystr) :
  validators.match_digits n before s = Some m ->
  exists post,
    s = m ++ post /\ List.length m = n
    /\ (forall c, In c m -> isdecimal c = true)
    /\ word_boundary (match rev m with [] => before | x :: _ => Some x end)
                     (hd_error post) = true.
Proof.
  revert before s m; induction n as [|n IH]; intros before s m; simpl.
  - destruct (word_boundary before (hd_error s)) eqn:Hb; [|discriminate].
    intros H. inversion H. subst m. exists s. simpl.
    repeat split; [intros c []|exact Hb].
  - destruct s as [|c r]; [discriminate|].
    destruct (isdecimal c) eqn:Hc; [|discriminate].
    destruct (validators.match_digits n (Some c) r) as [m'|] eqn:Hm;
      [|discriminate].
    simpl. intros H. inversion H. subst m.
    destruct (IH _ _ _ Hm) as [post [Hs [Hl [Hd Hb]]]].
    exists post. repeat split.
    + simpl. f_equal. exact Hs.
    + simpl. f_equal. exact Hl.
    + intros x [<-|Hx]; [exact Hc|apply Hd, Hx].
    + simpl. destruct (rev m') as [|x l]; simpl; exact Hb.
Qed.

Lemma search_postal_code_sound (before : option char) (s pc : pystr) :
  validators.search_postal_code before s = Some pc ->
  exists pre post,
    s = pre ++ pc ++ post /\ List.length pc = 5%nat
    /\ (forall c, In c pc -> isdecimal c = true)
    /\ word_boundary (match rev pre with [] => before | x :: _ => Some x end)
                     (hd_error pc) = true
    /\ word_boundary (hd_error (rev pc)) (hd_error post) = true.
Proof.
  revert before; induction s as [|c r IH]; intros before; simpl;
    [discriminate|].
  assert (Hrec : validators.search_postal_code (Some c) r = Some pc ->
    exists pre post,
      c :: r = pre ++ pc ++ post /\ List.length pc = 5%nat
      /\ (forall x, In x pc -> isdecimal x = true)
      /\ word_boundary (match rev pre with [] => before | x :: _ => Some x end)
                       (hd_error pc) = true
      /\ word_boundary (hd_error (rev pc)) (hd_error post) = true).
  { intros H. destruct (IH _ H) as [pre [post [Hs [Hl [Hd [Hb1 Hb2]]]]]].
    exists (c :: pre), post. repeat split; try assumption.
    - simpl. f_equal. exact Hs.
    - simpl. destruct (rev pre) as [|x l]; simpl; exact Hb1. }
  destruct (word_boundary before (Some c)) eqn:Hb; [|exact Hrec].
  destruct (isdecimal c) eqn:Hc; [|exact Hrec].
  destruct (option_map (cons c) _) as [m|] eqn:Hm; [|exact Hrec].
  intros H. inversion H. subst m. clear H Hrec.
  assert (Hmd : validators.match_digits 5 before (c :: r) = Some pc).
  { simpl. rewrite Hc. exact Hm. }
  destruct (match_digits_sound _ _ _ _ Hmd) as [post [Hs [Hl [Hd Hb2]]]].
  exists [], post. repeat split; try assumption.
  - simpl. destruct pc as [|x pc]; [discriminate|].
    simpl in Hs. inversion Hs. subst x. simpl. exact Hb.
  - destruct (rev pc) as [|x l] eqn:Hr; [|exact Hb2].
    apply (f_equal (@List.length char)) in Hr. rewrite length_rev in Hr.
    rewrite Hl in Hr. discriminate.
Qed.

(** X5.  The postal code that is extracted is a run of exactly five decimal
    digits of the text, with a word boundary in front of it and one behind
    it. *)
Theorem extract_postal_code_sound (address_text pc : pystr) :
  validators.extract_postal_code address_text = Some pc ->
  exists pre post,
    address_text = pre ++ pc ++ post /\ List.length pc = 5%nat
    /\ (forall c, In c pc -> isdecimal c = true)
    /\ word_boundary (hd_error (rev pre)) (hd_error pc) = true
    /\ word_boundary (hd_error (rev pc)) (hd_error post) = true.
Proof.
  unfold validators.extract_postal_code.
  destruct (negb (truthy address_text)); [discriminate|].
  intros H. destruct (search_postal_code_sound _ _ _ H)
    as [pre [post [Hs [Hl [Hd [Hb1 Hb2]]]]]].
  exists pre, post. repeat split; assumption.
Qed.
End Address.

Lemma extract_postal_code_sound_witness :
  validators.extract_postal_code (U := latin1_unicode)
    (lit "Hauptstr. 5, 40474 Duesseldorf") = Some (lit "40474")
  /\ exists pre post,
       lit "Hauptstr. 5, 40474 Duesseldorf" = pre ++ lit "40474" ++ post
       /\ List.length (lit "40474") = 5%nat
       /\ (forall c, In c (lit "40474") ->
                     isdecimal (U := latin1_unicode) c = true)
       /\ word_boundary (U := latin1_unicode)
            (hd_error (rev pre)) (hd_error (lit "40474")) = true
       /\ word_boundary (U := latin1_unicode)
            (hd_error (rev (lit "40474"))) (hd_error post) = true.
Proof.
  assert (H : validators.extract_postal_code (U := latin1_unicode)
                (lit "Hauptstr. 5, 40474 Duesseldorf") = Some (lit "40474"))
    by (vm_compute; reflexivity).
  split; [exact H|].
  exact (extract_postal_code_sound (U := latin1_unicode) _ _ H).
Defined.

Lemma dict_get_set {V} (d : dict V) (k k' : pystr) (v : V) :
  dict_get (dict_set d k v) k'
  = if str_eqb k' k then Some v else dict_get d k'.
Proof.
  induction d as [|[k0 v0] d IH]; simpl; [reflexivity|].
  destruct (str_eqb k k0) eqn:Hk; simpl.
  - apply str_eqb_eq in Hk. subst k0.
    destruct (str_eqb k' k); reflexivity.
  - rewrite IH. destruct (str_eqb k' k0) eqn:H0; [|reflexivity].
    destruct (str_eqb k' k) eqn:H1; [|reflexivity].
    apply str_eqb_eq in H0, H1. subst. rewrite str_eqb_refl in Hk.
    discriminate.
Qed.

Ltac eval_literal_tests :=
  repeat match goal with
         | |- context [str_eqb (lit ?a) (lit ?b)] =>
             let x := eval vm_compute in (str_eqb (lit a) (lit b)) in
             change (str_eqb (lit a) (lit b)) with x
         | H : context [str_eqb (lit ?a) (lit ?b)] |- _ =>
             let x := eval vm_compute in (str_eqb (lit a) (lit b)) in
             change (str_eqb (lit a) (lit b)) with x in H
         end.

Ltac dict_keys :=
  intros ? ?; rewrite ?dict_get_set; cbn [dict_get];
  repeat match goal with
         | |- context [str_eqb ?k (lit ?a)] =>
             let E := fresh "E" in
             destruct (str_eqb k (lit a)) eqn:E;
             [apply str_eqb_eq in E; subst; auto|]
         end;
  try discriminate.

Section AddressFields.
Context {U : UnicodeData}.

(** A postal code that is found is not empty. *)
Lemma extract_postal_code_truthy (address_text pc : pystr) :
  validators.extract_postal_code address_text = Some pc -> truthy pc = true.
Proof.
  unfold validators.extract_postal_code.
  destruct (negb (truthy address_text)); [discriminate|].
  intros H. apply search_postal_code_sound in H.
  destruct H as [pre [post [_ [Hlen _]]]].
  destruct pc; [discriminate Hlen|reflexivity].
Qed.

(** X6.  What the address parser returns, key by key.  "postal_code" is
    there exactly when [extract_postal_code] finds a postal code, and holds
    it.  "address" is there exactly when the text has a line that is not
    blank, and holds the first such line, trimmed.  "city" is there exactly
    when a postal code is found, one of the trimmed lines contains it and
    what is left of the first such line once the postal code is removed and
    the rest trimmed is not empty, and holds that rest.  No other key is
    there.  So an address is never empty, and a city is never empty and
    only there together with the other two.  The empty text gives the empty
    dictionary. *)
Theorem parse_address_fields (address_text : pystr) :
  let result := validators.parse_address address_text in
  let lines :=
    filter truthy (map strip (split_on validators.newline address_text)) in
  dict_get result (lit "postal_code")
  = validators.extract_postal_code address_text
  /\ dict_get result (lit "address") = hd_error lines
  /\ dict_get result (lit "city")
     = match validators.extract_postal_code address_text with
       | Some pc =>
           match find (contains pc) lines with
           | Some line =>
               if truthy (strip (replace pc [] line))
               then Some (strip (replace pc [] line))
               else None
           | None => None
           end
       | None => None
       end
  /\ (forall k, k <> lit "postal_code" -> k <> lit "address" ->
                k <> lit "city" -> dict_get result k = None)
  /\ (forall v, dict_get result (lit "address") = Some v -> v <> [])
  /\ (forall v, dict_get result (lit "city") = Some v ->
        v <> []
        /\ dict_get result (lit "postal_code") <> None
        /\ dict_get result (lit "address") <> None)
  /\ (address_text = [] -> result = []).
Proof.
  cbv zeta.
  set (lines := filter truthy
                  (map strip (split_on validators.newline address_text))).
  assert (Hne : forall l, In l lines -> l <> []).
  { intros l Hl. apply filter_In in Hl. destruct Hl as [_ Ht].
    intros E. rewrite E in Ht. discriminate. }
  assert (Hother : forall (d : dict pystr) k,
             k <> lit "postal_code" -> k <> lit "address" ->
             k <> lit "city" ->
             (str_eqb k (lit "postal_code") = false)
             /\ (str_eqb k (lit "address") = false)
             /\ (str_eqb k (lit "city") = false)).
  { intros _ k H1 H2 H3. repeat split;
      match goal with
      | |- str_eqb k ?x = false =>
          destruct (str_eqb k x) eqn:He; [|reflexivity];
          apply str_eqb_eq in He; contradiction
      end. }
  assert (Heq : validators.parse_address address_text
                = if negb (truthy address_text) then []
                  else
                    let result :=
                      match validators.extract_postal_code address_text with
                      | Some pc => dict_set [] (lit "postal_code") pc
                      | None => []
                      end in
                    match lines with
                    | [] => result
                    | first :: _ =>
                        let result := dict_set result (lit "address") first in
                        match validators.extract_postal_code address_text with
                        | Some pc =>
                            match find (contains pc) lines with
                            | Some line =>
                                if truthy (strip (replace pc [] line))
                                then dict_set result (lit "city")
                                              (strip (replace pc [] line))
                                else result
                            | None => result
                            end
                        | None => result
                        end
                    end).
  { unfold validators.parse_address. fold lines.
    destruct (negb (truthy address_text)); [reflexivity|]. cbv zeta.
    destruct (validators.extract_postal_code address_text) as [pc|] eqn:He;
      [|reflexivity].
    rewrite (extract_postal_code_truthy _ _ He). reflexivity. }
  rewrite Heq. clear Heq.
  destruct (negb (truthy address_text)) eqn:Hempty.
  { assert (Ht : address_text = [])
      by (destruct address_text; [reflexivity|discriminate Hempty]).
    assert (Hl : lines = []) by (subst lines; rewrite Ht; reflexivity).
    assert (Hp : validators.extract_postal_code address_text = None)
      by (unfold validators.extract_postal_code; rewrite Hempty; reflexivity).
    rewrite Hl, Hp. cbn [dict_get hd_error].
    repeat split; try discriminate; intros; discriminate. }
  assert (Hlast : address_text = [] -> False)
    by (intros Ht; rewrite Ht in Hempty; discriminate Hempty).
  cbv zeta.
  destruct (validators.extract_postal_code address_text) as [pc|];
    destruct lines as [|first rest] eqn:Hl;
    try (destruct (find (contains pc) (first :: rest)) as [line|];
         [destruct (truthy (strip (replace pc [] line))) eqn:Hcity|]);
    rewrite ?dict_get_set; cbn [dict_get hd_error];
    eval_literal_tests; rewrite ?str_eqb_refl;
    (split; [reflexivity|]); (split; [reflexivity|]);
    (split; [reflexivity|]);
    (split;
     [intros k H1 H2 H3;
      destruct (Hother [] k H1 H2 H3) as [E1 [E2 E3]];
      rewrite ?dict_get_set; cbn [dict_get]; rewrite ?E1, ?E2, ?E3;
      reflexivity|]);
    (split;
     [intros v Hv;
      first [discriminate Hv
            |inversion Hv; subst v; apply Hne; left; reflexivity]|]);
    (split;
     [intros v Hv;
      first [discriminate Hv
            |inversion Hv; subst v;
             split; [intros E0; rewrite E0 in Hcity; discriminate Hcity|];
             split; discriminate]
     |intros Ht; destruct (Hlast Ht)]).
Qed.

End AddressFields.

(** ** [validate_company_data] *)

Section Validation.
Context {U : UnicodeData} {E : Environment}.

Lemma strip_by_idempotent (p : char -> bool) (s : pystr) :
  strip_by p (strip_by p s) = strip_by p s.
Proof.
  apply strip_by_id.
  - apply strip_by_head.
  - apply strip_by_last.
Qed.

(** The loop over the optional fields, looked up at one key. *)
Lemma validated_fields_lookup (company_data : dict pystr) (l : list pystr)
      (init : dict pystr) (k : pystr) :
  dict_get
    (fold_left
       (fun validated field =>
          let value := dict_get_default company_data field [] in
          if truthy value then
            if str_eqb field (lit "email")
               && negb (validators.validate_email value)
            then validated
            else if str_eqb field (lit "website")
                    && negb (validators.validate_url value)
            then validated
            else dict_set validated field (strip value)
          else validated)
       l init) k
  = if str_mem k l && field_kept company_data k
    then Some (strip (dict_get_default company_data k []))
    else dict_get init k.
Proof.
  revert init; induction l as [|f l IH]; intros init; [reflexivity|].
  cbn [fold_left]. rewrite IH. clear IH.
  unfold str_mem. cbn [existsb]. fold (str_mem k l).
  unfold field_kept. cbv zeta.
  destruct (str_eqb k f) eqn:Hkf.
  - apply str_eqb_eq in Hkf. subst f. cbn [orb andb].
    destruct (truthy (dict_get_default company_data k [])); cbn [andb];
      [|destruct (str_mem k l); reflexivity].
    destruct (str_eqb k (lit "email")
              && negb (validators.validate_email
                         (dict_get_default company_data k [])));
      cbn [negb andb]; [destruct (str_mem k l); reflexivity|].
    destruct (str_eqb k (lit "website")
              && negb (validators.validate_url
                         (dict_get_default company_data k [])));
      cbn [negb andb]; [destruct (str_mem k l); reflexivity|].
    rewrite dict_get_set, str_eqb_refl.
    destruct (str_mem k l); reflexivity.
  - cbn [orb].
    destruct (str_mem k l
              && (truthy (dict_get_default company_data k [])
                  && negb (str_eqb k (lit "email")
                           && negb (validators.validate_email
                                      (dict_get_default company_data k [])))
                  && negb (str_eqb k (lit "website")
                           && negb (validators.validate_url
                                      (dict_get_default company_data k [])))));
      [reflexivity|].
    destruct (truthy (dict_get_default company_data f [])); [|reflexivity].
    destruct (str_eqb f (lit "email") && _); [reflexivity|].
    destruct (str_eqb f (lit "website") && _); [reflexivity|].
    rewrite dict_get_set, Hkf. reflexivity.
Qed.

Lemma optional_field_not_name (k : pystr) :
  In k validators.optional_fields -> str_eqb k (lit "company_name") = false.
Proof.
  intros H. unfold validators.optional_fields in H.
  repeat (destruct H as [<-|H]; [vm_compute; reflexivity|]).
  destruct H.
Qed.

Lemma validate_company_data_raises (company_data : dict pystr) :
  strip (dict_get_default company_data (lit "company_name") []) = [] ->
  validators.validate_company_data company_data = Raise ValueError.
Proof.
  intros Hn. unfold validators.validate_company_data. cbv zeta.
  rewrite Hn. reflexivity.
Qed.

Lemma validate_company_data_returns (company_data : dict pystr) :
  strip (dict_get_default company_data (lit "company_name") []) <> [] ->
  exists validated,
    validators.validate_company_data company_data = Ok validated
    /\ dict_get validated (lit "company_name")
       = Some (strip (dict_get_default company_data (lit "company_name") []))
    /\ (forall k, In k validators.optional_fields ->
          dict_get validated k
          = if field_kept company_data k
            then Some (strip (dict_get_default company_data k []))
            else None)
    /\ (forall k, k <> lit "company_name" ->
          ~ In k validators.optional_fields ->
          dict_get validated k = None)
    /\ (forall k v, dict_get validated k = Some v -> strip v = v).
Proof.
  unfold validators.validate_company_data. cbv zeta.
  set (name := strip (dict_get_default company_data (lit "company_name") [])).
  intros Hn. destruct name as [|n0 name'] eqn:Hname; [congruence|].
  cbn [truthy]. eexists. split; [reflexivity|].
  assert (Hlook := validated_fields_lookup company_data
                     validators.optional_fields
                     (dict_set [] (lit "company_name") (n0 :: name'))).
  assert (Hinit : forall k,
             dict_get (dict_set [] (lit "company_name") (n0 :: name')) k
             = if str_eqb k (lit "company_name")
               then Some (n0 :: name') else None).
  { intros k. rewrite dict_get_set. reflexivity. }
  assert (Hname_not_opt :
            str_mem (lit "company_name") validators.optional_fields = false)
    by (vm_compute; reflexivity).
  split; [|split; [|split]].
  - rewrite Hlook, Hname_not_opt, Hinit. cbn [andb].
    rewrite str_eqb_refl. reflexivity.
  - intros k Hk. rewrite Hlook, Hinit.
    rewrite (optional_field_not_name k Hk).
    apply str_mem_In in Hk. rewrite Hk. reflexivity.
  - intros k Hk1 Hk2. rewrite Hlook, Hinit.
    destruct (str_mem k validators.optional_fields) eqn:Hm.
    + apply str_mem_In in Hm. contradiction.
    + cbn [andb]. destruct (str_eqb k (lit "company_name")) eqn:He;
        [|reflexivity].
      apply str_eqb_eq in He. contradiction.
  - intros k v. rewrite Hlook, Hinit.
    destruct (str_mem k validators.optional_fields
              && field_kept company_data k).
    + intros H; inversion H. apply strip_by_idempotent.
    + destruct (str_eqb k (lit "company_name")); [|discriminate].
      intros H; inversion H. subst v. rewrite <- Hname.
      apply strip_by_idempotent.
Qed.

(** X7.  [validate_company_data] raises [ValueError] exactly when the
    company name is missing or blank, and raises nothing else.  Otherwise
    the validated record holds the trimmed name; an optional field of the
    schema is present exactly when its value is not empty and, for "email"
    and "website", accepted by the [validators] package, and it holds the
    trimmed value; a key outside the schema, such as "source_url", is not
    carried over. *)
Theorem validate_company_data_fields (company_data : dict pystr) :
  let name := strip (dict_get_default company_data (lit "company_name") []) in
  (name = [] ->
   validators.validate_company_data company_data = Raise ValueError)
  /\ (name <> [] ->
      exists validated,
        validators.validate_company_data company_data = Ok validated
        /\ dict_get validated (lit "company_name") = Some name
        /\ (forall k, In k validators.optional_fields ->
              dict_get validated k
              = if field_kept company_data k
                then Some (strip (dict_get_default company_data k []))
                else None)
        /\ (forall k, k <> lit "company_name" ->
              ~ In k validators.optional_fields ->
              dict_get validated k = None)
        /\ (forall k v, dict_get validated k = Some v -> strip v = v)).
Proof.
  cbv zeta. split.
  - apply validate_company_data_raises.
  - apply validate_company_data_returns.
Qed.
End Validation.

(** ** Records returned by the Field Extractor *)

Section Records.
Context {U : UnicodeData} {E : Environment} {B : Soup} {R : Regex}.
Import k_online_scraper.

Lemma dict_get_set_if (d : dict pystr) (k k' : pystr) (v : option pystr) :
  dict_get (set_if d k v) k'
  = if str_eqb k' k
    then match v with Some x => Some x | None => dict_get d k' end
    else dict_get d k'.
Proof.
  destruct v; simpl; [apply dict_get_set|].
  destruct (str_eqb k' k); reflexivity.
Qed.

Lemma parse_address_other_key (t k : pystr) :
  str_eqb k (lit "postal_code") = false ->
  str_eqb k (lit "address") = false ->
  str_eqb k (lit "city") = false ->
  dict_get (validators.parse_address t) k = None.
Proof.
  intros H1 H2 H3. unfold validators.parse_address.
  repeat match goal with
         | |- dict_get (if ?b then _ else _) _ = None => destruct b
         | |- dict_get (match ?o with Some _ => _ | None => _ end) _ = None =>
             destruct o
         | |- dict_get (match ?l with [] => _ | _ :: _ => _ end) _ = None =>
             destruct l
         | |- dict_get (let x := _ in _) _ = None => cbv zeta
         | |- dict_get (dict_set _ _ _) _ = None =>
             rewrite dict_get_set; rewrite ?H1, ?H2, ?H3
         end; reflexivity.
Qed.

(** The dictionary [company_data] once the address block is handled. *)
Lemma address_block_lookup (n address_text k : pystr) :
  str_eqb k (lit "postal_code") = false ->
  str_eqb k (lit "address") = false ->
  str_eqb k (lit "city") = false ->
  dict_get
    (if truthy address_text
     then dict_set
            (dict_update (set_if [] (lit "company_name") (Some n))
                         (validators.parse_address address_text))
            (lit "address") (strip address_text)
     else set_if [] (lit "company_name") (Some n)) k
  = if str_eqb k (lit "company_name") then Some n else None.
Proof.
  intros H1 H2 H3. destruct (truthy address_text).
  - rewrite dict_get_set, H2.
    rewrite dict_get_update_other
      by (apply parse_address_other_key; assumption).
    cbn [set_if]. rewrite dict_get_set. reflexivity.
  - cbn [set_if]. rewrite dict_get_set. reflexivity.
Qed.

(** X8.  A record that the Field Extractor returns holds the trimmed name
    that its name heuristics found, which is not empty.  Its keys belong to
    the schema of [validate_company_data], so that "source_url" is never
    among them, and its values are trimmed.  A "website" is the trimmed
    target of the first link that starts with "http", does not contain
    "k-online.de" and is accepted as a URL; an "email" is accepted as an
    e-mail address. *)
Theorem parsed_record_fields
        (self : KOnlineScraper) (element : Tag) (source_url : option pystr)
        (record : dict pystr) :
  _parse_company_from_element self element source_url = Some record ->
  exists n,
    extract_name element = Some n
    /\ strip n <> []
    /\ dict_get record (lit "company_name") = Some (strip n)
    /\ (forall k v, dict_get record k = Some v ->
          (k = lit "company_name" \/ In k validators.optional_fields)
          /\ strip v = v)
    /\ dict_get record (lit "source_url") = None
    /\ (forall w, dict_get record (lit "website") = Some w ->
          exists href,
            find (fun href => startswith (lit "http") href
                              && negb (contains (lit "k-online.de") href))
                 (map get_href (find_all_links element)) = Some href
            /\ validators.validate_url href = true
            /\ w = strip href)
    /\ (forall e, dict_get record (lit "email") = Some e ->
          exists raw, validators.validate_email raw = true /\ e = strip raw).
Proof.
  unfold _parse_company_from_element, parse_company_body.
  destruct (extract_name element) as [n|] eqn:Hn.
  2:{ cbn [set_if]. unfold dict_get_default. cbn [dict_get truthy negb].
      discriminate. }
  assert (H0 : dict_get_default (set_if [] (lit "company_name") (Some n))
                                (lit "company_name") [] = n).
  { unfold dict_get_default. cbn [set_if dict_set dict_get].
    rewrite str_eqb_refl. reflexivity. }
  rewrite H0.
  destruct n as [|c n]; cbn [truthy negb]; [discriminate|].
  cbv zeta.
  match goal with
  | |- context [validators.validate_company_data ?cd] => set (CD := cd)
  end.
  assert (Hname : dict_get CD (lit "company_name") = Some (c :: n)).
  { subst CD. rewrite dict_get_set, !dict_get_set_if.
    eval_literal_tests. cbv iota.
    rewrite address_block_lookup by reflexivity.
    rewrite str_eqb_refl. reflexivity. }
  assert (Hweb : dict_get CD (lit "website")
                 = find (fun href => startswith (lit "http") href
                                     && negb (contains (lit "k-online.de") href))
                        (map get_href (find_all_links element))).
  { subst CD. rewrite dict_get_set, !dict_get_set_if.
    eval_literal_tests. cbv iota.
    rewrite address_block_lookup by reflexivity.
    eval_literal_tests. cbv iota.
    destruct (find _ _); reflexivity. }
  clearbody CD.
  assert (Hraise := validate_company_data_raises CD).
  assert (Hok := validate_company_data_returns CD).
  assert (Hnm : dict_get_default CD (lit "company_name") [] = c :: n)
    by (unfold dict_get_default; rewrite Hname; reflexivity).
  rewrite Hnm in Hraise, Hok.
  destruct (strip (c :: n)) as [|s0 s] eqn:Hs.
  { rewrite (Hraise eq_refl). cbn [bind]. discriminate. }
  destruct (Hok ltac:(discriminate)) as [validated [Hv [Hvn [Hopt [Hout Htrim]]]]].
  rewrite Hv. cbn [bind]. intros Hr. inversion Hr. subst record. clear Hr.
  exists (c :: n). rewrite Hs.
  split; [reflexivity|]. split; [discriminate|]. split; [exact Hvn|].
  split; [|split; [|split]].
  - intros k v Hk. split; [|apply (Htrim k v Hk)].
    destruct (str_eqb k (lit "company_name")) eqn:He.
    + left. apply str_eqb_eq. exact He.
    + right. destruct (str_mem k validators.optional_fields) eqn:Hm.
      * apply str_mem_In. exact Hm.
      * rewrite Hout in Hk; [discriminate| |].
        -- intros ->. rewrite str_eqb_refl in He. discriminate.
        -- intros Hin. apply str_mem_In in Hin. congruence.
  - apply Hout; [discriminate|].
    intros Hin. apply str_mem_In in Hin. vm_compute in Hin. discriminate.
  - intros w Hw.
    rewrite Hopt in Hw by (apply str_mem_In; vm_compute; reflexivity).
    unfold field_kept in Hw. cbv zeta in Hw.
    unfold dict_get_default in Hw. rewrite Hweb in Hw.
    destruct (find _ _) as [href|] eqn:Hf; [|discriminate].
    eval_literal_tests. cbn [andb negb] in Hw.
    destruct (truthy href); [|discriminate]. cbn [andb] in Hw.
    destruct (validators.validate_url href) eqn:Hu; [|discriminate].
    cbn [negb andb] in Hw. inversion Hw.
    exists href. repeat split; assumption.
  - intros e He.
    rewrite Hopt in He by (apply str_mem_In; vm_compute; reflexivity).
    unfold field_kept in He. cbv zeta in He.
    eval_literal_tests. cbn [andb negb] in He.
    destruct (truthy _); [|discriminate]. cbn [andb] in He.
    destruct (validators.validate_email _) eqn:Hm; [|discriminate].
    cbn [negb andb] in He. inversion He.
    eexists. split; [exact Hm|reflexivity].
Qed.
End Records.

Lemma parsed_record_fields_witness :
  k_online_scraper._parse_company_from_element
    (U := latin1_unicode) (E := insertion_order_env)
    (B := dom.latin1_soup) (R := dom.no_match)
    k_online_scraper.init dom.linked_listing None
  = Some [ (lit "company_name", lit "Delta Werke AG");
           (lit "website", lit "https://www.delta-werke.de/") ]
  /\ exists n,
       k_online_scraper.extract_name
         (U := latin1_unicode) (B := dom.latin1_soup) dom.linked_listing
       = Some n
       /\ strip (U := latin1_unicode) n <> [].
Proof.
  assert (H : k_online_scraper._parse_company_from_element
                (U := latin1_unicode) (E := insertion_order_env)
                (B := dom.latin1_soup) (R := dom.no_match)
                k_online_scraper.init dom.linked_listing None
              = Some [ (lit "company_name", lit "Delta Werke AG");
                       (lit "website", lit "https://www.delta-werke.de/") ])
    by (vm_compute; reflexivity).
  split; [exact H|].
  destruct (parsed_record_fields (U := latin1_unicode)
              (E := insertion_order_env) (B := dom.latin1_soup)
              (R := dom.no_match) _ _ _ _ H) as [n [H1 [H2 _]]].
  exists n. split; assumption.
Defined.

(** ** Variants returned by the expander *)

Section VariantList.
Context {U : UnicodeData} {E : Environment}.
Import domain_generator.

Lemma slice_to_firstn {A} (k : Z) (l : list A) :
  exists n, slice_to k l = firstn n l.
Proof.
  unfold slice_to. destruct (0 <=? k)%Z; eexists; reflexivity.
Qed.

Lemma NoDup_firstn {A} (n : nat) (l : list A) :
  NoDup l -> NoDup (firstn n l).
Proof.
  revert n; induction l as [|a l IH]; intros n H.
  - rewrite firstn_nil. constructor.
  - destruct n as [|n]; simpl; [constructor|].
    inversion H; subst. constructor.
    + intros Hin. apply H2. rewrite <- (firstn_skipn n l).
      apply in_or_app. left. exact Hin.
    + apply IH. assumption.
Qed.

Lemma set_add_NoDup (s : pyset) (x : pystr) :
  NoDup s -> NoDup (set_add s x).
Proof.
  intros H. unfold set_add. destruct (str_mem x s) eqn:Hm; [assumption|].
  apply NoDup_app; [assumption|constructor; [intros []|constructor]|].
  intros y Hy [<-|[]]. apply str_mem_In in Hy. congruence.
Qed.

Lemma set_add_nonempty (s : pyset) (x : pystr) :
  x <> [] -> (forall y, In y s -> y <> []) ->
  forall y, In y (set_add s x) -> y <> [].
Proof.
  intros Hx Hs y. unfold set_add. destruct (str_mem x s); [apply Hs|].
  intros Hy. apply in_app_or in Hy. destruct Hy as [Hy|[<-|[]]];
    [apply Hs, Hy|exact Hx].
Qed.

Lemma fold_set_add_invariant (P : pyset -> Prop) (f : pystr -> pystr)
      (l : list pystr) (s : pyset) :
  (forall s x, P s -> P (set_add s (f x))) -> P s ->
  P (fold_left (fun vs num => set_add vs (f num)) l s).
Proof.
  intros Hstep. revert s; induction l as [|a l IH]; intros s Hs; simpl;
    [assumption|].
  apply IH. apply Hstep. assumption.
Qed.

(** The set of variants has no repeated member and no empty member. *)
Lemma variant_set_wellformed (self : DomainGenerator) (base_name : pystr) :
  base_name <> [] ->
  NoDup (variant_set self base_name)
  /\ (forall v, In v (variant_set self base_name) -> v <> []).
Proof.
  intros Hb. unfold variant_set.
  assert (H0 : NoDup (set_add [] base_name)
               /\ (forall v, In v (set_add [] base_name) -> v <> [])).
  { split; [apply set_add_NoDup; constructor|].
    apply set_add_nonempty; [assumption|intros y []]. }
  revert H0. generalize (set_add [] base_name) as v0. intros v0 H0.
  cbv zeta.
  assert (Hstep : forall s x,
             x <> [] ->
             NoDup s /\ (forall v, In v s -> v <> []) ->
             NoDup (set_add s x) /\ (forall v, In v (set_add s x) -> v <> [])).
  { intros s x Hx [H1 H2]. split;
      [apply set_add_NoDup|apply set_add_nonempty]; assumption. }
  set (P := fun s : pyset => NoDup s /\ (forall v, In v s -> v <> [])).
  change (P v0) in H0.
  match goal with |- NoDup ?X /\ _ => change (P X) end.
  assert (Hstep' : forall s x, x <> [] -> P s -> P (set_add s x))
    by exact Hstep.
  clear Hstep. rename Hstep' into Hstep.
  assert (Htruthy : forall x, truthy x = true -> x <> [])
    by (intros x Hx ->; discriminate).
  repeat match goal with
         | |- P (if ?b then _ else _) =>
             let Hc := fresh "Hc" in destruct b eqn:Hc
         | |- P (fold_left _ _ _) =>
             apply (fold_set_add_invariant P (fun num => base_name ++ num))
         | |- forall s x, P s -> P (set_add s _) =>
             intros ? ? ?; apply Hstep;
             [destruct base_name; [congruence|discriminate]|assumption]
         | |- P (set_add _ _) => apply Hstep
         | |- _ <> [] =>
             first [ apply Htruthy;
                     match goal with
                     | H : (truthy ?x && _) = true |- truthy ?x = true =>
                         apply andb_true_iff in H; apply H
                     end
                   | match goal with
                     | H : (2 <=? List.length ?a)%nat = true |- ?a <> [] =>
                         let Heq := fresh "Heq" in
                         intros Heq; rewrite Heq in H; discriminate H
                     end ]
         end; try assumption.
Qed.

Hypothesis set_iter_perm : forall s : pyset, Permutation (set_iter s) s.

(** X9.  The variants that are returned are pairwise different, none is
    empty, and each belongs to the set of variants. *)
Theorem generate_domain_variants_distinct
        (self : DomainGenerator) (company_name : pystr) :
  NoDup (generate_domain_variants self company_name)
  /\ (forall v, In v (generate_domain_variants self company_name) ->
        v <> []
        /\ In v (variant_set self
                   (validators.clean_company_name company_name))).
Proof.
  unfold generate_domain_variants.
  destruct (negb (truthy company_name));
    [split; [constructor|intros v []]|].
  destruct (validators.clean_company_name company_name) as [|b base] eqn:Hb;
    cbn [truthy negb]; [split; [constructor|intros v []]|].
  destruct (variant_set_wellformed self (b :: base)) as [Hnd Hne];
    [discriminate|].
  destruct (slice_to_firstn (max_variants self)
              (set_iter (variant_set self (b :: base)))) as [n Hn].
  rewrite Hn. split.
  - apply NoDup_firstn.
    apply (Permutation_NoDup (Permutation_sym (set_iter_perm _))). exact Hnd.
  - intros v Hv.
    assert (Hin : In v (variant_set self (b :: base))).
    { apply (Permutation_in _ (set_iter_perm _)).
      rewrite <- (firstn_skipn n (set_iter _)).
      apply in_or_app. left. exact Hv. }
    split; [apply Hne, Hin|exact Hin].
Qed.

(** X10.  With a budget of at least one, no variant is returned exactly when
    the name is normalized to the empty slug. *)
Theorem generate_domain_variants_empty
        (self : DomainGenerator) (company_name : pystr) :
  (1 <= max_variants self)%Z ->
  (generate_domain_variants self company_name = []
   <-> validators.clean_company_name company_name = []).
Proof.
  intros Hk. unfold generate_domain_variants.
  destruct company_name as [|c0 name]; cbn [truthy negb].
  { split; reflexivity. }
  destruct (validators.clean_company_name (c0 :: name)) as [|b base] eqn:Hb;
    cbn [truthy negb]; [split; reflexivity|].
  split; [|discriminate]. intros H. exfalso.
  assert (Hin : In (b :: base) (set_iter (variant_set self (b :: base)))).
  { apply (Permutation_in _ (Permutation_sym (set_iter_perm _))).
    apply variant_set_has_slug. }
  unfold slice_to in H.
  assert (Hk0 : (0 <=? max_variants self)%Z = true) by (apply Z.leb_le; lia).
  rewrite Hk0 in H.
  destruct (set_iter (variant_set self (b :: base))) as [|x l]; [destruct Hin|].
  destruct (Z.to_nat (max_variants self)) as [|n] eqn:Hn; [lia|].
  simpl in H. discriminate.
Qed.
End VariantList.

(** X11.  For a budget that is not negative, at most that many variants are
    returned. *)
Theorem generate_domain_variants_bound
        (U : UnicodeData) (E : Environment)
        (self : domain_generator.DomainGenerator) (company_name : pystr) :
  (0 <= domain_generator.max_variants self)%Z ->
  (Z.of_nat (List.length
               (domain_generator.generate_domain_variants self company_name))
   <= domain_generator.max_variants self)%Z.
Proof.
  intros Hk. unfold domain_generator.generate_domain_variants.
  destruct (negb (truthy company_name)); [simpl; lia|].
  destruct (negb (truthy _)); [simpl; lia|].
  unfold slice_to. apply Z.leb_le in Hk. rewrite Hk.
  apply Z.leb_le in Hk.
  assert (H := firstn_le_length
                 (Z.to_nat (domain_generator.max_variants self))
                 (set_iter (domain_generator.variant_set self
                              (validators.clean_company_name company_name)))).
  lia.
Qed.

Lemma generate_domain_variants_distinct_witness :
  (forall s : pyset,
      Permutation (set_iter (Environment := reversed_order_env) s) s)
  /\ NoDup (domain_generator.generate_domain_variants
              (U := latin1_unicode) (E := reversed_order_env)
              (example_config 5 None) (lit "Acme Software Group")).
Proof.
  assert (H : forall s : pyset,
             Permutation (set_iter (Environment := reversed_order_env) s) s)
    by (intros s; simpl; apply Permutation_sym, Permutation_rev).
  split; [exact H|].
  exact (proj1 (generate_domain_variants_distinct
                  (U := latin1_unicode) (E := reversed_order_env) H
                  (example_config 5 None) (lit "Acme Software Group"))).
Defined.

Lemma generate_domain_variants_empty_witness :
  (forall s : pyset,
      Permutation (set_iter (Environment := insertion_order_env) s) s)
  /\ (1 <= domain_generator.max_variants (example_config 5 None))%Z
  /\ validators.clean_company_name (U := latin1_unicode) (lit "GmbH & Co. KG")
     = lit "co"
  /\ domain_generator.generate_domain_variants
       (U := latin1_unicode) (E := insertion_order_env)
       (example_config 5 None) (lit "GmbH & Co. KG") <> []
  /\ domain_generator.generate_domain_variants
       (U := latin1_unicode) (E := insertion_order_env)
       (example_config 5 None) (lit "mbH AG") = [].
Proof.
  assert (H : forall s : pyset,
             Permutation (set_iter (Environment := insertion_order_env) s) s)
    by (intros s; apply Permutation_refl).
  assert (Hk : (1 <= domain_generator.max_variants (example_config 5 None))%Z)
    by (vm_compute; discriminate).
  split; [exact H|]. split; [exact Hk|].
  split; [vm_compute; reflexivity|]. split.
  - intros Hv.
    apply (generate_domain_variants_empty
             (U := latin1_unicode) (E := insertion_order_env) H
             (example_config 5 None) (lit "GmbH & Co. KG") Hk) in Hv.
    vm_compute in Hv. discriminate.
  - apply (generate_domain_variants_empty
             (U := latin1_unicode) (E := insertion_order_env) H
             (example_config 5 None) (lit "mbH AG") Hk).
    vm_compute. reflexivity.
Defined.

Lemma generate_domain_variants_bound_witness :
  (0 <= domain_generator.max_variants (example_config 2 None))%Z
  /\ (Z.of_nat (List.length
                  (domain_generator.generate_domain_variants
                     (U := latin1_unicode) (E := reversed_order_env)
                     (example_config 2 None) (lit "Acme Tools")))
      <= domain_generator.max_variants (example_config 2 None))%Z.
Proof.
  assert (Hk : (0 <= domain_generator.max_variants (example_config 2 None))%Z)
    by (vm_compute; discriminate).
  split; [exact Hk|].
  exact (generate_domain_variants_bound latin1_unicode reversed_order_env
           (example_config 2 None) (lit "Acme Tools") Hk).
Defined.

(** ** Candidates returned by the builder *)

Section Candidates.
Context {U : UnicodeData} {E : Environment}.
Import domain_generator.

Lemma flat_map_length_le {A B} (f : A -> list B) (l : list A) (m : nat) :
  (forall a, In a l -> List.length (f a) <= m)%nat ->
  (List.length (flat_map f l) <= List.length l * m)%nat.
Proof.
  induction l as [|a l IH]; intros H; simpl; [lia|].
  rewrite length_app.
  assert (H1 := H a (or_introl eq_refl)).
  assert (H2 : (List.length (flat_map f l) <= List.length l * m)%nat)
    by (apply IH; intros b Hb; apply H; right; exact Hb).
  lia.
Qed.

Lemma entries_length (probe : pystr -> Z -> exc pystr)
      (self : DomainGenerator) (v t : pystr) :
  (List.length (entries probe self v t) <= 1)%nat.
Proof.
  unfold entries. destruct (validators.validate_domain (v ++ t)); simpl; lia.
Qed.

Lemma variant_major_sound (probe : pystr -> Z -> exc pystr)
      (self : DomainGenerator) (vs : list pystr) (c : domain_info) :
  In c (variant_major probe self vs) ->
  domain c = variant c ++ tld c
  /\ In (variant c) vs
  /\ In (tld c) (config_tlds self)
  /\ validators.validate_domain (domain c) = true.
Proof.
  unfold variant_major. intros Hc.
  apply in_flat_map in Hc. destruct Hc as [v [Hv Hc]].
  apply in_flat_map in Hc. destruct Hc as [t [Ht Hc]].
  unfold entries in Hc.
  destruct (validators.validate_domain (v ++ t)) eqn:Hd; [|destruct Hc].
  destruct Hc as [<-|[]]. simpl. repeat split; assumption.
Qed.

Lemma variant_major_complete (probe : pystr -> Z -> exc pystr)
      (self : DomainGenerator) (vs : list pystr) (v t : pystr) :
  In v vs -> In t (config_tlds self) ->
  validators.validate_domain (v ++ t) = true ->
  exists c, In c (variant_major probe self vs)
            /\ variant c = v /\ tld c = t /\ domain c = v ++ t.
Proof.
  intros Hv Ht Hd. unfold variant_major. eexists. split.
  - apply in_flat_map. exists v. split; [exact Hv|].
    apply in_flat_map. exists t. split; [exact Ht|].
    unfold entries. rewrite Hd. left. reflexivity.
  - simpl. repeat split.
Qed.

Lemma variant_major_length (probe : pystr -> Z -> exc pystr)
      (self : DomainGenerator) (vs : list pystr) :
  (List.length (variant_major probe self vs)
   <= List.length vs * List.length (config_tlds self))%nat.
Proof.
  unfold variant_major. apply flat_map_length_le. intros v _.
  rewrite <- (Nat.mul_1_r (List.length (config_tlds self))).
  apply flat_map_length_le. intros t _. apply entries_length.
Qed.

(** X12.  For every probe the builder returns a list.  Each candidate joins
    a returned variant and a configured TLD into a domain that the
    [validators] package accepts; every such pair gives a candidate; the
    candidates are listed variant by variant and, for one variant, TLD by
    TLD; and there are at most as many candidates as pairs. *)
Theorem generate_full_domains_candidates
        (probe : pystr -> Z -> exc pystr)
        (self : DomainGenerator) (company_name : pystr) :
  exists l,
    generate_full_domains_with probe self company_name = Ok l
    /\ l = variant_major probe self
             (generate_domain_variants self company_name)
    /\ (forall c, In c l ->
          domain c = variant c ++ tld c
          /\ In (variant c) (generate_domain_variants self company_name)
          /\ In (tld c) (config_tlds self)
          /\ validators.validate_domain (domain c) = true)
    /\ (forall v t,
          In v (generate_domain_variants self company_name) ->
          In t (config_tlds self) ->
          validators.validate_domain (v ++ t) = true ->
          exists c, In c l /\ variant c = v /\ tld c = t
                    /\ domain c = v ++ t)
    /\ (List.length l
        <= List.length (generate_domain_variants self company_name)
           * List.length (config_tlds self))%nat.
Proof.
  rewrite generate_full_domains_with_eq.
  eexists. split; [reflexivity|]. split; [reflexivity|].
  split; [|split].
  - intros c. apply variant_major_sound.
  - intros v t. apply variant_major_complete.
  - apply variant_major_length.
Qed.

(** X13.  With availability checking enabled and the probe of the
    repository, the status of a candidate is "taken" when its domain
    resolves, "available" when the resolver raises [gaierror] and "error"
    when it raises anything else; the "error" that the probe gives to a
    malformed domain never shows, since such a domain is no candidate.  With
    checking disabled the status is "unknown". *)
Theorem generate_full_domains_statuses
        (self : DomainGenerator) (company_name : pystr) :
  exists l,
    generate_full_domains self company_name = Ok l
    /\ forall c, In c l ->
         status c
         = if config_check self then
             match gethostbyname (config_timeout self) (domain c) with
             | Ok _ => lit "taken"
             | Raise gaierror => lit "available"
             | Raise _ => lit "error"
             end
           else lit "unknown".
Proof.
  unfold generate_full_domains. rewrite generate_full_domains_with_eq.
  eexists. split; [reflexivity|].
  intros c Hc.
  destruct (variant_major_sound _ _ _ _ Hc) as [_ [_ [_ Hvalid]]].
  apply in_variant_major in Hc. destruct Hc as [_ Hs].
  rewrite Hs. unfold entry_status.
  destruct (config_check self); [|reflexivity].
  rewrite check_domain_availability_cases, Hvalid. reflexivity.
Qed.

(** X14.  With availability checking disabled the probe is not consulted:
    the builder returns the same list whatever the probe would answer. *)
Theorem generate_full_domains_without_probe
        (probe1 probe2 : pystr -> Z -> exc pystr)
        (self : DomainGenerator) (company_name : pystr) :
  config_check self = false ->
  generate_full_domains_with probe1 self company_name
  = generate_full_domains_with probe2 self company_name.
Proof.
  intros Hoff. rewrite !generate_full_domains_with_eq. f_equal.
  unfold variant_major. apply flat_map_ext. intros v.
  apply flat_map_ext. intros t.
  unfold entries, entry_status. rewrite Hoff. reflexivity.
Qed.
End Candidates.

Lemma generate_full_domains_without_probe_witness :
  domain_generator.config_check (example_config 5 None) = false
  /\ domain_generator.generate_full_domains_with
       (U := latin1_unicode) (E := insertion_order_env) raising_probe
       (example_config 5 None) (lit "Mustermann GmbH")
     = domain_generator.generate_full_domains_with
         (U := latin1_unicode) (E := insertion_order_env)
         (validators.check_domain_availability (E := insertion_order_env))
         (example_config 5 None) (lit "Mustermann GmbH").
Proof.
  assert (H : domain_generator.config_check (example_config 5 None) = false)
    by reflexivity.
  split; [exact H|].
  exact (generate_full_domains_without_probe
           (U := latin1_unicode) (E := insertion_order_env)
           raising_probe (validators.check_domain_availability (E := insertion_order_env))
           (example_config 5 None) (lit "Mustermann GmbH") H).
Defined.

(** ** Tallies *)

Section Tally.
Import domain_generator.

Lemma dict_total_set (d : dict Z) (k : pystr) (v : Z) :
  dict_total (dict_set d k v)
  = (dict_total d - dict_get_default d k 0 + v)%Z.
Proof.
  unfold dict_total, dict_get_default.
  induction d as [|[k0 v0] d IH]; simpl; [lia|].
  destruct (str_eqb k k0); simpl; [lia|]. rewrite IH. lia.
Qed.

Lemma count_up_total (d : dict Z) (k : pystr) :
  dict_total (count_up d k) = (dict_total d + 1)%Z.
Proof. unfold count_up. rewrite dict_total_set. lia. Qed.

Lemma count_up_get (d : dict Z) (k s : pystr) :
  dict_get_default (count_up d k) s 0%Z
  = (dict_get_default d s 0 + if str_eqb s k then 1 else 0)%Z.
Proof.
  unfold count_up, dict_get_default. rewrite dict_get_set.
  destruct (str_eqb s k) eqn:Hs; [|lia].
  apply str_eqb_eq in Hs. subst. reflexivity.
Qed.

Lemma occurrences_cons (s k : pystr) (keys : list pystr) :
  occurrences s (k :: keys)
  = ((if str_eqb s k then 1 else 0) + occurrences s keys)%Z.
Proof.
  unfold occurrences. cbn [filter]. destruct (str_eqb s k); [|lia].
  cbn [List.length]. rewrite Nat2Z.inj_succ. lia.
Qed.

(** A tally counts every key once: its counts add up to the number of
    keys, and the count of a key is the number of its occurrences. *)
Lemma tally_counts (keys : list pystr) (d : dict Z) :
  dict_total (fold_left count_up keys d)
  = (dict_total d + Z.of_nat (List.length keys))%Z
  /\ forall s, dict_get_default (fold_left count_up keys d) s 0%Z
               = (dict_get_default d s 0 + occurrences s keys)%Z.
Proof.
  revert d; induction keys as [|k keys IH]; intros d.
  - simpl. split; [lia|]. intros s. unfold occurrences. simpl. lia.
  - cbn [fold_left]. destruct (IH (count_up d k)) as [H1 H2]. split.
    + rewrite H1, count_up_total. simpl List.length. lia.
    + intros s. rewrite H2, count_up_get, occurrences_cons. lia.
Qed.

(** The two tallies that [get_domain_statistics] keeps side by side. *)
Lemma joint_tally (ds : list domain_info) (a b : dict Z) :
  fold_left (fun acc d => (count_up (fst acc) (status d),
                           count_up (snd acc) (tld d))) ds (a, b)
  = (fold_left count_up (map status ds) a,
     fold_left count_up (map tld ds) b).
Proof.
  revert a b; induction ds as [|d ds IH]; intros a b; [reflexivity|].
  cbn [fold_left map fst snd]. apply IH.
Qed.
End Tally.

(** ** [process_companies] and [get_domain_statistics] *)

Section Processed.
Context {U : UnicodeData} {E : Environment}.
Import domain_generator.

Lemma generate_full_domains_returns (self : DomainGenerator) (name : pystr) :
  exists l, generate_full_domains self name = Ok l.
Proof.
  unfold generate_full_domains. rewrite generate_full_domains_with_eq.
  eexists. reflexivity.
Qed.

Lemma not_added_key (k a : pystr) :
  ~ In k added_keys -> In a added_keys -> str_eqb k a = false.
Proof.
  intros Hk Ha. destruct (str_eqb k a) eqn:He; [|reflexivity].
  apply str_eqb_eq in He. subst. contradiction.
Qed.

(** One company with a name that is a string and not empty gives one
    result, which is the company with its candidates attached. *)
Lemma process_company_enriched (self : DomainGenerator)
      (company : dict value) (name : pystr) :
  dict_get_default company (lit "company_name") (VStr []) = VStr name ->
  name <> [] ->
  exists result,
    process_company self company = Ok [result]
    /\ enriched self company result.
Proof.
  intros Hname Hne. unfold process_company. cbv zeta. rewrite Hname.
  destruct name as [|c name]; [congruence|]. cbn [value_truthy truthy negb].
  destruct (generate_full_domains_returns self (c :: name)) as [l Hl].
  rewrite Hl. cbn [bind]. eexists. split; [reflexivity|].
  exists (c :: name), l, (fold_left count_up (map status l) []).
  destruct (tally_counts (map status l) []) as [Ht1 Ht2].
  split.
  { unfold dict_get_default in Hname.
    destruct (dict_get company (lit "company_name")) as [v|];
      [congruence|discriminate]. }
  split; [exact Hl|].
  split; [rewrite !dict_get_set; eval_literal_tests; reflexivity|].
  split; [rewrite !dict_get_set; eval_literal_tests; reflexivity|].
  split; [rewrite !dict_get_set; eval_literal_tests; reflexivity|].
  split; [rewrite !dict_get_set; eval_literal_tests; reflexivity|].
  split; [rewrite Ht1, length_map; reflexivity|].
  split; [intros s; rewrite Ht2; reflexivity|].
  intros k Hk. rewrite !dict_get_set.
  rewrite !(not_added_key k _ Hk) by (simpl; tauto). reflexivity.
Qed.

Lemma process_company_skips (self : DomainGenerator) (company : dict value) :
  named company = false -> process_company self company = Ok [].
Proof.
  unfold named, process_company. cbv zeta. intros ->. reflexivity.
Qed.

(** X15.  When every name is a string, [process_companies] returns, in the
    order of its input, one result for each company whose name is not empty,
    and each result is its company with the candidates attached; companies
    without a name are left out. *)
Theorem process_companies_results
        (self : DomainGenerator) (companies : list (dict value)) :
  (forall c, In c companies ->
     exists s, dict_get_default c (lit "company_name") (VStr []) = VStr s) ->
  exists results,
    process_companies self companies = Ok results
    /\ Forall2 (enriched self) (filter named companies) results.
Proof.
  unfold process_companies.
  induction companies as [|c cs IH]; intros Hstr.
  - exists []. split; [reflexivity|constructor].
  - destruct IH as [rs [Hrs Hall]];
      [intros c' Hc'; apply Hstr; right; exact Hc'|].
    destruct (Hstr c (or_introl eq_refl)) as [s Hs].
    cbn [for_each filter].
    destruct (named c) eqn:Hn.
    + assert (Hne : s <> []).
      { intros ->. unfold named in Hn. rewrite Hs in Hn. discriminate. }
      destruct (process_company_enriched self c s Hs Hne) as [r [Hr He]].
      rewrite Hr, Hrs. cbn [bind app]. exists (r :: rs).
      split; [reflexivity|]. constructor; assumption.
    + rewrite (process_company_skips self c Hn), Hrs. cbn [bind app].
      exists rs. split; [reflexivity|assumption].
Qed.

Lemma for_each_Ok_inv {A B} (l : list A) (body : A -> exc (list B))
      (r : list B) :
  for_each l body = Ok r ->
  forall x, In x r -> exists a p, In a l /\ body a = Ok p /\ In x p.
Proof.
  revert r; induction l as [|a l IH]; intros r; cbn [for_each].
  - intros H; inversion H. intros x [].
  - destruct (body a) as [p|] eqn:Hb; cbn [bind]; [|discriminate].
    destruct (for_each l body) as [q|] eqn:Hq; cbn [bind]; [|discriminate].
    intros H; inversion H. subst r. intros x Hx.
    apply in_app_or in Hx. destruct Hx as [Hx|Hx].
    + exists a, p. repeat split; [left; reflexivity|assumption|assumption].
    + destruct (IH q eq_refl x Hx) as [a' [p' [H1 [H2 H3]]]].
      exists a', p'. repeat split; [right; assumption|assumption|assumption].
Qed.

(** Every result of [process_companies] carries a list of candidates and
    its length. *)
Lemma processed_wellformed (self : DomainGenerator)
      (companies results : list (dict value)) :
  process_companies self companies = Ok results ->
  forall r, In r results ->
    exists ds,
      dict_get r (lit "generated_domains") = Some (VDomains ds)
      /\ dict_get r (lit "domain_count")
         = Some (VInt (Z.of_nat (List.length ds))).
Proof.
  intros H r Hr.
  destruct (for_each_Ok_inv _ _ _ H r Hr) as [c [p [_ [Hp Hin]]]].
  unfold process_company in Hp. cbv zeta in Hp.
  destruct (negb (value_truthy _)); [inversion Hp; subst; destruct Hin|].
  destruct (dict_get_default c (lit "company_name") (VStr []));
    try discriminate.
  destruct (generate_full_domains self s) as [l|]; cbn [bind] in Hp;
    [|discriminate].
  inversion Hp. subst p. destruct Hin as [<-|[]].
  exists l. split; rewrite !dict_get_set; eval_literal_tests; reflexivity.
Qed.
End Processed.

Section Statistics.
Context {U : UnicodeData} {E : Environment} {F : domain_generator.Floats}.
Import domain_generator.

Lemma sum_counts (results : list (dict value)) (acc : Z) :
  (forall r, In r results ->
     exists ds,
       dict_get r (lit "generated_domains") = Some (VDomains ds)
       /\ dict_get r (lit "domain_count")
          = Some (VInt (Z.of_nat (List.length ds)))) ->
  sum_ints (map (fun comp =>
                   dict_get_default comp (lit "domain_count") (VInt 0%Z))
                results) acc
  = Ok (acc + Z.of_nat (List.length (attached_domains results)))%Z.
Proof.
  revert acc; induction results as [|r rs IH]; intros acc H.
  - simpl. f_equal. lia.
  - destruct (H r (or_introl eq_refl)) as [ds [H1 H2]].
    cbn [map sum_ints]. unfold dict_get_default at 1. rewrite H2.
    rewrite IH by (intros r' Hr'; apply H; right; exact Hr').
    f_equal. unfold attached_domains. cbn [flat_map]. rewrite H1.
    rewrite length_app. lia.
Qed.

Lemma fold_distributions (results : list (dict value))
      (dists : dict Z * dict Z) :
  (forall r, In r results ->
     exists ds,
       dict_get r (lit "generated_domains") = Some (VDomains ds)
       /\ dict_get r (lit "domain_count")
          = Some (VInt (Z.of_nat (List.length ds)))) ->
  fold_exc
    (fun dists company =>
       bind (iter_domains (dict_get_default company (lit "generated_domains")
                                            (VDomains [])))
            (fun domains =>
               Ok (fold_left
                     (fun ds d => (count_up (fst ds) (status d),
                                   count_up (snd ds) (tld d)))
                     domains dists)))
    results dists
  = Ok (fold_left (fun ds d => (count_up (fst ds) (status d),
                                count_up (snd ds) (tld d)))
                  (attached_domains results) dists).
Proof.
  revert dists; induction results as [|r rs IH]; intros dists H;
    [reflexivity|].
  destruct (H r (or_introl eq_refl)) as [ds [H1 _]].
  cbn [fold_exc]. unfold dict_get_default at 1. rewrite H1.
  cbn [iter_domains bind].
  rewrite IH by (intros r' Hr'; apply H; right; exact Hr').
  unfold attached_domains. cbn [flat_map]. rewrite H1.
  rewrite fold_left_app. reflexivity.
Qed.

(** X16.  On the results of [process_companies] the statistics are returned
    without an error.  The number of companies is the number of results; the
    number of domains is the number of attached candidates; the status
    distribution and the TLD distribution each add up to the number of
    domains, and give for each status and each TLD the number of candidates
    that have it. *)
Theorem get_domain_statistics_totals
        (self : DomainGenerator) (companies results : list (dict value)) :
  process_companies self companies = Ok results ->
  exists st,
    get_domain_statistics self results = Ok st
    /\ total_companies st = Z.of_nat (List.length results)
    /\ total_domains st = Z.of_nat (List.length (attached_domains results))
    /\ dict_total (status_distribution st) = total_domains st
    /\ dict_total (tld_distribution st) = total_domains st
    /\ (forall s, dict_get_default (status_distribution st) s 0%Z
                  = occurrences s (map status (attached_domains results)))
    /\ (forall t, dict_get_default (tld_distribution st) t 0%Z
                  = occurrences t (map tld (attached_domains results))).
Proof.
  intros H. assert (Hwf := processed_wellformed self companies results H).
  unfold get_domain_statistics. cbv zeta.
  rewrite (sum_counts results 0 Hwf). cbn [bind].
  rewrite (fold_distributions results ([], []) Hwf). cbn [bind].
  rewrite joint_tally. cbn [fst snd].
  eexists. split; [reflexivity|]. cbn [total_companies total_domains
    status_distribution tld_distribution].
  destruct (tally_counts (map status (attached_domains results)) [])
    as [Hs1 Hs2].
  destruct (tally_counts (map tld (attached_domains results)) [])
    as [Ht1 Ht2].
  rewrite length_map in Hs1, Ht1.
  repeat split.
  - rewrite Hs1. reflexivity.
  - rewrite Ht1. reflexivity.
  - intros s. rewrite Hs2. reflexivity.
  - intros t. rewrite Ht2. reflexivity.
Qed.
End Statistics.

Lemma process_companies_results_witness :
  (forall c, In c demo_companies ->
     exists s, dict_get_default c (lit "company_name")
                 (domain_generator.VStr []) = domain_generator.VStr s)
  /\ exists results,
       domain_generator.process_companies
         (U := latin1_unicode) (E := insertion_order_env)
         (domain_generator.create_domain_generator None) demo_companies
       = Ok results
       /\ Forall2 (enriched (U := latin1_unicode) (E := insertion_order_env)
                            (domain_generator.create_domain_generator None))
                  (filter named demo_companies) results.
Proof.
  assert (H : forall c, In c demo_companies ->
     exists s, dict_get_default c (lit "company_name")
                 (domain_generator.VStr []) = domain_generator.VStr s).
  { intros c Hc. unfold demo_companies in Hc.
    repeat (destruct Hc as [<-|Hc]; [eexists; reflexivity|]). destruct Hc. }
  split; [exact H|].
  exact (process_companies_results
           (U := latin1_unicode) (E := insertion_order_env)
           (domain_generator.create_domain_generator None) demo_companies H).
Defined.

Lemma get_domain_statistics_totals_witness :
  exists results,
    domain_generator.process_companies
      (U := latin1_unicode) (E := insertion_order_env)
      (domain_generator.create_domain_generator None) demo_companies
    = Ok results
    /\ exists st,
         domain_generator.get_domain_statistics
           (F := exact_fractions)
           (domain_generator.create_domain_generator None) results = Ok st
         /\ domain_generator.total_companies st = 3%Z
         /\ domain_generator.total_domains st = 98%Z
         /\ dict_total (domain_generator.status_distribution st) = 98%Z.
Proof.
  destruct (domain_generator.process_companies
              (U := latin1_unicode) (E := insertion_order_env)
              (domain_generator.create_domain_generator None) demo_companies)
    as [results|e] eqn:Hp; [|vm_compute in Hp; discriminate Hp].
  exists results. split; [reflexivity|].
  destruct (get_domain_statistics_totals
              (U := latin1_unicode) (E := insertion_order_env)
              (F := exact_fractions)
              (domain_generator.create_domain_generator None)
              demo_companies results Hp)
    as [st [Hst [H1 [H2 [H3 _]]]]].
  exists st. split; [exact Hst|].
  assert (Hr : results
               = match domain_generator.process_companies
                         (U := latin1_unicode) (E := insertion_order_env)
                         (domain_generator.create_domain_generator None)
                         demo_companies with
                 | Ok r => r
                 | Raise _ => []
                 end) by (rewrite Hp; reflexivity).
  assert (Hlen : List.length results = 3%nat)
    by (rewrite Hr; vm_compute; reflexivity).
  assert (Hdom : List.length (attached_domains results) = 98%nat)
    by (rewrite Hr; vm_compute; reflexivity).
  rewrite H3, H2, H1, Hlen, Hdom. repeat split.
Defined.

(** ** Fetching the pages *)

Section Requests.
Context {U : UnicodeData} {E : Environment} {B : Soup} {R : Regex}
        {W : k_online_scraper.Web}.
Import k_online_scraper.
Import settings.

(** One iteration of the loop of [_make_request]. *)
Lemma attempts_step (url : pystr) (later : nat) (w : world) :
  attempts (S later) url w
  = let w1 := {| requests_made := S (requests_made w);
                 setups_made := setups_made w;
                 pages_loaded := pages_loaded w;
                 slept := slept w;
                 has_driver := has_driver w |} in
    match session_get (requests_made w) url with
    | HttpResponse content => (Ok (Some content), w1)
    | RequestException =>
        match later with
        | O => (Ok None, w1)
        | S _ => attempts later url
                   {| requests_made := S (requests_made w);
                      setups_made := setups_made w;
                      pages_loaded := pages_loaded w;
                      slept := slept w ++ [RetryDelay];
                      has_driver := has_driver w |}
        end
    | HttpOtherError => (Raise OtherException, w1)
    end.
Proof.
  cbn [attempts]. unfold st_bind, request.
  destruct (session_get (requests_made w) url); try reflexivity.
  destruct later; reflexivity.
Qed.

(** What the loop of [_make_request] does from the world [w]. *)
Lemma attempts_run (url : pystr) (n : nat) : forall w,
  exists k,
    (k <= n)%nat
    /\ (0 < n -> 0 < k)%nat
    /\ requests_made (snd (attempts n url w)) = (requests_made w + k)%nat
    /\ setups_made (snd (attempts n url w)) = setups_made w
    /\ pages_loaded (snd (attempts n url w)) = pages_loaded w
    /\ has_driver (snd (attempts n url w)) = has_driver w
    /\ slept (snd (attempts n url w))
       = slept w ++ repeat RetryDelay (k - 1)
    /\ (forall i, (i < k - 1)%nat ->
          session_get (requests_made w + i) url = RequestException)
    /\ match fst (attempts n url w) with
       | Ok (Some content) =>
           session_get (requests_made w + (k - 1)) url = HttpResponse content
       | Ok None =>
           k = n
           /\ forall i, (i < n)%nat ->
                session_get (requests_made w + i) url = RequestException
       | Raise _ =>
           session_get (requests_made w + (k - 1)) url = HttpOtherError
       end.
Proof.
  induction n as [|later IH]; intros w.
  - exists 0%nat. cbn. rewrite app_nil_r, Nat.add_0_r.
    repeat split; try lia; try (intros; lia).
  - rewrite attempts_step. cbv zeta.
    destruct (session_get (requests_made w) url) as [content| |] eqn:Hget.
    + exists 1%nat. cbn. rewrite app_nil_r, Nat.add_0_r.
      repeat split; try lia; try assumption; try (intros; lia).
    + destruct later as [|later'].
      * exists 1%nat. cbn. rewrite app_nil_r.
        repeat split; try lia; try (intros; lia).
        intros i Hi. assert (i = 0)%nat by lia. subst i.
        rewrite Nat.add_0_r. exact Hget.
      * match goal with
        | |- context [attempts (S later') url ?w1] => set (w1' := w1)
        end.
        destruct (IH w1')
          as [k [Hk [Hpos [Hreq [Hset [Hpg [Hdr [Hsl [Hfail Hres]]]]]]]]].
        assert (0 < k)%nat by (apply Hpos; lia).
        exists (S k). subst w1'.
        cbn [requests_made setups_made pages_loaded has_driver slept] in *.
        split; [lia|]. split; [lia|]. split; [rewrite Hreq; lia|].
        split; [assumption|]. split; [assumption|]. split; [assumption|].
        split.
        { rewrite Hsl, <- app_assoc. f_equal.
          replace (S k - 1)%nat with (S (k - 1)) by lia. reflexivity. }
        split.
        { intros i Hi. destruct i as [|i].
          - rewrite Nat.add_0_r. exact Hget.
          - replace (requests_made w + S i)%nat
              with (S (requests_made w) + i)%nat by lia.
            apply Hfail. lia. }
        replace (requests_made w + (S k - 1))%nat
          with (S (requests_made w) + (k - 1))%nat by lia.
        destruct (fst (attempts (S later') url _)) as [[content|]|e];
          try assumption.
        destruct Hres as [-> Hall]. split; [reflexivity|].
        intros i Hi. destruct i as [|i].
        -- rewrite Nat.add_0_r. exact Hget.
        -- replace (requests_made w + S i)%nat
             with (S (requests_made w) + i)%nat by lia.
           apply Hall. lia.
    + exists 1%nat. cbn. rewrite app_nil_r, Nat.add_0_r.
      repeat split; try lia; try assumption; try (intros; lia).
Qed.
End Requests.

Section Pages.
Context {U : UnicodeData} {E : Environment} {B : Soup} {R : Regex}
        {W : k_online_scraper.Web}.
Import k_online_scraper.
Import settings.

(** A record that [_parse_company_from_element] returns has a name. *)
Lemma parsed_record_name (self : KOnlineScraper) (element : Tag)
      (source_url : option pystr) (record : dict pystr) :
  _parse_company_from_element self element source_url = Some record ->
  has_name record.
Proof.
  unfold _parse_company_from_element, parse_company_body.
  destruct (extract_name element) as [n|] eqn:Hn.
  2:{ cbn [set_if]. unfold dict_get_default. cbn [dict_get truthy negb].
      discriminate. }
  assert (H0 : dict_get_default (set_if [] (lit "company_name") (Some n))
                                (lit "company_name") [] = n).
  { unfold dict_get_default. cbn [set_if dict_set dict_get].
    rewrite str_eqb_refl. reflexivity. }
  rewrite H0.
  destruct n as [|c n]; cbn [truthy negb]; [discriminate|].
  cbv zeta.
  match goal with
  | |- context [validators.validate_company_data ?cd] => set (CD := cd)
  end.
  assert (Hname : dict_get CD (lit "company_name") = Some (c :: n)).
  { subst CD. rewrite dict_get_set, !dict_get_set_if.
    eval_literal_tests. cbv iota.
    rewrite address_block_lookup by reflexivity.
    rewrite str_eqb_refl. reflexivity. }
  clearbody CD.
  assert (Hraise := validate_company_data_raises CD).
  assert (Hok := validate_company_data_returns CD).
  assert (Hnm : dict_get_default CD (lit "company_name") [] = c :: n)
    by (unfold dict_get_default; rewrite Hname; reflexivity).
  rewrite Hnm in Hraise, Hok.
  destruct (strip (c :: n)) as [|s0 s] eqn:Hs.
  { rewrite (Hraise eq_refl). cbn [bind]. discriminate. }
  destruct (Hok ltac:(discriminate)) as [validated [Hv [Hvn _]]].
  rewrite Hv. cbn [bind]. intros Hr. inversion Hr. subst record.
  exists (s0 :: s). split; [exact Hvn|]. split; [discriminate|].
  rewrite <- Hs. apply strip_by_idempotent.
Qed.

Lemma parsed_elements_named (self : KOnlineScraper) (url : pystr)
      (elements : list Tag) :
  Forall has_name
    (flat_map
       (fun element =>
          match _parse_company_from_element self element (Some url) with
          | Some ((_ :: _) as company) => [company]
          | _ => []
          end)
       elements).
Proof.
  apply Forall_flat_map. apply Forall_forall. intros element _.
  destruct (_parse_company_from_element self element (Some url))
    as [[|kv record]|] eqn:Hp; constructor; [|constructor].
  apply (parsed_record_name _ _ _ _ Hp).
Qed.

Lemma count_sleeps_app (r : sleep_reason) (a b : list sleep_reason) :
  count_sleeps r (a ++ b) = (count_sleeps r a + count_sleeps r b)%nat.
Proof.
  unfold count_sleeps. rewrite filter_app, length_app. reflexivity.
Qed.

Lemma count_sleeps_retries (n : nat) :
  count_sleeps RateLimit (repeat RetryDelay n) = 0%nat.
Proof. induction n; [reflexivity|exact IHn]. Qed.

Lemma within_refl (w : world) : within w w 0 0 0.
Proof. unfold within. repeat split; lia. Qed.

Lemma within_trans (w w1 w2 : world) (a b c a' b' c' : nat) :
  within w w1 a b c -> within w1 w2 a' b' c' ->
  within w w2 (a + a') (b + b') (c + c').
Proof.
  unfold within. intros [? [? [? ?]]] [? [? [? ?]]]. repeat split; lia.
Qed.

Lemma within_le (w w' : world) (a b c a' b' c' : nat) :
  within w w' a b c -> (a <= a')%nat -> (b <= b')%nat -> (c <= c')%nat ->
  within w w' a' b' c'.
Proof. unfold within. intros [? [? [? ?]]] ? ? ?. repeat split; lia. Qed.

(** What [_make_request] leaves behind. *)
Lemma make_request_within (config : scraping_config) (url : pystr)
      (retries : option Z) (w : world) :
  within w (snd (_make_request config url retries w))
         (Z.to_nat (effective_retries config retries)) 0 0.
Proof.
  unfold _make_request.
  destruct (attempts_run url (Z.to_nat (effective_retries config retries)) w)
    as [k [Hk [_ [Hreq [Hset [Hpg [_ [Hsl _]]]]]]]].
  unfold within. rewrite Hreq, Hset, Hpg, Hsl.
  rewrite count_sleeps_app, count_sleeps_retries. repeat split; lia.
Qed.

Lemma requests_page_run (self : KOnlineScraper) (config : scraping_config)
      (url : pystr) (w : world) :
  match fst (scrape_page_with_requests self config url w) with
  | Ok companies => Forall has_name companies
  | Raise _ => True
  end
  /\ within w (snd (scrape_page_with_requests self config url w))
            (Z.to_nat (effective_retries config None)) 0 0.
Proof.
  assert (Hw := make_request_within config url None w).
  unfold scrape_page_with_requests, st_bind, st_ret.
  destruct (_make_request config url None w) as [[response|e] w1].
  - cbn [fst snd] in *. split; [|exact Hw].
    unfold _scrape_page_with_requests.
    destruct response; [apply parsed_elements_named|constructor].
  - cbn [fst snd] in *. split; [exact I|exact Hw].
Qed.

Lemma selenium_page_run (self : KOnlineScraper) (url : pystr) (w : world) :
  match fst (_scrape_page_with_selenium self url w) with
  | Ok companies => Forall has_name companies
  | Raise _ => True
  end
  /\ within w (snd (_scrape_page_with_selenium self url w)) 0 1 0.
Proof.
  unfold _scrape_page_with_selenium, st_bind, ensure_driver, load_page,
    driver_step, sleep, st_ret, st_raise, within.
  repeat (cbn [fst snd requests_made pages_loaded setups_made slept
               has_driver];
          match goal with
          | |- context [if has_driver w then _ else _] =>
              destruct (has_driver w)
          | |- context [match setup_driver ?n with
                        | Ok _ => _
                        | Raise _ => _
                        end] =>
              destruct (setup_driver n)
          | |- context [match driver_get ?n ?u with
                        | DriverOk _ => _
                        | _ => _
                        end] =>
              destruct (driver_get n u)
          | |- context [match page_source ?n with
                        | DriverOk _ => _
                        | _ => _
                        end] =>
              destruct (page_source n)
          end);
    cbn [fst snd requests_made pages_loaded setups_made slept has_driver];
    rewrite ?count_sleeps_app;
    (split; [first [exact I | constructor | apply parsed_elements_named]
            | cbn; repeat split; lia]).
Qed.

(** The loop of [scrape_companies]. *)
Lemma scrape_pages_run (self : KOnlineScraper) (config : scraping_config)
      (use_selenium : bool) (urls : list pystr) :
  forall all_companies w,
    Forall has_name all_companies ->
    exists companies w',
      scrape_pages self config use_selenium urls all_companies w
      = (Ok companies, w')
      /\ Forall has_name companies
      /\ within w w'
           (if use_selenium then 0
            else List.length urls
                 * Z.to_nat (effective_retries config None))
           (if use_selenium then List.length urls else 0)
           (List.length urls - 1).
Proof.
  induction urls as [|url rest IH]; intros all_companies w Hall.
  - exists all_companies, w. cbn [scrape_pages st_ret].
    split; [reflexivity|]. split; [assumption|].
    destruct use_selenium; apply within_refl.
  - cbn [scrape_pages]. unfold st_bind, st_try.
    set (page := if use_selenium then _scrape_page_with_selenium self url
                 else scrape_page_with_requests self config url).
    assert (Hpage :
              match fst (page w) with
              | Ok companies => Forall has_name companies
              | Raise _ => True
              end
              /\ within w (snd (page w))
                   (if use_selenium then 0
                    else Z.to_nat (effective_retries config None))
                   (if use_selenium then 1 else 0) 0).
    { subst page. destruct use_selenium;
        [apply selenium_page_run|apply requests_page_run]. }
    destruct (page w) as [[companies|e] w1]; cbn [fst snd] in Hpage;
      destruct Hpage as [Hnamed Hw1].
    + set (pause := match rest with
                    | [] => st_ret tt
                    | _ :: _ => sleep RateLimit
                    end).
      assert (Hpause : exists w2, pause w1 = (Ok tt, w2)
                /\ within w1 w2 0 0 (match rest with [] => 0 | _ => 1 end)).
      { subst pause. destruct rest.
        - exists w1. split; [reflexivity|apply within_refl].
        - eexists. split; [reflexivity|].
          unfold within. cbn [requests_made pages_loaded setups_made slept].
          rewrite count_sleeps_app. cbn. repeat split; lia. }
      destruct Hpause as [w2 [-> Hw2]]. unfold st_ret.
      destruct (IH (all_companies ++ companies) w2)
        as [r [w' [Hr [Hrn Hrw]]]].
      { apply Forall_app. split; assumption. }
      exists r, w'. split; [exact Hr|]. split; [exact Hrn|].
      eapply within_le.
      * eapply within_trans;
          [eapply within_trans; [exact Hw1|exact Hw2]|exact Hrw].
      * destruct use_selenium; cbn [List.length]; lia.
      * destruct use_selenium; cbn [List.length]; lia.
      * destruct rest; cbn [List.length]; lia.
    + unfold st_ret.
      destruct (IH all_companies w1 Hall) as [r [w' [Hr [Hrn Hrw]]]].
      exists r, w'. split; [exact Hr|]. split; [exact Hrn|].
      eapply within_le.
      * eapply within_trans; [exact Hw1|exact Hrw].
      * destruct use_selenium; cbn [List.length]; lia.
      * destruct use_selenium; cbn [List.length]; lia.
      * destruct rest; cbn [List.length]; lia.
Qed.

(** The "next" links are appended to the list. *)
Lemma add_next_links_prefix (soup : Tag) (base_url : pystr)
      (urls : list pystr) :
  exists extra, add_next_links soup base_url urls = urls ++ extra.
Proof.
  unfold add_next_links.
  generalize (find_all_by_text soup (lit "a") (lit "next|weiter|more|mehr")).
  intros links. revert urls.
  induction links as [|link links IH]; intros urls.
  - exists []. rewrite app_nil_r. reflexivity.
  - cbn [fold_left]. cbv zeta.
    destruct (truthy (get_href link)); [|apply IH].
    destruct (str_mem _ urls); [apply IH|].
    destruct (IH (urls ++ [urljoin base_url (get_href link)])) as [extra ->].
    eexists. rewrite <- app_assoc. reflexivity.
Qed.

(** What [_discover_pagination_urls] gives and leaves behind. *)
Lemma discover_run (config : scraping_config) (base_url : pystr) (w : world) :
  snd (_discover_pagination_urls config base_url w)
  = snd (_make_request config base_url None w)
  /\ exists rest,
       fst (_discover_pagination_urls config base_url w)
       = Ok (base_url :: rest)
       /\ match fst (_make_request config base_url None w) with
          | Ok (Some _) => True
          | _ => rest = []
          end.
Proof.
  unfold _discover_pagination_urls, st_try, st_bind, st_ret.
  destruct (_make_request config base_url None w) as [[[soup|]|e] w1];
    cbn [fst snd].
  - split; [reflexivity|]. cbv zeta.
    match goal with
    | |- context [add_next_links soup base_url ?urls] =>
        destruct (add_next_links_prefix soup base_url urls) as [extra ->]
    end.
    destruct (page_links soup base_url); cbn [app];
      eexists; (split; [reflexivity|exact I]).
  - split; [reflexivity|]. exists []. split; reflexivity.
  - split; [reflexivity|]. exists []. split; reflexivity.
Qed.
End Pages.

Section Scraping.
Context {U : UnicodeData} {E : Environment} {B : Soup} {R : Regex}
        {W : k_online_scraper.Web}.
Import k_online_scraper.
Import settings.

(** The loop of [_make_request] when every request fails. *)
Lemma attempts_all_fail (url : pystr) (n : nat) : forall w,
  (forall i, (i < n)%nat ->
     session_get (requests_made w + i) url = RequestException) ->
  attempts n url w
  = (Ok None,
     {| requests_made := requests_made w + n;
        setups_made := setups_made w;
        pages_loaded := pages_loaded w;
        slept := slept w ++ repeat RetryDelay (n - 1);
        has_driver := has_driver w |}).
Proof.
  induction n as [|later IH]; intros w Hfail.
  - destruct w. cbn. rewrite Nat.add_0_r, app_nil_r. reflexivity.
  - rewrite attempts_step. cbv zeta.
    assert (H0 := Hfail 0%nat ltac:(lia)). rewrite Nat.add_0_r in H0.
    rewrite H0. destruct later as [|later'].
    + cbn [repeat Nat.sub]. rewrite app_nil_r.
      replace (requests_made w + 1)%nat with (S (requests_made w)) by lia.
      reflexivity.
    + rewrite IH.
      * cbn [requests_made setups_made pages_loaded slept has_driver].
        rewrite <- app_assoc.
        replace (S (requests_made w) + S later')%nat
          with (requests_made w + S (S later'))%nat by lia.
        replace (S (S later') - 1)%nat with (S (S later' - 1)) by lia.
        reflexivity.
      * intros i Hi. cbn [requests_made].
        replace (S (requests_made w) + i)%nat
          with (requests_made w + S i)%nat by lia.
        apply Hfail. lia.
Qed.

(** X17.  [_make_request] sends at most as many requests as [retries] says
    or, when that is absent or 0, as the configuration says, and 3 when the
    configuration is silent.  It stops at the first request that does not
    raise a [RequestException]: every request before the last one raised it.
    It sleeps once between two requests and never after the last one.  It
    returns the response of the last request, raises what the last request
    raised when that is no [RequestException], and returns [None] only when
    the whole budget is spent on failed requests. *)
Theorem make_request_retries (config : scraping_config) (url : pystr)
        (retries : option Z) (w : world) :
  let budget := Z.to_nat (effective_retries config retries) in
  let outcome := fst (_make_request config url retries w) in
  let w' := snd (_make_request config url retries w) in
  exists sent,
    (sent <= budget)%nat
    /\ requests_made w' = (requests_made w + sent)%nat
    /\ slept w' = slept w ++ repeat RetryDelay (sent - 1)
    /\ (forall i, (i < sent - 1)%nat ->
          session_get (requests_made w + i) url = RequestException)
    /\ match outcome with
       | Ok (Some content) =>
           session_get (requests_made w + (sent - 1)) url
           = HttpResponse content
       | Ok None =>
           sent = budget
           /\ forall i, (i < budget)%nat ->
                session_get (requests_made w + i) url = RequestException
       | Raise _ =>
           session_get (requests_made w + (sent - 1)) url = HttpOtherError
       end.
Proof.
  cbv zeta. unfold _make_request.
  destruct (attempts_run url (Z.to_nat (effective_retries config retries)) w)
    as [k [Hk [_ [Hreq [_ [_ [_ [Hsl [Hfail Hres]]]]]]]]].
  exists k. repeat split; assumption.
Qed.

(** X18.  [_discover_pagination_urls] never raises, and the list that it
    returns starts with the URL that it was given.  That URL is the whole
    list when the request for the page gave no response.  The function sends
    no more requests than one call of [_make_request]. *)
Theorem discover_pagination_urls_starts_with_base
        (config : scraping_config) (base_url : pystr) (w : world) :
  exists rest,
    fst (_discover_pagination_urls config base_url w) = Ok (base_url :: rest)
    /\ ((forall content,
           fst (_make_request config base_url None w) <> Ok (Some content)) ->
        rest = [])
    /\ (requests_made (snd (_discover_pagination_urls config base_url w))
        <= requests_made w + Z.to_nat (effective_retries config None))%nat.
Proof.
  destruct (discover_run config base_url w) as [Hw [rest [Hr Hnone]]].
  exists rest. split; [exact Hr|]. split.
  - intros Hno.
    destruct (fst (_make_request config base_url None w)) as [[content|]|e];
      try assumption.
    exfalso. apply (Hno content). reflexivity.
  - rewrite Hw. apply (make_request_within config base_url None w).
Qed.

(** X19.  [scrape_companies] never raises: whatever the site, the browser
    and the two flags do, it returns a list.  Every record of the list has a
    "company_name" that is trimmed and not empty. *)
Theorem scrape_companies_returns (self : KOnlineScraper)
        (config : scraping_config) (use_selenium : bool)
        (max_pages : option Z) (w : world) :
  exists companies,
    fst (scrape_companies self config use_selenium max_pages w)
    = Ok companies
    /\ forall company, In company companies ->
         exists name,
           dict_get company (lit "company_name") = Some name
           /\ name <> []
           /\ strip name = name.
Proof.
  unfold scrape_companies, st_bind.
  destruct (discover_run config (base_url self) w) as [_ [rest [Hr _]]].
  destruct (_discover_pagination_urls config (base_url self) w)
    as [outcome w1].
  cbn [fst] in Hr. subst outcome. cbv zeta.
  match goal with
  | |- context [scrape_pages self config use_selenium ?urls [] w1] =>
      destruct (scrape_pages_run self config use_selenium urls [] w1
                  (Forall_nil _))
        as [companies [w2 [Hrun [Hnamed _]]]]
  end.
  exists companies. rewrite Hrun. split; [reflexivity|].
  intros company Hin. rewrite Forall_forall in Hnamed.
  apply (Hnamed company Hin).
Qed.

(** X20.  With a positive [max_pages], [scrape_companies] stays within a
    budget.  Without the browser it sends at most [retries] requests for the
    pagination and for each of at most [max_pages] pages, and loads nothing
    in the browser.  With the browser it sends at most [retries] requests,
    all for the pagination, and loads at most [max_pages] pages after at
    most as many attempts to start the browser.  It sleeps between two pages
    fewer than [max_pages] times. *)
Theorem scrape_companies_budget (self : KOnlineScraper)
        (config : scraping_config) (use_selenium : bool) (max_pages : Z)
        (w : world) :
  (0 < max_pages)%Z ->
  let w' := snd (scrape_companies self config use_selenium
                   (Some max_pages) w) in
  let retries := Z.to_nat (effective_retries config None) in
  let pages := Z.to_nat max_pages in
  (requests_made w'
   <= requests_made w
      + (if use_selenium then retries else (1 + pages) * retries))%nat
  /\ (pages_loaded w'
      <= pages_loaded w + (if use_selenium then pages else 0))%nat
  /\ (setups_made w'
      <= setups_made w + (if use_selenium then pages else 0))%nat
  /\ (count_sleeps RateLimit (slept w')
      < count_sleeps RateLimit (slept w) + pages)%nat.
Proof.
  intros Hpos. cbv zeta. unfold scrape_companies, st_bind.
  destruct (discover_run config (base_url self) w) as [Hw [rest [Hr _]]].
  assert (Hreq := make_request_within config (base_url self) None w).
  rewrite <- Hw in Hreq.
  destruct (_discover_pagination_urls config (base_url self) w)
    as [outcome w1].
  cbn [fst snd] in Hr, Hreq. subst outcome.
  replace (max_pages =? 0)%Z with false by (symmetry; apply Z.eqb_neq; lia).
  unfold slice_to.
  replace (0 <=? max_pages)%Z with true by (symmetry; apply Z.leb_le; lia).
  set (urls := firstn (Z.to_nat max_pages) (base_url self :: rest)).
  assert (Hlen : (List.length urls <= Z.to_nat max_pages)%nat)
    by (apply firstn_le_length).
  assert (Hone : (0 < Z.to_nat max_pages)%nat) by lia.
  destruct (scrape_pages_run self config use_selenium urls [] w1
              (Forall_nil _))
    as [companies [w2 [Hrun [_ Hpages]]]].
  rewrite Hrun. cbn [snd].
  assert (Hall := within_trans _ _ _ _ _ _ _ _ _ Hreq Hpages).
  unfold within in Hall. destruct Hall as [H1 [H2 [H3 H4]]].
  destruct use_selenium; repeat split; try lia; nia.
Qed.

(** X21.  When the site answers no request, [scrape_companies] without the
    browser returns the empty list.  It has then sent [retries] requests for
    the pagination and [retries] for the one page that it knows, and slept
    between the requests of each round, but not between pages. *)
Theorem scrape_companies_site_down (self : KOnlineScraper)
        (config : scraping_config) (w : world) :
  let retries := Z.to_nat (effective_retries config None) in
  (forall i, (i < 2 * retries)%nat ->
     session_get (requests_made w + i) (base_url self) = RequestException) ->
  scrape_companies self config false None w
  = (Ok [],
     {| requests_made := requests_made w + 2 * retries;
        setups_made := setups_made w;
        pages_loaded := pages_loaded w;
        slept := slept w ++ repeat RetryDelay (retries - 1)
                         ++ repeat RetryDelay (retries - 1);
        has_driver := has_driver w |}).
Proof.
  cbv zeta. intros Hfail.
  set (retries := Z.to_nat (effective_retries config None)) in *.
  unfold scrape_companies, _discover_pagination_urls, st_bind, st_try,
    _make_request.
  fold retries.
  rewrite attempts_all_fail by (intros i Hi; apply Hfail; lia).
  unfold st_ret. cbn [scrape_pages]. unfold st_bind, st_try,
    scrape_page_with_requests, st_bind, _make_request.
  fold retries.
  rewrite attempts_all_fail.
  - unfold st_ret. cbn [_scrape_page_with_requests app].
    cbn [requests_made setups_made pages_loaded slept has_driver].
    rewrite <- app_assoc.
    replace (requests_made w + retries + retries)%nat
      with (requests_made w + 2 * retries)%nat by lia.
    reflexivity.
  - intros i Hi. cbn [requests_made].
    replace (requests_made w + retries + i)%nat
      with (requests_made w + (retries + i))%nat by lia.
    apply Hfail. lia.
Qed.
End Scraping.

Lemma scrape_companies_budget_witness :
  (0 < 1)%Z
  /\ (k_online_scraper.requests_made
        (snd (k_online_scraper.scrape_companies
                (U := latin1_unicode) (E := insertion_order_env)
                (R := dom.no_match) (W := sample_web 0 dom.sample_page)
                k_online_scraper.init settings.SCRAPING_CONFIG
                false (Some 1%Z) k_online_scraper.initial_world))
      <= 0 + (1 + 1) * 3)%nat.
Proof.
  split; [lia|].
  apply (scrape_companies_budget
           (U := latin1_unicode) (E := insertion_order_env)
           (R := dom.no_match) (W := sample_web 0 dom.sample_page)
           k_online_scraper.init settings.SCRAPING_CONFIG
           false 1%Z k_online_scraper.initial_world).
  lia.
Defined.

Lemma scrape_companies_site_down_witness :
  (forall i, (i < 2 * 3)%nat ->
     k_online_scraper.session_get (Web := sample_web 6 dom.sample_page)
       (0 + i) (k_online_scraper.base_url k_online_scraper.init)
     = k_online_scraper.RequestException)
  /\ fst (k_online_scraper.scrape_companies
            (U := latin1_unicode) (E := insertion_order_env)
            (R := dom.no_match) (W := sample_web 6 dom.sample_page)
            k_online_scraper.init settings.SCRAPING_CONFIG
            false None k_online_scraper.initial_world)
     = Ok [].
Proof.
  assert (H : forall i, (i < 2 * 3)%nat ->
     k_online_scraper.session_get (Web := sample_web 6 dom.sample_page)
       (0 + i) (k_online_scraper.base_url k_online_scraper.init)
     = k_online_scraper.RequestException).
  { intros i Hi.
    destruct i as [|[|[|[|[|[|i]]]]]]; [reflexivity ..|lia]. }
  split; [exact H|].
  rewrite (scrape_companies_site_down
             (U := latin1_unicode) (E := insertion_order_env)
             (R := dom.no_match) (W := sample_web 6 dom.sample_page)
             k_online_scraper.init settings.SCRAPING_CONFIG
             k_online_scraper.initial_world H).
  reflexivity.
Defined.

(** ** Exporting the companies *)

Section Rows.
Context {U : UnicodeData} {E : Environment} {P : data_exporter.Platform}.
Import domain_generator data_exporter.

Lemma dict_set_keys {V} (d : dict V) (k : pystr) (v : V) :
  map fst (dict_set d k v) = set_add (map fst d) k.
Proof.
  unfold set_add. induction d as [|[k0 v0] d IH]; [reflexivity|].
  cbn [dict_set map fst str_mem existsb].
  destruct (str_eqb k k0) eqn:Hk; cbn [orb map fst]; [reflexivity|].
  rewrite IH. unfold str_mem. destruct (existsb (str_eqb k) (map fst d));
    reflexivity.
Qed.

(** One field of a row. *)
Lemma prepare_field_run (company row : dict value) (field : pystr)
      (w : files) :
  exportable company ->
  exists v,
    prepare_field company row field w
    = (Ok (dict_set row field v),
       {| clock_reads :=
            clock_reads w
            + (if str_eqb field (lit "scrape_timestamp") then 1 else 0)%nat;
          opens := opens w;
          written := written w |})
    /\ (copied_field field = true ->
        v = dict_get_default company field (VStr []))
    /\ (field = lit "source_url" ->
        v = dict_get_default company (lit "source_url")
              (VStr settings.K_ONLINE_BASE_URL)).
Proof.
  intros [domains Hd]. unfold prepare_field, copied_field, str_mem.
  cbn [existsb].
  destruct (str_eqb field (lit "generated_domains")) eqn:H1.
  { apply str_eqb_eq in H1. subst field. eval_literal_tests.
    rewrite Hd. unfold st_bind, st_lift, st_ret. eexists. split.
    - destruct w. cbn. rewrite Nat.add_0_r. reflexivity.
    - split; [discriminate|]. intros Heq. vm_compute in Heq. discriminate Heq. }
  destruct (str_eqb field (lit "domain_status")) eqn:H2.
  { apply str_eqb_eq in H2. subst field. eval_literal_tests.
    rewrite Hd. unfold st_bind, st_lift, st_ret. eexists. split.
    - destruct w. cbn. rewrite Nat.add_0_r. reflexivity.
    - split; [discriminate|]. intros Heq. vm_compute in Heq. discriminate Heq. }
  destruct (str_eqb field (lit "scrape_timestamp")) eqn:H3.
  { apply str_eqb_eq in H3. subst field.
    unfold st_bind, read_clock, st_ret. eexists. split.
    - rewrite Nat.add_1_r. reflexivity.
    - split; [discriminate|]. intros Heq. vm_compute in Heq. discriminate Heq. }
  destruct (str_eqb field (lit "source_url")) eqn:H4.
  { unfold st_ret. eexists. split.
    - destruct w. cbn. rewrite Nat.add_0_r. reflexivity.
    - split; [discriminate|]. intros _. reflexivity. }
  unfold st_ret. eexists. split.
  - destruct w. cbn. rewrite Nat.add_0_r. reflexivity.
  - split; [reflexivity|]. intros ->. rewrite str_eqb_refl in H4. discriminate.
Qed.

(** The loop over the fields, for one company. *)
Lemma prepare_row_run (company : dict value) :
  exportable company ->
  forall fields row w,
    exists row',
      st_fold (prepare_field company) fields row w
      = (Ok row',
         {| clock_reads := clock_reads w + stamps fields;
            opens := opens w;
            written := written w |})
      /\ map fst row' = fold_left set_add fields (map fst row)
      /\ (forall k, In k fields -> copied_field k = true ->
            dict_get row' k = Some (dict_get_default company k (VStr [])))
      /\ (In (lit "source_url") fields ->
          dict_get row' (lit "source_url")
          = Some (dict_get_default company (lit "source_url")
                    (VStr settings.K_ONLINE_BASE_URL)))
      /\ (forall k, ~ In k fields -> dict_get row' k = dict_get row k).
Proof.
  intros Hex fields.
  induction fields as [|field rest IH]; intros row w.
  - exists row. cbn [st_fold]. unfold st_ret, stamps. cbn.
    rewrite Nat.add_0_r. destruct w. cbn.
    split; [reflexivity|]. split; [reflexivity|].
    split; [intros k []|]. split; [intros []|reflexivity].
  - cbn [st_fold]. unfold st_bind.
    destruct (prepare_field_run company row field w Hex)
      as [v [Hrun [Hcopy Hsource]]].
    rewrite Hrun.
    match goal with
    | |- context [st_fold _ rest ?r ?w1] =>
        destruct (IH r w1) as [row' [Hrest [Hkeys [Hc [Hs Hother]]]]]
    end.
    exists row'. rewrite Hrest.
    cbn [clock_reads opens written].
    split.
    { f_equal. f_equal. unfold stamps. cbn [filter].
      destruct (str_eqb field (lit "scrape_timestamp"));
        cbn [List.length]; lia. }
    split.
    { rewrite Hkeys, dict_set_keys. reflexivity. }
    assert (Hhere : forall k, k = field -> ~ In k rest ->
                      dict_get row' k = Some v).
    { intros k -> Hn. rewrite (Hother _ Hn), dict_get_set, str_eqb_refl.
      reflexivity. }
    split; [|split].
    + intros k Hin Hk.
      destruct (str_mem k rest) eqn:Hm.
      * apply Hc; [apply str_mem_In; exact Hm|exact Hk].
      * assert (Hn : ~ In k rest)
          by (intros Hin'; apply str_mem_In in Hin'; congruence).
        destruct Hin as [Heq|Hin]; [|contradiction].
        subst k. rewrite (Hhere field eq_refl Hn). f_equal.
        apply Hcopy. exact Hk.
    + intros Hin.
      destruct (str_mem (lit "source_url") rest) eqn:Hm.
      * apply Hs. apply str_mem_In. exact Hm.
      * assert (Hn : ~ In (lit "source_url") rest)
          by (intros Hin'; apply str_mem_In in Hin'; congruence).
        destruct Hin as [Heq|Hin]; [|contradiction].
        rewrite (Hhere _ (eq_sym Heq) Hn). f_equal.
        apply Hsource. exact Heq.
    + intros k Hn. rewrite Hother by (intros Hin; apply Hn; right; exact Hin).
      rewrite dict_get_set.
      destruct (str_eqb k field) eqn:Hk; [|reflexivity].
      apply str_eqb_eq in Hk. subst k. exfalso. apply Hn. left. reflexivity.
Qed.

(** The loop over the companies. *)
Lemma prepare_rows_run (fields : list pystr) :
  forall companies export_data w,
    Forall exportable companies ->
    exists rows,
      st_fold
        (fun export_data company =>
           (row <- st_fold (prepare_field company) fields [] ;;
            st_ret (export_data ++ [row]))%st)
        companies export_data w
      = (Ok (export_data ++ rows),
         {| clock_reads :=
              clock_reads w + List.length companies * stamps fields;
            opens := opens w;
            written := written w |})
      /\ Forall2 (exported_row fields) companies rows.
Proof.
  induction companies as [|company later IH]; intros export_data w Hall.
  - exists []. cbn [st_fold]. unfold st_ret. cbn [List.length Nat.mul].
    rewrite app_nil_r, Nat.add_0_r. destruct w. cbn.
    split; [reflexivity|constructor].
  - inversion Hall as [|? ? Hex Hlater]. subst.
    cbn [st_fold]. unfold st_bind at 1. unfold st_bind at 1.
    destruct (prepare_row_run company Hex fields [] w)
      as [row [Hrow [Hkeys [Hc [Hs _]]]]].
    rewrite Hrow. unfold st_ret at 1.
    match goal with
    | |- context [st_fold _ later ?acc ?w1] =>
        destruct (IH acc w1 Hlater) as [rows [Hrows Hshape]]
    end.
    exists (row :: rows). rewrite Hrows.
    cbn [clock_reads opens written]. rewrite <- app_assoc. cbn [app].
    split.
    + f_equal. f_equal. cbn [List.length]. lia.
    + constructor; [|exact Hshape].
      unfold exported_row. split; [exact Hkeys|]. split; assumption.
Qed.

Lemma prepare_data_for_export_run (companies : list (dict value))
      (fields : option (list pystr)) (w : files) :
  Forall exportable companies ->
  exists rows,
    _prepare_data_for_export companies fields w
    = (Ok rows,
       {| clock_reads :=
            clock_reads w
            + List.length companies * stamps (effective_fields fields);
          opens := opens w;
          written := written w |})
    /\ Forall2 (exported_row (effective_fields fields)) companies rows.
Proof.
  intros Hall. unfold _prepare_data_for_export. cbv zeta.
  assert (Hf : match fields with
               | Some ((_ :: _) as fields) => fields
               | _ => settings.OUTPUT_FIELDS
               end = effective_fields fields)
    by (destruct fields as [[|f fs]|]; reflexivity).
  rewrite Hf.
  destruct (prepare_rows_run (effective_fields fields) companies [] w Hall)
    as [rows [Hrun Hshape]].
  exists rows. split; [exact Hrun|exact Hshape].
Qed.
End Rows.

Section Pipeline.
Context {U : UnicodeData} {E : Environment} {B : Soup} {R : Regex}
        {P : data_exporter.Platform}.
Import domain_generator data_exporter k_online_scraper.

Lemma dict_get_absent {V} (d : dict V) (k : pystr) :
  ~ In k (map fst d) -> dict_get d k = None.
Proof.
  induction d as [|[k0 v0] d IH]; intros Hn; [reflexivity|].
  cbn [dict_get]. destruct (str_eqb k k0) eqn:Hk.
  - apply str_eqb_eq in Hk. subst. exfalso. apply Hn. left. reflexivity.
  - apply IH. intros Hin. apply Hn. right. exact Hin.
Qed.

Lemma as_company_get (record : dict pystr) (k : pystr) :
  dict_get (as_company record) k
  = match dict_get record k with
    | Some s => Some (VStr s)
    | None => None
    end.
Proof.
  induction record as [|[k0 s0] record IH]; [reflexivity|].
  cbn [as_company map dict_get fst snd].
  destruct (str_eqb k k0); [reflexivity|exact IH].
Qed.

(** The keys of a record that [_parse_company_from_element] returns. *)
Lemma parsed_record_schema (self : KOnlineScraper) (element : Tag)
      (source_url : option pystr) (record : dict pystr) :
  _parse_company_from_element self element source_url = Some record ->
  forall k, k <> lit "company_name" ->
            ~ In k validators.optional_fields ->
            dict_get record k = None.
Proof.
  unfold _parse_company_from_element, parse_company_body.
  destruct (extract_name element) as [n|] eqn:Hn.
  2:{ cbn [set_if]. unfold dict_get_default. cbn [dict_get truthy negb].
      discriminate. }
  assert (H0 : dict_get_default (set_if [] (lit "company_name") (Some n))
                                (lit "company_name") [] = n).
  { unfold dict_get_default. cbn [set_if dict_set dict_get].
    rewrite str_eqb_refl. reflexivity. }
  rewrite H0.
  destruct n as [|c n]; cbn [truthy negb]; [discriminate|].
  cbv zeta.
  match goal with
  | |- context [validators.validate_company_data ?cd] => set (CD := cd)
  end.
  clearbody CD.
  assert (Hraise := validate_company_data_raises CD).
  assert (Hok := validate_company_data_returns CD).
  destruct (strip (dict_get_default CD (lit "company_name") []))
    as [|s0 s] eqn:Hs.
  { rewrite (Hraise eq_refl). cbn [bind]. discriminate. }
  destruct (Hok ltac:(discriminate)) as [validated [Hv [_ [_ [Hout _]]]]].
  rewrite Hv. cbn [bind]. intros Hr. inversion Hr. subst record.
  exact Hout.
Qed.

(** X23.  Whenever the value under "generated_domains" of each company is
    absent or a list of domain dictionaries, [_prepare_data_for_export]
    returns one row for each company, in order.  The keys of each row are
    the requested fields, or [OUTPUT_FIELDS] when none are requested, each
    once.  A field that is not computed holds what the company has for it,
    or the empty string; "source_url" holds the company's, or the address of
    the directory.  The clock is read once for each row and each mention of
    "scrape_timestamp", and no file is touched. *)
Theorem prepare_data_for_export_rows (companies : list (dict value))
        (fields : option (list pystr)) (w : files) :
  Forall exportable companies ->
  exists rows,
    _prepare_data_for_export companies fields w
    = (Ok rows,
       {| clock_reads :=
            clock_reads w
            + List.length companies * stamps (effective_fields fields);
          opens := opens w;
          written := written w |})
    /\ Forall2 (exported_row (effective_fields fields)) companies rows.
Proof.
  intros Hall.
  destruct (prepare_data_for_export_run companies fields w Hall)
    as [rows [Hrun Hshape]].
  exists rows. split; assumption.
Qed.

(** X24.  A record of the scraper, once the domain generator has processed
    it, is exported with the default fields as a row that has the columns of
    [OUTPUT_FIELDS] and the name of the record.  Its "original_website" is
    empty and it has no "website", whatever website the scraper found; its
    "source_url" is the address of the directory, whatever page the record
    came from. *)
Theorem exported_row_of_scraped_record
        (self : KOnlineScraper) (generator : DomainGenerator)
        (element : Tag) (source_url : option pystr) (record : dict pystr)
        (w : files) :
  _parse_company_from_element self element source_url = Some record ->
  exists name result row,
    dict_get record (lit "company_name") = Some name
    /\ process_companies generator [as_company record] = Ok [result]
    /\ fst (_prepare_data_for_export [result] None w) = Ok [row]
    /\ map fst row = settings.OUTPUT_FIELDS
    /\ dict_get row (lit "company_name") = Some (VStr name)
    /\ dict_get row (lit "original_website") = Some (VStr [])
    /\ dict_get row (lit "website") = None
    /\ dict_get row (lit "source_url")
       = Some (VStr settings.K_ONLINE_BASE_URL).
Proof.
  intros Hp.
  destruct (parsed_record_name _ _ _ _ Hp) as [name [Hname [Hne _]]].
  assert (Hschema := parsed_record_schema _ _ _ _ Hp).
  assert (Hcn : dict_get_default (as_company record) (lit "company_name")
                                 (VStr []) = VStr name).
  { unfold dict_get_default. rewrite as_company_get, Hname. reflexivity. }
  destruct (process_company_enriched generator (as_company record) name
              Hcn Hne) as [result [Hproc Henr]].
  destruct Henr
    as [name' [domains [counts [_ [_ [Hgd [_ [_ [_ [_ [_ Hkeep]]]]]]]]]]].
  assert (Hex : Forall exportable [result]).
  { constructor; [|constructor]. exists domains. unfold dict_get_default.
    rewrite Hgd. reflexivity. }
  destruct (prepare_data_for_export_run [result] None w Hex)
    as [rows [Hrun Hshape]].
  inversion Hshape as [|? row ? rows' [Hkeys [Hcopy Hsrc]] Hnil]. subst.
  inversion Hnil. subst.
  assert (Hother : forall k, ~ In k added_keys ->
                     k <> lit "company_name" ->
                     ~ In k validators.optional_fields ->
                     dict_get_default result k (VStr []) = VStr []).
  { intros k H1 H2 H3. unfold dict_get_default.
    rewrite (Hkeep k H1), as_company_get, (Hschema k H2 H3). reflexivity. }
  exists name, result, row.
  split; [exact Hname|]. split.
  { unfold process_companies. cbn [for_each]. rewrite Hproc. reflexivity. }
  split; [rewrite Hrun; reflexivity|].
  split; [rewrite Hkeys; vm_compute; reflexivity|].
  split.
  { rewrite Hcopy by (vm_compute; auto 20).
    f_equal. unfold dict_get_default.
    rewrite (Hkeep (lit "company_name")), as_company_get, Hname;
      [reflexivity|].
    vm_compute. intuition discriminate. }
  split.
  { rewrite Hcopy by (vm_compute; auto 20). f_equal.
    apply Hother; vm_compute; intuition discriminate. }
  split.
  { apply dict_get_absent. rewrite Hkeys. vm_compute. intuition discriminate. }
  rewrite Hsrc by (vm_compute; auto 20). f_equal.
  unfold dict_get_default.
  rewrite (Hkeep (lit "source_url")), as_company_get, Hschema;
    try reflexivity; vm_compute; intuition discriminate.
Qed.

(** X25.  On the results of [process_companies], [_prepare_domain_details]
    returns without an error one row for each attached candidate, in order,
    with the domain, the variant, the top-level domain and the status of the
    candidate, and with the name of a result. *)
Theorem prepare_domain_details_rows
        (self : DomainGenerator) (companies results : list (dict value)) :
  process_companies self companies = Ok results ->
  exists details,
    _prepare_domain_details results = Ok details
    /\ Forall2
         (fun d detail =>
            dict_get detail (lit "domain") = Some (VStr (domain d))
            /\ dict_get detail (lit "variant") = Some (VStr (variant d))
            /\ dict_get detail (lit "tld") = Some (VStr (tld d))
            /\ dict_get detail (lit "status") = Some (VStr (status d))
            /\ exists r,
                 In r results
                 /\ dict_get detail (lit "company_name")
                    = Some (dict_get_default r (lit "company_name")
                                             (VStr [])))
         (attached_domains results) details.
Proof.
  intros H. assert (Hwf := processed_wellformed self companies results H).
  clear H. unfold _prepare_domain_details.
  induction results as [|r results IH].
  - exists []. split; [reflexivity|constructor].
  - destruct (Hwf r (or_introl eq_refl)) as [ds [Hgd _]].
    destruct IH as [details [Hd Hshape]].
    { intros r' Hr'. apply Hwf. right. exact Hr'. }
    assert (Hit : iter_domains
                    (dict_get_default r (lit "generated_domains")
                                      (VDomains [])) = Ok ds)
      by (unfold dict_get_default; rewrite Hgd; reflexivity).
    cbn [for_each]. cbv zeta. rewrite Hit.
    cbn [bind]. rewrite Hd. cbn [bind].
    eexists. split; [reflexivity|].
    unfold attached_domains. cbn [flat_map]. rewrite Hgd.
    apply Forall2_app.
    + clear. induction ds as [|d ds IHds]; [constructor|].
      cbn [map]. constructor; [|exact IHds].
      repeat split; try (vm_compute; reflexivity).
      exists r. split; [left; reflexivity|]. reflexivity.
    + eapply Forall2_impl; [|exact Hshape].
      intros d detail [H1 [H2 [H3 [H4 [r' [Hr' H5]]]]]].
      repeat split; try assumption.
      exists r'. split; [right; exact Hr'|exact H5].
Qed.
End Pipeline.

Section Exports.
Context {U : UnicodeData} {E : Environment} {P : data_exporter.Platform}.
Import domain_generator data_exporter.

Lemma extension_lookup (k : pystr) :
  dict_get_default extensions k (lit ".csv")
  = if str_eqb k (lit "json") then lit ".json"
    else if str_eqb k (lit "excel") || str_eqb k (lit "xlsx")
         then lit ".xlsx"
         else lit ".csv".
Proof.
  unfold dict_get_default, extensions, dict_display. cbn [fold_left fst snd].
  rewrite !dict_get_set. cbn [dict_get].
  destruct (str_eqb k (lit "xlsx")) eqn:H4.
  { apply str_eqb_eq in H4. subst k. vm_compute. reflexivity. }
  destruct (str_eqb k (lit "excel")) eqn:H3.
  { apply str_eqb_eq in H3. subst k. vm_compute. reflexivity. }
  destruct (str_eqb k (lit "json")) eqn:H2; [reflexivity|].
  destruct (str_eqb k (lit "csv")); reflexivity.
Qed.

(** What [_generate_filename] returns and leaves behind. *)
Lemma generate_filename_run (self : DataExporter) (format_type : pystr)
      (custom_name : option pystr) (w : files) :
  exists base_name w',
    _generate_filename self format_type custom_name w
    = (Ok (base_name
           ++ dict_get_default extensions (lower format_type) (lit ".csv")),
       w')
    /\ opens w' = opens w
    /\ written w' = written w
    /\ (forall name, custom_name = Some name -> name <> [] ->
        settings.include_timestamp (exporter_config self) = Some false ->
        base_name = validators.sanitize_filename name).
Proof.
  unfold _generate_filename. cbv zeta. unfold st_bind, read_clock, st_ret.
  destruct (settings.include_timestamp (exporter_config self)) as [[|]|];
    eexists; eexists; (split; [reflexivity|]);
    (split; [reflexivity|]); (split; [reflexivity|]);
    intros name -> Hne Hts; try discriminate Hts.
  destruct name; [congruence|reflexivity].
Qed.

Lemma filename_or_generated_run (self : DataExporter)
      (filename : option pystr) (format_type : pystr) (w : files) :
  exists name w',
    filename_or_generated self filename format_type w = (Ok name, w')
    /\ opens w' = opens w
    /\ written w' = written w.
Proof.
  unfold filename_or_generated.
  destruct (generate_filename_run self format_type None w)
    as [base [w' [Hrun [Ho [Hw _]]]]].
  destruct filename as [name|].
  - destruct (truthy name).
    + exists name, w. repeat split.
    + eexists. exists w'. split; [exact Hrun|]. split; assumption.
  - eexists. exists w'. split; [exact Hrun|]. split; assumption.
Qed.

Lemma csv_is_supported : validators.validate_export_format (lit "csv") = true.
Proof. vm_compute. reflexivity. Qed.

Lemma json_is_supported :
  validators.validate_export_format (lit "json") = true.
Proof. vm_compute. reflexivity. Qed.

(** The writer takes every row whose keys are the field names. *)
Lemma writerows_complete (fieldnames : list pystr)
      (rowdicts : list (dict value)) :
  Forall (fun rowdict => map fst rowdict = fieldnames) rowdicts ->
  writerows fieldnames rowdicts = (map (line_of fieldnames) rowdicts, None).
Proof.
  induction rowdicts as [|rowdict later IH]; intros Hall; [reflexivity|].
  inversion Hall as [|? ? Hkeys Hlater]. subst.
  cbn [writerows map]. unfold dict_to_list.
  assert (Hin : forallb (fun kv => str_mem (fst kv) (map fst rowdict)) rowdict
                = true).
  { apply forallb_forall. intros kv Hkv. apply str_mem_In.
    apply in_map. exact Hkv. }
  rewrite Hin, (IH Hlater). reflexivity.
Qed.

(** X22.  The file name that [_generate_filename] returns never raises and
    ends in ".json" for "json", in ".xlsx" for "excel" and "xlsx", and in
    ".csv" for everything else, in whatever case the format is written: a
    format that [validate_export_format] turns down gets ".csv".  No file is
    opened or written.  With a custom name and without the time stamp, the
    name has none of the characters that [sanitize_filename] replaces. *)
Theorem generate_filename_extension (self : DataExporter)
        (format_type : pystr) (custom_name : option pystr) (w : files) :
  exists base_name extension,
    fst (_generate_filename self format_type custom_name w)
    = Ok (base_name ++ extension)
    /\ extension
       = (if str_eqb (lower format_type) (lit "json") then lit ".json"
          else if str_mem (lower format_type) [lit "excel"; lit "xlsx"]
               then lit ".xlsx"
               else lit ".csv")
    /\ (validators.validate_export_format format_type = false ->
        extension = lit ".csv")
    /\ opens (snd (_generate_filename self format_type custom_name w))
       = opens w
    /\ written (snd (_generate_filename self format_type custom_name w))
       = written w
    /\ (forall name, custom_name = Some name -> name <> [] ->
        settings.include_timestamp (exporter_config self) = Some false ->
        forall c, In c (base_name ++ extension) ->
                  validators.invalid_filename_char c = false).
Proof.
  destruct (generate_filename_run self format_type custom_name w)
    as [base [w' [Hrun [Ho [Hw Hbase]]]]].
  rewrite Hrun. cbn [fst snd]. rewrite extension_lookup.
  exists base. eexists. split; [reflexivity|].
  assert (Hext : forall c,
             In c (if str_eqb (lower format_type) (lit "json")
                   then lit ".json"
                   else if str_eqb (lower format_type) (lit "excel")
                           || str_eqb (lower format_type) (lit "xlsx")
                        then lit ".xlsx"
                        else lit ".csv") ->
             validators.invalid_filename_char c = false).
  { intros c.
    destruct (str_eqb (lower format_type) (lit "json"));
      [|destruct (str_eqb (lower format_type) (lit "excel")
                  || str_eqb (lower format_type) (lit "xlsx"))];
      vm_compute; intuition (subst; reflexivity). }
  split.
  { unfold str_mem. cbn [existsb]. rewrite orb_false_r. reflexivity. }
  split.
  { unfold validators.validate_export_format, validators.supported_formats,
      str_mem. cbn [existsb]. rewrite orb_false_r. intros Hno.
    apply orb_false_iff in Hno. destruct Hno as [_ Hno].
    apply orb_false_iff in Hno. destruct Hno as [-> Hno].
    rewrite Hno. reflexivity. }
  split; [exact Ho|]. split; [exact Hw|].
  intros name Hc Hne Hts c Hin. apply in_app_or in Hin.
  destruct Hin as [Hin|Hin]; [|apply Hext; exact Hin].
  rewrite (Hbase name Hc Hne Hts) in Hin.
  apply (sanitize_filename_chars name c Hin).
Qed.

(** X26.  An export of no companies.  [export_to_csv] returns the path of
    the file without opening or writing it.  [export_to_json] opens the file
    and, unless that raises, writes a document with no companies and no
    fields. *)
Theorem export_of_no_companies (self : DataExporter)
        (filename : option pystr) (fields : option (list pystr))
        (w : files) :
  (exists name,
     fst (filename_or_generated self filename (lit "csv") w) = Ok name
     /\ fst (export_to_csv self [] filename fields w)
        = Ok (path_join (output_dir self) name)
     /\ opens (snd (export_to_csv self [] filename fields w)) = opens w
     /\ written (snd (export_to_csv self [] filename fields w)) = written w)
  /\ (exists name,
        fst (filename_or_generated self filename (lit "json") w) = Ok name
        /\ match open_for_writing (opens w)
                                  (path_join (output_dir self) name) with
           | Ok _ =>
               fst (export_to_json self [] filename fields w)
               = Ok (path_join (output_dir self) name)
               /\ exists export_timestamp,
                    written (snd (export_to_json self [] filename fields w))
                    = written w
                      ++ [(path_join (output_dir self) name,
                           JsonDocument export_timestamp 0%Z [] [])]
           | Raise e =>
               fst (export_to_json self [] filename fields w) = Raise e
               /\ written (snd (export_to_json self [] filename fields w))
                  = written w
           end).
Proof.
  split.
  - unfold export_to_csv. rewrite csv_is_supported. cbn [negb].
    unfold st_bind.
    destruct (filename_or_generated_run self filename (lit "csv") w)
      as [name [w1 [Hrun [Ho Hw]]]].
    rewrite Hrun. exists name. cbn [fst].
    destruct (prepare_data_for_export_run [] fields w1 (Forall_nil _))
      as [rows [Hrows Hshape]].
    inversion Hshape. subst. rewrite Hrows. unfold st_ret. cbn [fst snd].
    cbn [opens written]. repeat split; assumption.
  - unfold export_to_json. rewrite json_is_supported. cbn [negb].
    unfold st_bind.
    destruct (filename_or_generated_run self filename (lit "json") w)
      as [name [w1 [Hrun [Ho Hw]]]].
    rewrite Hrun. exists name. cbn [fst]. split; [reflexivity|].
    cbn [st_fold]. unfold st_ret, open_file, read_clock, write.
    rewrite Ho.
    destruct (open_for_writing (opens w) (path_join (output_dir self) name)).
    + cbn [fst snd written List.length].
      rewrite Hw. split; [reflexivity|]. eexists. reflexivity.
    + cbn [fst snd written]. split; [reflexivity|exact Hw].
Qed.

(** X27.  [export_to_csv] for companies that can be exported.  Unless
    opening the file raises, it returns the path of the file, and the file
    gets the fields as its header, each once, and one line for each company,
    in order, with one cell for each column; the cell of a field that is
    copied holds what the company has for it, or the empty string.  The
    writer never turns a row down.  When opening the file raises, the
    exception goes on and nothing is written. *)
Theorem export_to_csv_document (self : DataExporter)
        (companies : list (dict value)) (filename : option pystr)
        (fields : option (list pystr)) (w : files) :
  companies <> [] ->
  Forall exportable companies ->
  exists name,
    fst (filename_or_generated self filename (lit "csv") w) = Ok name
    /\ match open_for_writing (opens w)
                              (path_join (output_dir self) name) with
       | Ok _ =>
           fst (export_to_csv self companies filename fields w)
           = Ok (path_join (output_dir self) name)
           /\ exists rowdicts,
                written (snd (export_to_csv self companies filename fields w))
                = written w
                  ++ [(path_join (output_dir self) name,
                       CsvDocument
                         (assigned_keys (effective_fields fields))
                         (map (line_of
                                 (assigned_keys (effective_fields fields)))
                              rowdicts))]
                /\ Forall2 (exported_row (effective_fields fields))
                           companies rowdicts
       | Raise e =>
           fst (export_to_csv self companies filename fields w) = Raise e
           /\ written (snd (export_to_csv self companies filename fields w))
              = written w
       end.
Proof.
  intros Hne Hall.
  unfold export_to_csv. rewrite csv_is_supported. cbn [negb].
  unfold st_bind.
  destruct (filename_or_generated_run self filename (lit "csv") w)
    as [name [w1 [Hrun [Ho Hw]]]].
  rewrite Hrun. exists name. cbn [fst]. split; [reflexivity|].
  destruct (prepare_data_for_export_run companies fields w1 Hall)
    as [rows [Hrows Hshape]].
  rewrite Hrows.
  destruct rows as [|first rows'].
  { inversion Hshape. subst. congruence. }
  unfold open_file. cbn [opens written clock_reads]. rewrite Ho.
  destruct (open_for_writing (opens w) (path_join (output_dir self) name)).
  - cbv zeta. assert (Hkeys : Forall (fun rowdict =>
                              map fst rowdict = map fst first)
                           (first :: rows')).
    { assert (Hfirst : map fst first
                       = assigned_keys (effective_fields fields)).
      { inversion Hshape as [|? ? ? ? [Hk _] _]. exact Hk. }
      rewrite Hfirst. clear - Hshape.
      induction Hshape as [|c r cs rs [Hk _] _ IH]; constructor; assumption. }
    rewrite (writerows_complete _ _ Hkeys).
    unfold write, st_ret. cbn [fst snd written].
    split; [reflexivity|].
    exists (first :: rows'). split; [|exact Hshape].
    assert (Hfirst : map fst first
                     = assigned_keys (effective_fields fields)).
    { inversion Hshape as [|? ? ? ? [Hk _] _]. exact Hk. }
    rewrite Hfirst, Hw. reflexivity.
  - cbn [fst snd written]. split; [reflexivity|exact Hw].
Qed.
End Exports.

Section Dispatch.
Context {U : UnicodeData} {E : Environment} {P : data_exporter.Platform}.
Import domain_generator data_exporter.
Variable export_to_excel :
  DataExporter -> list (dict value) -> option pystr ->
  option (list pystr) -> stateful files pystr.

(** X28.  [export] accepts the formats that [validate_export_format]
    accepts, in whatever case they are written: for these it is one of the
    three exporters.  For every other format it raises [ValueError] and
    nothing else happens: no file name is made, no file is opened. *)
Theorem export_supported_formats (self : DataExporter)
        (companies : list (dict value)) (format_type : option pystr)
        (filename : option pystr) (fields : option (list pystr))
        (w : files) :
  if validators.validate_export_format (requested_format self format_type)
  then
    export export_to_excel self companies format_type filename fields w
    = export_to_csv self companies filename fields w
    \/ export export_to_excel self companies format_type filename fields w
       = export_to_json self companies filename fields w
    \/ export export_to_excel self companies format_type filename fields w
       = export_to_excel self companies filename fields w
  else
    export export_to_excel self companies format_type filename fields w
    = (Raise ValueError, w).
Proof.
  unfold export. cbv zeta. fold (requested_format self format_type).
  unfold validators.validate_export_format, validators.supported_formats,
    str_mem. cbn [existsb]. rewrite !orb_false_r.
  destruct (str_eqb (lower (requested_format self format_type)) (lit "csv"));
    [left; reflexivity|].
  destruct (str_eqb (lower (requested_format self format_type)) (lit "json"));
    [right; left; reflexivity|].
  cbn [orb].
  destruct (str_eqb (lower (requested_format self format_type))
                    (lit "excel")
            || str_eqb (lower (requested_format self format_type))
                       (lit "xlsx"));
    [right; right; reflexivity|reflexivity].
Qed.
End Dispatch.

Lemma demo_companies_exportable : Forall exportable demo_companies.
Proof.
  repeat constructor; exists []; vm_compute; reflexivity.
Qed.

Lemma prepare_data_for_export_rows_witness :
  Forall exportable demo_companies
  /\ exists rows,
       fst (data_exporter._prepare_data_for_export
              (P := sample_platform) demo_companies None
              data_exporter.no_files)
       = Ok rows
       /\ List.length rows = 3%nat.
Proof.
  split; [exact demo_companies_exportable|].
  destruct (prepare_data_for_export_rows
              (P := sample_platform) demo_companies None
              data_exporter.no_files demo_companies_exportable)
    as [rows [Hrun Hshape]].
  exists rows. rewrite Hrun. split; [reflexivity|].
  apply Forall2_length in Hshape. rewrite <- Hshape. reflexivity.
Defined.

Lemma exported_row_of_scraped_record_witness :
  k_online_scraper._parse_company_from_element
    (U := latin1_unicode) (E := insertion_order_env)
    (B := dom.latin1_soup) (R := dom.no_match)
    k_online_scraper.init dom.linked_listing None
  = Some [ (lit "company_name", lit "Delta Werke AG");
           (lit "website", lit "https://www.delta-werke.de/") ]
  /\ exists result row,
       domain_generator.process_companies
         (U := latin1_unicode) (E := insertion_order_env)
         (domain_generator.create_domain_generator None)
         [ as_company
             [ (lit "company_name", lit "Delta Werke AG");
               (lit "website", lit "https://www.delta-werke.de/") ] ]
       = Ok [result]
       /\ fst (data_exporter._prepare_data_for_export
                 (P := sample_platform) [result] None
                 data_exporter.no_files)
          = Ok [row]
       /\ dict_get row (lit "company_name")
          = Some (domain_generator.VStr (lit "Delta Werke AG"))
       /\ dict_get row (lit "original_website")
          = Some (domain_generator.VStr [])
       /\ dict_get row (lit "website") = None
       /\ dict_get row (lit "source_url")
          = Some (domain_generator.VStr settings.K_ONLINE_BASE_URL).
Proof.
  assert (H : k_online_scraper._parse_company_from_element
                (U := latin1_unicode) (E := insertion_order_env)
                (B := dom.latin1_soup) (R := dom.no_match)
                k_online_scraper.init dom.linked_listing None
              = Some [ (lit "company_name", lit "Delta Werke AG");
                       (lit "website", lit "https://www.delta-werke.de/") ])
    by (vm_compute; reflexivity).
  split; [exact H|].
  destruct (exported_row_of_scraped_record
              (U := latin1_unicode) (E := insertion_order_env)
              (B := dom.latin1_soup) (R := dom.no_match)
              (P := sample_platform)
              k_online_scraper.init
              (domain_generator.create_domain_generator None)
              dom.linked_listing None _ data_exporter.no_files H)
    as [name [result [row [Hname [Hp [Hr [_ [H1 [H2 [H3 H4]]]]]]]]]].
  exists result, row. vm_compute in Hname. inversion Hname. subst name.
  split; [exact Hp|]. split; [exact Hr|].
  split; [exact H1|]. split; [exact H2|]. split; [exact H3|exact H4].
Defined.

Lemma prepare_domain_details_rows_witness :
  exists results,
    domain_generator.process_companies
      (U := latin1_unicode) (E := insertion_order_env)
      (domain_generator.create_domain_generator None) demo_companies
    = Ok results
    /\ exists details,
         data_exporter._prepare_domain_details results = Ok details
         /\ List.length details = 98%nat.
Proof.
  destruct (domain_generator.process_companies
              (U := latin1_unicode) (E := insertion_order_env)
              (domain_generator.create_domain_generator None) demo_companies)
    as [results|e] eqn:Hp; [|vm_compute in Hp; discriminate Hp].
  exists results. split; [reflexivity|].
  destruct (prepare_domain_details_rows
              (U := latin1_unicode) (E := insertion_order_env)
              (domain_generator.create_domain_generator None)
              demo_companies results Hp)
    as [details [Hd Hshape]].
  exists details. split; [exact Hd|].
  apply Forall2_length in Hshape. rewrite <- Hshape.
  assert (Hr : results
               = match domain_generator.process_companies
                         (U := latin1_unicode) (E := insertion_order_env)
                         (domain_generator.create_domain_generator None)
                         demo_companies with
                 | Ok r => r
                 | Raise _ => []
                 end) by (rewrite Hp; reflexivity).
  rewrite Hr. vm_compute. reflexivity.
Defined.

Lemma export_to_csv_document_witness :
  demo_companies <> []
  /\ Forall exportable demo_companies
  /\ fst (data_exporter.export_to_csv
            (U := latin1_unicode) (P := sample_platform)
            (data_exporter.create_data_exporter None) demo_companies
            None None data_exporter.no_files)
     = Ok (lit "output/k_online_companies_20240101_120000.csv").
Proof.
  assert (Hne : demo_companies <> []) by discriminate.
  split; [exact Hne|]. split; [exact demo_companies_exportable|].
  destruct (export_to_csv_document
              (U := latin1_unicode) (P := sample_platform)
              (data_exporter.create_data_exporter None) demo_companies
              None None data_exporter.no_files Hne
              demo_companies_exportable)
    as [name [Hname Hrun]].
  vm_compute in Hname. inversion Hname. subst name.
  cbn [data_exporter.open_for_writing sample_platform] in Hrun.
  destruct Hrun as [Hrun _]. rewrite Hrun. vm_compute. reflexivity.
Defined.

Section Json.
Context {U : UnicodeData} {E : Environment} {P : data_exporter.Platform}.
Import domain_generator data_exporter.

(** A dictionary comprehension over [fields]. *)
Lemma comprehension_lookup {V} (g : pystr -> V) (fields : list pystr)
      (k : pystr) :
  forall d,
    dict_get
      (fold_left (fun d kv => dict_set d (fst kv) (snd kv))
                 (map (fun field => (field, g field)) fields) d) k
    = if str_mem k fields then Some (g k) else dict_get d k.
Proof.
  induction fields as [|f fields IH]; intros d; [reflexivity|].
  cbn [map fold_left fst snd]. rewrite IH, dict_get_set.
  unfold str_mem. cbn [existsb].
  destruct (existsb (str_eqb k) fields); [rewrite orb_true_r; reflexivity|].
  rewrite orb_false_r.
  destruct (str_eqb k f) eqn:Hk; [|reflexivity].
  apply str_eqb_eq in Hk. subst. reflexivity.
Qed.

(** The loop of [export_to_json] over the companies. *)
Lemma json_entries_run (fields : option (list pystr)) :
  forall companies export_data w,
    exists exported w',
      st_fold
        (fun export_data company =>
           let filtered_company :=
             match chosen_fields fields with
             | Some fields =>
                 dict_display
                   (map (fun field =>
                           (field,
                            dict_get_default company field (VStr [])))
                        fields)
             | None => company
             end in
           (timestamp <- read_clock now_isoformat ;;
            let filtered_company :=
              dict_set filtered_company (lit "scrape_timestamp")
                       (VStr timestamp) in
            let filtered_company :=
              dict_set filtered_company (lit "source_url")
                (dict_get_default company (lit "source_url")
                   (VStr (lit "https://www.k-online.de/vis/v1/de/directory/a")))
            in
            st_ret (export_data ++ [filtered_company]))%st)
        companies export_data w
      = (Ok (export_data ++ exported), w')
      /\ opens w' = opens w
      /\ written w' = written w
      /\ Forall2 (json_entry fields) companies exported.
Proof.
  match goal with
  | |- forall companies export_data w,
         exists _ _, st_fold ?f _ _ _ = _ /\ _ => set (step := f)
  end.
  induction companies as [|company later IH]; intros export_data w.
  - exists [], w. cbn [st_fold]. unfold st_ret. rewrite app_nil_r.
    repeat split. constructor.
  - cbn [st_fold]. unfold st_bind at 1. unfold step at 1. cbv zeta.
    unfold st_bind at 1. unfold read_clock at 1. unfold st_ret at 1.
    match goal with
    | |- context [st_fold _ later ?acc ?w1] =>
        destruct (IH acc w1) as [exported [w' [Hrun [Ho [Hw Hshape]]]]]
    end.
    rewrite Hrun. rewrite <- app_assoc. cbn [app].
    eexists. exists w'. split; [reflexivity|].
    cbn [opens written] in Ho, Hw.
    split; [exact Ho|]. split; [exact Hw|].
    constructor; [|exact Hshape].
    unfold json_entry. split; [|split].
    + exists (now_isoformat (clock_reads w)). rewrite !dict_get_set.
      rewrite str_eqb_refl. eval_literal_tests. cbv iota. reflexivity.
    + rewrite dict_get_set, str_eqb_refl.
      unfold settings.K_ONLINE_BASE_URL. reflexivity.
    + intros k H1 H2. rewrite !dict_get_set.
      destruct (str_eqb k (lit "source_url")) eqn:Hs.
      { apply str_eqb_eq in Hs. contradiction. }
      destruct (str_eqb k (lit "scrape_timestamp")) eqn:Ht.
      { apply str_eqb_eq in Ht. contradiction. }
      destruct (chosen_fields fields) as [requested|]; [|reflexivity].
      unfold dict_display. rewrite comprehension_lookup. reflexivity.
Qed.

(** X29.  [export_to_json] for any companies.  Unless opening the file
    raises, it returns the path of the file, and the file gets a document
    that counts the companies and holds one entry for each, in order: the
    requested fields of the company, or all its keys when none are
    requested, with a time stamp and the source on top.  When opening the
    file raises, the exception goes on and nothing is written. *)
Theorem export_to_json_document (self : DataExporter)
        (companies : list (dict value)) (filename : option pystr)
        (fields : option (list pystr)) (w : files) :
  exists name,
    fst (filename_or_generated self filename (lit "json") w) = Ok name
    /\ match open_for_writing (opens w)
                              (path_join (output_dir self) name) with
       | Ok _ =>
           fst (export_to_json self companies filename fields w)
           = Ok (path_join (output_dir self) name)
           /\ exists export_timestamp listed exported,
                written (snd (export_to_json self companies filename fields
                                             w))
                = written w
                  ++ [(path_join (output_dir self) name,
                       JsonDocument export_timestamp
                                    (Z.of_nat (List.length companies))
                                    listed exported)]
                /\ Forall2 (json_entry fields) companies exported
       | Raise e =>
           fst (export_to_json self companies filename fields w) = Raise e
           /\ written (snd (export_to_json self companies filename fields w))
              = written w
       end.
Proof.
  destruct (filename_or_generated_run self filename (lit "json") w)
    as [name [w1 [Hname [Ho Hw]]]].
  exists name. rewrite Hname. split; [reflexivity|].
  destruct (json_entries_run fields companies [] w1)
    as [exported [w2 [Hloop [Ho2 [Hw2 Hshape]]]]].
  cbv zeta in Hloop. cbn [app] in Hloop.
  destruct (export_to_json self companies filename fields w)
    as [outcome w'] eqn:Hexp.
  cbn [fst snd]. unfold export_to_json in Hexp.
  assert (Hj := json_is_supported).
  destruct (validators.validate_export_format (lit "json"));
    [clear Hj|discriminate Hj].
  cbn [negb] in Hexp. unfold st_bind at 1 in Hexp. rewrite Hname in Hexp.
  unfold st_bind at 1 in Hexp. rewrite Hloop in Hexp.
  unfold st_bind, open_file, read_clock, write, st_ret in Hexp.
  rewrite Ho2, Ho in Hexp.
  destruct (open_for_writing (opens w) (path_join (output_dir self) name));
    inversion Hexp; subst; cbn [written].
  - split; [reflexivity|].
    eexists. eexists. exists exported. split; [|exact Hshape].
    rewrite Hw2, Hw. apply Forall2_length in Hshape. rewrite Hshape.
    reflexivity.
  - split; [reflexivity|]. rewrite Hw2. exact Hw.
Qed.
End Json.
